(** * wb-hook: a webhook sink with live viewers

    Shallow embedding of the three server variants of the repository and
    the properties of its capture-and-notify pipeline:

    - [Sqlite]   : [app.js], one SQLite database per bin;
    - [JsonFile] : [app-json.js], one JSON document [{name, requests}] per bin;
    - [Legacy]   : the server in [unnamed/part_000], one JSON array per bin.

    Handlers are state transformers [State -> State * Reply].  The file
    system is a finite map from the file a path names to the parsed
    content of that file, [sseClients] is the global object of the
    source with the properties it inherits, and every response object of
    a live stream is a handle with the list of chunks written to it so
    far.  Node runs one handler at a time; interleaving of the
    asynchronous steps inside one handler is not modelled, nor are
    failing reads and writes of an existing file, files that do not
    parse, and names in a request body that are not strings.  Paths are POSIX paths on
    a file system that tells upper from lower case and has no links. *)

From Stdlib Require Import ZArith String Ascii List Sorting.Sorted.
From stdpp Require Import base option list sorting gmap strings pretty.

Set Warnings "-register-all".

Local Open Scope Z_scope.

(** ** Values exchanged with the runtime *)

Inductive json :=
| JNull
| JBool (b : bool)
| JNum (n : Z)
| JStr (s : string)
| JArr (items : list json)
| JObj (fields : list (string * json)).

(** Library functions the handlers call, and what the installation
    fixes.  Their results are used as they come; nothing below depends
    on how they are computed.  [decodeURIComponent] is what the router
    applies to a path parameter ([None]: malformed escape).
    [sqlite_integer_of_text] is the numeric affinity SQLite applies to a
    TEXT parameter compared with an INTEGER column ([None]: the text
    stays TEXT and equals no integer).  [SQLITE_MAX_VARIABLE_NUMBER] is
    the largest number of [?] parameters a statement may have.
    [dirname] is [__dirname], the segments of the directory of the
    program from the root on. *)
Class Platform := {
  JSON_stringify : json -> string;
  JSON_parse : string -> json;
  decodeURIComponent : string -> option string;
  sqlite_integer_of_text : string -> option Z;
  SQLITE_MAX_VARIABLE_NUMBER : positive;
  dirname : list string
}.

(** The object [requestData] built by the catch-all route. *)
Record RequestData := {
  url : string;
  method : string;
  headers : json;
  body : json;
  timestamp : string
}.

(** [requestData] once [logNumber] has been set on it. *)
Record LogEntry := {
  logNumber : Z;
  e_timestamp : string;
  e_method : string;
  e_url : string;
  e_headers : json;
  e_body : json
}.

Definition with_logNumber (d : RequestData) (n : Z) : LogEntry :=
  {| logNumber := n; e_timestamp := timestamp d; e_method := method d;
     e_url := url d; e_headers := headers d; e_body := body d |}.

(** Key order of the object after [requestData.logNumber = n]. *)
Definition entry_json (e : LogEntry) : json :=
  JObj [("url", JStr (e_url e)); ("method", JStr (e_method e));
        ("headers", e_headers e); ("body", e_body e);
        ("timestamp", JStr (e_timestamp e)); ("logNumber", JNum (logNumber e))].

Record Request := {
  originalUrl : string;
  req_method : string;
  req_headers : json;
  req_body : json
}.

(** The object the catch-all route hands to [logRequest]; [now] is
    [new Date().toISOString()]. *)
Definition request_data (req : Request) (now : string) : RequestData :=
  {| url := originalUrl req; method := req_method req;
     headers := req_headers req; body := req_body req; timestamp := now |}.

Record Summary := {
  s_guid : string;
  s_name : option json;
  requestCount : nat;
  firstRequestTime : option string;
  lastRequestTime : option string
}.

(** How a call ends: with a value, or with an exception. *)
Inductive completion (A : Type) :=
| Returned (a : A)
| Thrown (message : string).

Arguments Returned {A} a.
Arguments Thrown {A} message.

(** What a request is answered with.  [Unmatched] and [Malformed] are
    the answers of the router when no route takes the request (404) and
    when a path parameter does not decode (400); [Failed] is its answer
    when a handler throws while it runs (500).  [Uncaught] is an
    exception or a rejected promise that nothing handles: no answer is
    sent.  Node ends the process on it unless it is told otherwise; the
    runs below go on after it, so that what holds of every run holds of
    the runs that end there.  [NoReply] is the end of a timer or
    listener, which answers nobody. *)
Inductive Reply :=
| SendStatus (code : nat)
| Send (code : nat) (text : string)
| JsonCreated (guid : string) (name : option json)
| JsonLog (name : option json) (requests : option (list LogEntry))
| JsonArray (requests : list LogEntry)
| JsonUrls (rows : list Summary)
| StreamOpen
| NoReply
| Unmatched
| Malformed
| Failed (message : string)
| Uncaught (message : string).

Definition status_of (r : Reply) : nat :=
  match r with
  | SendStatus c | Send c _ => c
  | JsonCreated _ _ | JsonLog _ _ | JsonArray _ | JsonUrls _ | StreamOpen => 200
  | Unmatched => 404
  | Malformed => 400
  | Failed _ => 500
  | NoReply | Uncaught _ => 0
  end.

(** The value [logRequest] resolves to: [{status}] or [{status, error}]. *)
Record Result := { status : nat; error : option string }.

Definition reply_of_result (r : Result) : Reply :=
  match error r with
  | Some e => Send (status r) e
  | None => SendStatus (status r)
  end.

(** ** [parseInt] on a path parameter

    Leading white space, a sign, an optional [0x] prefix, then the
    longest run of digits of the radix; [None] is [NaN].  Strings are
    the UTF-8 texts of the strings of the source.  The result is exact
    (the source rounds to a double above 2^53). *)

Definition is_space (c : ascii) : bool :=
  let n := nat_of_ascii c in
  ((9 <=? n)%nat && (n <=? 13)%nat) || (n =? 32)%nat.

(** The third byte of the white space U+2000 to U+200A, U+2028, U+2029
    and U+202F, which all begin with the bytes 226 and 128. *)
Definition is_general_space (c : ascii) : bool :=
  let n := nat_of_ascii c in
  ((128 <=? n)%nat && (n <=? 138)%nat) || (n =? 168)%nat || (n =? 169)%nat
  || (n =? 175)%nat.

(** What [parseInt] skips: the white space and the line terminators,
    those of ASCII and U+00A0, U+1680, U+2000 to U+200A, U+2028, U+2029,
    U+202F, U+205F, U+3000 and U+FEFF. *)
Fixpoint skip_space (s : string) : string :=
  match s with
  | String c r =>
      if is_space c then skip_space r
      else
        match c, r with
        | "194"%char, String "160" r' => skip_space r'
        | "225"%char, String "154" (String "128" r') => skip_space r'
        | "226"%char, String "128" (String d r') =>
            if is_general_space d then skip_space r' else s
        | "226"%char, String "129" (String "159" r') => skip_space r'
        | "227"%char, String "128" (String "128" r') => skip_space r'
        | "239"%char, String "187" (String "191" r') => skip_space r'
        | _, _ => s
        end
  | EmptyString => s
  end.

Definition digit_value (c : ascii) : option Z :=
  let n := Z.of_nat (nat_of_ascii c) in
  if (48 <=? n) && (n <=? 57) then Some (n - 48)
  else if (97 <=? n) && (n <=? 122) then Some (n - 87)
  else if (65 <=? n) && (n <=? 90) then Some (n - 55)
  else None.

Fixpoint parse_digits (radix : Z) (s : string) (acc : option Z) : option Z :=
  match s with
  | String c r =>
      match digit_value c with
      | Some d =>
          if d <? radix
          then parse_digits radix r (Some (default 0 acc * radix + d))
          else acc
      | None => acc
      end
  | EmptyString => acc
  end.

Definition parseInt (s : string) : option Z :=
  let s1 := skip_space s in
  let '(negative, s2) :=
    match s1 with
    | String "-" r => (true, r)
    | String "+" r => (false, r)
    | _ => (false, s1)
    end in
  let '(radix, s3) :=
    match s2 with
    | String "0" (String "x" r) | String "0" (String "X" r) => (16, r)
    | _ => (10, s2)
    end in
  match parse_digits radix s3 None with
  | Some n => Some (if negative then - n else n)
  | None => None
  end.

(** ** Strings *)

Definition LF : string := String "010" EmptyString.

(** The character [c] does not occur in [s]. *)
Fixpoint lacks (c : ascii) (s : string) : bool :=
  match s with
  | String x r => negb (Ascii.eqb x c) && lacks c r
  | EmptyString => true
  end.

(** [s] up to the first [stop], and the rest from that [stop] on. *)
Fixpoint break_at (stop : ascii) (s : string) : string * string :=
  match s with
  | String c r =>
      if Ascii.eqb c stop then (EmptyString, s)
      else let '(a, b) := break_at stop r in (String c a, b)
  | EmptyString => (EmptyString, EmptyString)
  end.

(** [s.split(sep)]: the pieces between the separators, one more than
    there are separators. *)
Fixpoint split (sep : ascii) (s : string) : list string :=
  match s with
  | EmptyString => [EmptyString]
  | String c r =>
      if Ascii.eqb c sep then EmptyString :: split sep r
      else
        match split sep r with
        | piece :: pieces => String c piece :: pieces
        | [] => [String c EmptyString]
        end
  end.

(** [parts.join(sep)] *)
Fixpoint join (sep : string) (parts : list string) : string :=
  match parts with
  | [] => EmptyString
  | [x] => x
  | x :: rest => x +:+ sep +:+ join sep rest
  end.

(** ** The catch-all route [/:guid/:subPath*?]

    The router matches the path (the URL up to the first [?]) against
    [^\/(?:([^\/]+?))(?:\/([^\/]+?)((?:[\/].+?)?))?\/?$]: a non-empty
    first segment, then nothing, a single slash, or a slash, a second
    segment and what follows it on the same line.  It decodes the three
    captures, of which [guid] is the first; a capture that does not
    decode is answered 400.  Routes registered before this one are not
    modelled, nor are URLs with a [#] or white space in them, which the
    router parses another way. *)

Definition pathname (u : string) : string := fst (break_at "?" u).

(** What [.] matches: no line feed and no carriage return. *)
Definition within_line (s : string) : bool := lacks "010" s && lacks "013" s.

Definition rest_matches (rest : string) : bool :=
  match rest with
  | EmptyString => true
  | String "/" EmptyString => true
  | String "/" (String c r) =>
      negb (Ascii.eqb c "/") && within_line (snd (break_at "/" (String c r)))
  | _ => false
  end.

Definition first_segment (path : string) : option string :=
  match path with
  | String "/" r =>
      let '(seg, rest) := break_at "/" r in
      match seg with
      | EmptyString => None
      | _ => if rest_matches rest then Some seg else None
      end
  | _ => None
  end.

(** What follows the first segment of a path. *)
Definition after_segment (path : string) : string :=
  match path with
  | String "/" r => snd (break_at "/" r)
  | _ => EmptyString
  end.

(** The second capture: the segment after the slash that follows the
    first one, empty when there is none. *)
Definition subPath (rest : string) : string :=
  match rest with
  | String "/" r => fst (break_at "/" r)
  | _ => EmptyString
  end.

(** [.+?] before [\/?$]: all of a text but a last slash, which is left
    to [\/?] unless the text is that slash alone. *)
Fixpoint lazy_any (x : string) : string :=
  match x with
  | String c ((String d r') as r) =>
      match r' with
      | EmptyString => if Ascii.eqb d "/" then String c EmptyString else x
      | _ => String c (lazy_any r)
      end
  | _ => x
  end.

(** The third capture: from the slash after the second segment on, empty
    when nothing or only a slash is there. *)
Definition star (rest : string) : string :=
  match rest with
  | String "/" r =>
      match snd (break_at "/" r) with
      | String "/" (String c x) => String "/" (lazy_any (String c x))
      | _ => EmptyString
      end
  | _ => EmptyString
  end.

(** [decode_param] of the router: an empty capture is left alone. *)
Definition decode_param `{!Platform} (val : string) : option string :=
  match val with
  | EmptyString => Some val
  | _ => decodeURIComponent val
  end.

Inductive Route :=
| Params (guid : string)
| BadRequest
| NoRoute.

Definition route `{!Platform} (u : string) : Route :=
  let path := pathname u in
  match first_segment path with
  | None => NoRoute
  | Some seg =>
      let rest := after_segment path in
      match decode_param seg, decode_param (subPath rest), decode_param (star rest) with
      | Some guid, Some _, Some _ => Params guid
      | _, _, _ => BadRequest
      end
  end.

(** [req.params.guid] of a request the catch-all route takes. *)
Definition route_guid `{!Platform} (u : string) : option string :=
  match route u with
  | Params guid => Some guid
  | _ => None
  end.

(** ** The file of a bin

    [path.join(DATA_DIR, `${guid}.db`)], where [DATA_DIR] is
    [path.join(__dirname, 'data')]: the segments of the joined path are
    gone through from the root on; an empty segment and [.] are
    dropped, [..] takes the segment before it away (none at the root).
    The extension is put to the last piece of [guid], which is
    therefore an ordinary segment whatever it is. *)

(** One step of [normalizeString]; [res] has the last segment first. *)
Definition normalize (res : list string) (segment : string) : list string :=
  if bool_decide (segment = EmptyString \/ segment = ".") then res
  else if bool_decide (segment = "..") then tail res
  else segment :: res.

(** The data directory, its last segment first. *)
Definition DATA_DIR `{!Platform} : list string :=
  foldl normalize [] (dirname ++ ["data"]).

(** The file the path of [guid] names, without its extension: for a file
    of the data directory its name, which has no slash, and for a file
    elsewhere its whole path, which starts with one.  An id without
    slash names the file of the data directory that is called like it;
    an id with encoded slashes in it can name the same file: [./b] and
    [x/../b] name the file of [b]. *)
Definition data_file `{!Platform} (guid : string) : string :=
  let pieces := split "/" guid in
  let dir := foldl normalize DATA_DIR (removelast pieces) in
  let stem := default EmptyString (last pieces) in
  if bool_decide (dir = DATA_DIR) then stem
  else "/" +:+ join "/" (reverse (stem :: dir)).

(** [fs.readdir(DATA_DIR)]: the files of the data directory. *)
Definition readdir {A : Type} (fs : gmap string A) : list (string * A) :=
  filter (fun kv => lacks "/" kv.1 = true) (map_to_list fs).

(** ** Event-stream framing *)

(** [`data: ${message}\n\n`] *)
Definition sse_data (message : string) : string :=
  "data: " +:+ message +:+ LF +:+ LF.

(** [': keep-alive\n\n'] *)
Definition keep_alive : string := ": keep-alive" +:+ LF +:+ LF.

Fixpoint strip_prefix (p s : string) : option string :=
  match p, s with
  | EmptyString, _ => Some s
  | String a p', String b s' => if Ascii.eqb a b then strip_prefix p' s' else None
  | String _ _, EmptyString => None
  end.

(** What a reader of the stream takes from one chunk: a block whose line
    starts with a colon is a comment and yields nothing; a block
    [data: m] followed by the blank line is an event with payload [m]. *)
Definition data_event (chunk : string) : option string :=
  match strip_prefix "data: " chunk with
  | Some rest => Some (substring 0 (String.length rest - 2) rest)
  | None => None
  end.

Definition data_events (chunks : list string) : list string :=
  omap data_event chunks.

(** ** Response objects of live streams and the global [sseClients]

    [sseClients] is made by [{}]: beside the lists the handlers put
    into it, it has the properties of [Object.prototype].  Each of them
    is a function or an object, so it counts as true and has none of the
    methods of an array. *)

Definition Object_prototype : list string :=
  ["constructor"; "__defineGetter__"; "__defineSetter__"; "hasOwnProperty";
   "__lookupGetter__"; "__lookupSetter__"; "isPrototypeOf";
   "propertyIsEnumerable"; "toString"; "valueOf"; "__proto__";
   "toLocaleString"].

Inductive Property :=
| Clients (clients : list nat)
| Inherited
| Undefined.

(** [sseClients[guid]]: an own property hides an inherited one. *)
Definition property (sseClients : gmap string (list nat)) (guid : string) : Property :=
  match sseClients !! guid with
  | Some clients => Clients clients
  | None => if bool_decide (guid ∈ Object_prototype) then Inherited else Undefined
  end.

Definition written (streams : gmap nat (list string)) (res : nat) : list string :=
  default [] (streams !! res).

(** [res.write(chunk)] *)
Definition write (chunk : string) (streams : gmap nat (list string)) (res : nat)
  : gmap nat (list string) :=
  <[res := written streams res ++ [chunk]]> streams.

(** [clients.forEach(client => client.write(chunk))] *)
Definition write_all (chunk : string) (clients : list nat)
  (streams : gmap nat (list string)) : gmap nat (list string) :=
  foldl (write chunk) streams clients.

(** [if (sseClients[guid]) sseClients[guid].forEach(...)] *)
Definition pushUpdateToClients `{!Platform} (sseClients : gmap string (list nat))
  (guid : string) (log : LogEntry) (streams : gmap nat (list string))
  : completion (gmap nat (list string)) :=
  match property sseClients guid with
  | Clients clients =>
      Returned (write_all (sse_data (JSON_stringify (entry_json log))) clients streams)
  | Undefined => Returned streams
  | Inherited => Thrown "TypeError: sseClients[guid].forEach is not a function"
  end.

(** [if (!sseClients[guid]) sseClients[guid] = []; sseClients[guid].push(res)] *)
Definition register_client (guid : string) (res : nat)
  (sseClients : gmap string (list nat)) : completion (gmap string (list nat)) :=
  match property sseClients guid with
  | Clients clients => Returned (<[guid := clients ++ [res]]> sseClients)
  | Undefined => Returned (<[guid := [res]]> sseClients)
  | Inherited => Thrown "TypeError: sseClients[guid].push is not a function"
  end.

(** [sseClients[guid] = sseClients[guid].filter(client => client !== res)] *)
Definition unregister_client (guid : string) (res : nat)
  (sseClients : gmap string (list nat)) : completion (gmap string (list nat)) :=
  match property sseClients guid with
  | Clients clients =>
      Returned (<[guid := filter (fun client => client <> res) clients]> sseClients)
  | Undefined =>
      Thrown "TypeError: Cannot read properties of undefined (reading 'filter')"
  | Inherited => Thrown "TypeError: sseClients[guid].filter is not a function"
  end.

(** ** [app.js]: one SQLite database per bin *)

Module Sqlite.

(** A row of [requests]; [headers] and [body] hold JSON text. *)
Record Row := {
  r_logNumber : Z;
  r_timestamp : string;
  r_method : string;
  r_url : string;
  r_headers : string;
  r_body : string
}.

(** A database file: the rows of [metadata], each the text of its
    column [name] or [None] for NULL, and the rows of [requests], in
    rowid order, and the counter SQLite keeps in [sqlite_sequence] for
    an AUTOINCREMENT key (the largest rowid ever given out). *)
Record Db := {
  metadata : list (option string);
  requests : list Row;
  sqlite_sequence : Z
}.

Record State := {
  files : gmap string Db;
  sseClients : gmap string (list nat);
  streams : gmap nat (list string);
  keepAlive : gset nat
}.

Definition initial : State :=
  {| files := ∅; sseClients := ∅; streams := ∅; keepAlive := ∅ |}.

Definition empty_db : Db :=
  {| metadata := []; requests := []; sqlite_sequence := 0 |}.

Definition max_rowid (rows : list Row) : Z :=
  foldr (fun r m => Z.max (r_logNumber r) m) 0 rows.

(** The rowid an AUTOINCREMENT key gives the next row. *)
Definition next_rowid (db : Db) : Z :=
  Z.max (sqlite_sequence db) (max_rowid (requests db)) + 1.

Definition set_files (fs : gmap string Db) (st : State) : State :=
  {| files := fs; sseClients := sseClients st; streams := streams st;
     keepAlive := keepAlive st |}.

Definition set_requests (rows : list Row) (db : Db) : Db :=
  {| metadata := metadata db; requests := rows;
     sqlite_sequence := sqlite_sequence db |}.

(** [row ? row.name : 'Untitled'] on the first row of [metadata]; the
    name of a row that holds NULL is [null]. *)
Definition bin_name (db : Db) : json :=
  match head (metadata db) with
  | Some (Some name) => JStr name
  | Some None => JNull
  | None => JStr "Untitled"
  end.

Definition text_min (a b : string) : string :=
  match String.compare a b with Gt => b | _ => a end.

Definition text_max (a b : string) : string :=
  match String.compare a b with Lt => b | _ => a end.

(** [MIN(timestamp)] and [MAX(timestamp)]: NULL on an empty table. *)
Definition aggregate (f : string -> string -> string) (rows : list Row)
  : option string :=
  match rows with
  | [] => None
  | r :: rs => Some (foldl (fun m x => f m (r_timestamp x)) (r_timestamp r) rs)
  end.

(** [ORDER BY logNumber DESC] *)
Definition logNumber_desc (a b : Row) : Prop := r_logNumber b <= r_logNumber a.

#[global] Instance logNumber_desc_dec : RelDecision logNumber_desc.
Proof. intros a b. unfold logNumber_desc. apply _. Defined.

Section Handlers.
Context `{!Platform}.

(** [path.join(DATA_DIR, `${guid}.db`)] *)
Definition dbPath (guid : string) : string := data_file guid.

(** [new sqlite3.Database(dbPath)] creates a missing file;
    [CREATE TABLE IF NOT EXISTS] leaves existing tables alone. *)
Definition initDb (guid : string) (fs : gmap string Db) : gmap string Db :=
  match fs !! dbPath guid with
  | Some _ => fs
  | None => <[dbPath guid := empty_db]> fs
  end.

(** [INSERT INTO requests (timestamp, method, url, headers, body) VALUES ...] *)
Definition insert_request (d : RequestData) (db : Db) : Z * Db :=
  let lastID := next_rowid db in
  (lastID,
   {| metadata := metadata db;
      requests := requests db ++
        [{| r_logNumber := lastID; r_timestamp := timestamp d;
            r_method := method d; r_url := url d;
            r_headers := JSON_stringify (headers d);
            r_body := JSON_stringify (body d) |}];
      sqlite_sequence := lastID |}).

(** [logRequest]: the row is in the database when the viewers are told;
    an exception of [pushUpdateToClients] leaves the promise pending. *)
Definition logRequest (guid : string) (requestData : RequestData) (st : State)
  : State * completion Result :=
  match files st !! dbPath guid with
  | None => (st, Returned {| status := 404; error := Some "Not found" |})
  | Some db =>
      let '(lastID, db') := insert_request requestData db in
      let log := with_logNumber requestData lastID in
      let fs := <[dbPath guid := db']> (files st) in
      match pushUpdateToClients (sseClients st) guid log (streams st) with
      | Returned streams' =>
          ({| files := fs; sseClients := sseClients st;
              streams := streams'; keepAlive := keepAlive st |},
           Returned {| status := 200; error := None |})
      | Thrown message => (set_files fs st, Thrown message)
      end
  end.

(** [app.post('/create-url')]; [guid] is the value [generateGuid] drew and
    [name] the field of the request body, when it has one. *)
Definition create_url (guid : string) (name : option string) (st : State)
  : State * Reply :=
  let name := default "Untitled" name in
  let insert db :=
    {| metadata := metadata db ++ [Some name]; requests := requests db;
       sqlite_sequence := sqlite_sequence db |} in
  (set_files (alter insert (dbPath guid) (initDb guid (files st))) st,
   JsonCreated guid (Some (JStr name))).

(** [app.delete('/delete-url/:guid')] *)
Definition delete_url (guid : string) (st : State) : State * Reply :=
  match files st !! dbPath guid with
  | Some _ =>
      ({| files := delete (dbPath guid) (files st);
          sseClients := delete guid (sseClients st);
          streams := streams st; keepAlive := keepAlive st |},
       SendStatus 200)
  | None => (st, SendStatus 404)
  end.

(** [app.get('/get-urls')], without the two times taken from [fs.stat]. *)
Definition get_urls (st : State) : State * Reply :=
  (st,
   JsonUrls
     (map (fun '(guid, db) =>
             {| s_guid := guid; s_name := Some (bin_name db);
                requestCount := length (requests db);
                firstRequestTime := aggregate text_min (requests db);
                lastRequestTime := aggregate text_max (requests db) |})
          (readdir (files st)))).

Definition entry_of_row (row : Row) : LogEntry :=
  {| logNumber := r_logNumber row; e_timestamp := r_timestamp row;
     e_method := r_method row; e_url := r_url row;
     e_headers := JSON_parse (r_headers row);
     e_body := JSON_parse (r_body row) |}.

(** [app.get('/logs/:guid')] *)
Definition get_logs (guid : string) (st : State) : State * Reply :=
  match files st !! dbPath guid with
  | None => (st, SendStatus 404)
  | Some db =>
      (st,
       JsonLog (Some (bin_name db))
         (Some (map entry_of_row (merge_sort logNumber_desc (requests db)))))
  end.

(** [app.delete('/logs/:guid/:logNumber')]: [DELETE ... WHERE logNumber = ?]
    with the path parameter bound as TEXT. *)
Definition delete_log (guid logNumber : string) (st : State) : State * Reply :=
  match files st !! dbPath guid with
  | None => (st, SendStatus 404)
  | Some db =>
      let kept :=
        filter (fun row => sqlite_integer_of_text logNumber ≠ Some (r_logNumber row))
               (requests db) in
      (set_files (<[dbPath guid := set_requests kept db]> (files st)) st,
       SendStatus 200)
  end.

(** [app.delete('/logs/:guid')]; [logs] is the array of numbers of the
    request body, when it has one.  The statement has one [?] for each
    number: with more of them than SQLite takes it fails, the handler
    rejects and nothing is answered. *)
Definition delete_logs (guid : string) (logs : option (list Z)) (st : State)
  : State * Reply :=
  match files st !! dbPath guid with
  | None => (st, SendStatus 404)
  | Some db =>
      match logs with
      | None =>
          (set_files (<[dbPath guid := set_requests [] db]> (files st)) st,
           SendStatus 200)
      | Some l =>
          if bool_decide (Z.of_nat (length l) <= Z.pos SQLITE_MAX_VARIABLE_NUMBER)
          then
            let kept := filter (fun row => r_logNumber row ∉ l) (requests db) in
            (set_files (<[dbPath guid := set_requests kept db]> (files st)) st,
             SendStatus 200)
          else (st, Uncaught "SQLITE_ERROR: too many SQL variables")
      end
  end.

(** [app.get('/logs-stream/:guid')]: the response object [res] joins
    [sseClients[guid]] and an interval is started for it.  When [push]
    throws nothing of it has happened and the router answers. *)
Definition logs_stream (guid : string) (res : nat) (st : State) : State * Reply :=
  match register_client guid res (sseClients st) with
  | Returned clients =>
      ({| files := files st; sseClients := clients; streams := streams st;
          keepAlive := {[res]} ∪ keepAlive st |},
       StreamOpen)
  | Thrown message => (st, Failed message)
  end.

(** One firing of the interval of [res]. *)
Definition tick (res : nat) (st : State) : State * Reply :=
  if decide (res ∈ keepAlive st)
  then ({| files := files st; sseClients := sseClients st;
           streams := write keep_alive (streams st) res;
           keepAlive := keepAlive st |}, NoReply)
  else (st, NoReply).

(** The [close] listener of a stream request: the interval is cleared
    before the list is read. *)
Definition close (guid : string) (res : nat) (st : State) : State * Reply :=
  let cleared := keepAlive st ∖ {[res]} in
  match unregister_client guid res (sseClients st) with
  | Returned clients =>
      ({| files := files st; sseClients := clients; streams := streams st;
          keepAlive := cleared |}, NoReply)
  | Thrown message =>
      ({| files := files st; sseClients := sseClients st; streams := streams st;
          keepAlive := cleared |},
       Uncaught message)
  end.

(** [app.post('/rename-url/:guid')] *)
Definition rename_url (guid name : string) (st : State) : State * Reply :=
  match files st !! dbPath guid with
  | None => (st, SendStatus 404)
  | Some db =>
      let db' :=
        {| metadata := map (fun _ => Some name) (metadata db);
           requests := requests db; sqlite_sequence := sqlite_sequence db |} in
      (set_files (<[dbPath guid := db']> (files st)) st, SendStatus 200)
  end.

(** [app.all('/:guid/:subPath*?')]; [now] is [new Date().toISOString()]. *)
Definition capture (req : Request) (now : string) (st : State) : State * Reply :=
  match route (originalUrl req) with
  | NoRoute => (st, Unmatched)
  | BadRequest => (st, Malformed)
  | Params guid =>
      match logRequest guid (request_data req now) st with
      | (st', Returned result) => (st', reply_of_result result)
      | (st', Thrown message) => (st', Uncaught message)
      end
  end.

Inductive Event :=
| CreateUrl (guid : string) (name : option string)
| DeleteUrl (guid : string)
| GetUrls
| GetLogs (guid : string)
| DeleteLog (guid logNumber : string)
| DeleteLogs (guid : string) (logs : option (list Z))
| LogsStream (guid : string) (res : nat)
| Tick (res : nat)
| Close (guid : string) (res : nat)
| RenameUrl (guid name : string)
| Capture (req : Request) (now : string).

Definition step (st : State) (ev : Event) : State * Reply :=
  match ev with
  | CreateUrl guid name => create_url guid name st
  | DeleteUrl guid => delete_url guid st
  | GetUrls => get_urls st
  | GetLogs guid => get_logs guid st
  | DeleteLog guid n => delete_log guid n st
  | DeleteLogs guid logs => delete_logs guid logs st
  | LogsStream guid res => logs_stream guid res st
  | Tick res => tick res st
  | Close guid res => close guid res st
  | RenameUrl guid name => rename_url guid name st
  | Capture req now => capture req now st
  end.

(** The state after a sequence of events, and the replies given. *)
Fixpoint run (st : State) (evs : list Event) : State * list Reply :=
  match evs with
  | [] => (st, [])
  | ev :: evs' =>
      let '(st1, r) := step st ev in
      let '(st2, rs) := run st1 evs' in
      (st2, r :: rs)
  end.

End Handlers.

End Sqlite.

(** ** [app-json.js]: one JSON document per bin *)

Module JsonFile.

(** The parsed file.  A key that is missing, or whose value is not an
    array for [requests], is [None]. *)
Record Doc := {
  name : option json;
  requests : option (list LogEntry)
}.

Record State := {
  files : gmap string Doc;
  sseClients : gmap string (list nat);
  streams : gmap nat (list string)
}.

Definition initial : State := {| files := ∅; sseClients := ∅; streams := ∅ |}.

Definition set_files (fs : gmap string Doc) (st : State) : State :=
  {| files := fs; sseClients := sseClients st; streams := streams st |}.

(** Truthiness of a parsed JSON value. *)
Definition truthy (v : json) : bool :=
  match v with
  | JNull => false
  | JBool b => b
  | JNum n => negb (n =? 0)
  | JStr s => negb (String.eqb s EmptyString)
  | JArr _ | JObj _ => true
  end.

Section Handlers.
Context `{!Platform}.

(** [path.join(DATA_DIR, `${guid}.json`)] *)
Definition filePath (guid : string) : string := data_file guid.

(** [logRequest]: the file is written before the viewers are told; an
    exception of the notification rejects the promise. *)
Definition logRequest (guid : string) (requestData : RequestData) (st : State)
  : State * completion Result :=
  match files st !! filePath guid with
  | None => (st, Returned {| status := 404; error := Some "File not found" |})
  | Some data =>
      (* if (!Array.isArray(data.requests)) data.requests = [] *)
      let stored := default [] (requests data) in
      let log := with_logNumber requestData (Z.of_nat (length stored) + 1) in
      let data' := {| name := name data; requests := Some (stored ++ [log]) |} in
      let fs := <[filePath guid := data']> (files st) in
      match pushUpdateToClients (sseClients st) guid log (streams st) with
      | Returned streams' =>
          ({| files := fs; sseClients := sseClients st; streams := streams' |},
           Returned {| status := 200; error := None |})
      | Thrown message => (set_files fs st, Thrown message)
      end
  end.

(** [app.post('/create-url')]: the handler never reads the request body;
    [supplied] is the name the caller put there. *)
Definition create_url (guid : string) (supplied : option string) (st : State)
  : State * Reply :=
  let name := JBool false in
  let data := {| name := Some name; requests := Some [] |} in
  (set_files (<[filePath guid := data]> (files st)) st, JsonCreated guid (Some name)).

(** [app.delete('/delete-url/:guid')] *)
Definition delete_url (guid : string) (st : State) : State * Reply :=
  match files st !! filePath guid with
  | Some _ =>
      ({| files := delete (filePath guid) (files st);
          sseClients := delete guid (sseClients st);
          streams := streams st |},
       SendStatus 200)
  | None => (st, SendStatus 404)
  end.

(** [app.get('/get-urls')], without the two times taken from [fs.stat]. *)
Definition get_urls (st : State) : State * Reply :=
  (st,
   JsonUrls
     (map (fun '(guid, data) =>
             let stored := default [] (requests data) in
             {| s_guid := guid;
                s_name :=
                  match name data with
                  | Some v => if truthy v then Some v else Some (JStr "Untitled")
                  | None => Some (JStr "Untitled")
                  end;
                requestCount := length stored;
                firstRequestTime := e_timestamp <$> head stored;
                lastRequestTime := e_timestamp <$> last stored |})
          (readdir (files st)))).

(** [app.get('/logs/:guid')]: the whole document goes out as it is stored. *)
Definition get_logs (guid : string) (st : State) : State * Reply :=
  match files st !! filePath guid with
  | Some data => (st, JsonLog (name data) (requests data))
  | None => (st, Send 404 "Logs not found")
  end.

(** [app.delete('/logs/:guid/:logNumber')]:
    [data.requests.filter(log => log.logNumber !== parseInt(logNumber))],
    where [NaN] differs from every number; [param] is the path
    parameter [logNumber]. *)
Definition delete_log (guid param : string) (st : State) : State * Reply :=
  match files st !! filePath guid with
  | Some {| name := n; requests := Some stored |} =>
      let kept := filter (fun log => parseInt param ≠ Some (logNumber log)) stored in
      (set_files (<[filePath guid := {| name := n; requests := Some kept |}]> (files st)) st,
       SendStatus 200)
  | _ => (st, Send 500 "Error deleting log")
  end.

(** [app.delete('/logs/:guid')] *)
Definition delete_logs (guid : string) (logs : option (list Z)) (st : State)
  : State * Reply :=
  match files st !! filePath guid, logs with
  | Some data, None =>
      (set_files (<[filePath guid := {| name := name data; requests := Some [] |}]>
                    (files st)) st,
       SendStatus 200)
  | Some {| name := n; requests := Some stored |}, Some l =>
      let kept := filter (fun log => logNumber log ∉ l) stored in
      (set_files (<[filePath guid := {| name := n; requests := Some kept |}]> (files st)) st,
       SendStatus 200)
  | _, _ => (st, Send 500 "Error deleting logs")
  end.

(** [app.get('/logs-stream/:guid')] *)
Definition logs_stream (guid : string) (res : nat) (st : State) : State * Reply :=
  match register_client guid res (sseClients st) with
  | Returned clients =>
      ({| files := files st; sseClients := clients; streams := streams st |},
       StreamOpen)
  | Thrown message => (st, Failed message)
  end.

(** The [close] listener of a stream request. *)
Definition close (guid : string) (res : nat) (st : State) : State * Reply :=
  match unregister_client guid res (sseClients st) with
  | Returned clients =>
      ({| files := files st; sseClients := clients; streams := streams st |}, NoReply)
  | Thrown message => (st, Uncaught message)
  end.

(** [app.post('/rename-url/:guid')]; a body without [name] leaves the key
    out of the rewritten document. *)
Definition rename_url (guid : string) (new_name : option string) (st : State)
  : State * Reply :=
  match files st !! filePath guid with
  | Some data =>
      let data' := {| name := JStr <$> new_name; requests := requests data |} in
      (set_files (<[filePath guid := data']> (files st)) st, SendStatus 200)
  | None => (st, Send 500 "Error renaming URL")
  end.

(** [app.all('/:guid/:subPath*?')] *)
Definition capture (req : Request) (now : string) (st : State) : State * Reply :=
  match route (originalUrl req) with
  | NoRoute => (st, Unmatched)
  | BadRequest => (st, Malformed)
  | Params guid =>
      match logRequest guid (request_data req now) st with
      | (st', Returned result) => (st', reply_of_result result)
      | (st', Thrown message) => (st', Uncaught message)
      end
  end.

Inductive Event :=
| CreateUrl (guid : string) (supplied : option string)
| DeleteUrl (guid : string)
| GetUrls
| GetLogs (guid : string)
| DeleteLog (guid logNumber : string)
| DeleteLogs (guid : string) (logs : option (list Z))
| LogsStream (guid : string) (res : nat)
| Close (guid : string) (res : nat)
| RenameUrl (guid : string) (new_name : option string)
| Capture (req : Request) (now : string).

Definition step (st : State) (ev : Event) : State * Reply :=
  match ev with
  | CreateUrl guid supplied => create_url guid supplied st
  | DeleteUrl guid => delete_url guid st
  | GetUrls => get_urls st
  | GetLogs guid => get_logs guid st
  | DeleteLog guid n => delete_log guid n st
  | DeleteLogs guid logs => delete_logs guid logs st
  | LogsStream guid res => logs_stream guid res st
  | Close guid res => close guid res st
  | RenameUrl guid new_name => rename_url guid new_name st
  | Capture req now => capture req now st
  end.

Fixpoint run (st : State) (evs : list Event) : State * list Reply :=
  match evs with
  | [] => (st, [])
  | ev :: evs' =>
      let '(st1, r) := step st ev in
      let '(st2, rs) := run st1 evs' in
      (st2, r :: rs)
  end.

End Handlers.

End JsonFile.

(** ** [unnamed/part_000]: one JSON array per bin *)

Module Legacy.

Record State := {
  files : gmap string (list LogEntry);
  sseClients : gmap string (list nat);
  streams : gmap nat (list string)
}.

Definition initial : State := {| files := ∅; sseClients := ∅; streams := ∅ |}.

Section Handlers.
Context `{!Platform}.

(** [path.join(DATA_DIR, `${guid}.json`)] *)
Definition filePath (guid : string) : string := data_file guid.

(** [logRequest]: a file that cannot be read leaves [logData = []] and
    [nextLogNumber = 1]; the array is then written back in any case.
    [wrote] tells whether [fs.writeFile] succeeded: when it did not, the
    function returns before it tells the viewers. *)
Definition logRequest (guid : string) (requestData : RequestData) (wrote : bool)
  (st : State) : State * completion unit :=
  let '(logData, nextLogNumber) :=
    match files st !! filePath guid with
    | Some stored => (stored, Z.of_nat (length stored) + 1)
    | None => ([], 1)
    end in
  let log := with_logNumber requestData nextLogNumber in
  if wrote then
    let fs := <[filePath guid := logData ++ [log]]> (files st) in
    match pushUpdateToClients (sseClients st) guid log (streams st) with
    | Returned streams' =>
        ({| files := fs; sseClients := sseClients st; streams := streams' |},
         Returned ())
    | Thrown message =>
        ({| files := fs; sseClients := sseClients st; streams := streams st |},
         Thrown message)
    end
  else (st, Returned ()).

(** [app.post('/create-url')] *)
Definition create_url (guid : string) (st : State) : State * Reply :=
  ({| files := <[filePath guid := []]> (files st); sseClients := sseClients st;
      streams := streams st |},
   JsonCreated guid None).

(** [app.get('/logs/:guid')] *)
Definition get_logs (guid : string) (st : State) : State * Reply :=
  match files st !! filePath guid with
  | Some logData => (st, JsonArray logData)
  | None => (st, Send 404 "Logs not found")
  end.

(** [app.all('/:guid/:subPath*?')]: what [logRequest] throws is caught
    and answered 500. *)
Definition capture (req : Request) (now : string) (wrote : bool) (st : State)
  : State * Reply :=
  match route (originalUrl req) with
  | NoRoute => (st, Unmatched)
  | BadRequest => (st, Malformed)
  | Params guid =>
      match logRequest guid (request_data req now) wrote st with
      | (st', Returned _) => (st', SendStatus 200)
      | (st', Thrown _) => (st', Send 500 "Error logging request")
      end
  end.

(** [app.delete('/delete-url/:guid')] *)
Definition delete_url (guid : string) (st : State) : State * Reply :=
  match files st !! filePath guid with
  | Some _ =>
      ({| files := delete (filePath guid) (files st);
          sseClients := delete guid (sseClients st);
          streams := streams st |},
       SendStatus 200)
  | None => (st, SendStatus 404)
  end.

(** [app.delete('/logs/:guid/:logNumber')]; [param] is the path parameter
    [logNumber]. *)
Definition delete_log (guid param : string) (st : State) : State * Reply :=
  match files st !! filePath guid with
  | Some logData =>
      let kept := filter (fun log => parseInt param ≠ Some (logNumber log)) logData in
      ({| files := <[filePath guid := kept]> (files st); sseClients := sseClients st;
          streams := streams st |},
       SendStatus 200)
  | None => (st, Send 500 "Error deleting log")
  end.

(** [app.delete('/logs/:guid')]: without [logs] the file is written as an
    empty array and never read. *)
Definition delete_logs (guid : string) (logs : option (list Z)) (st : State)
  : State * Reply :=
  match logs with
  | None =>
      ({| files := <[filePath guid := []]> (files st); sseClients := sseClients st;
          streams := streams st |},
       SendStatus 200)
  | Some l =>
      match files st !! filePath guid with
      | Some logData =>
          let kept := filter (fun log => logNumber log ∉ l) logData in
          ({| files := <[filePath guid := kept]> (files st);
              sseClients := sseClients st; streams := streams st |},
           SendStatus 200)
      | None => (st, Send 500 "Error deleting logs")
      end
  end.

End Handlers.

End Legacy.

(** ** The importer of [unnamed/part_000]: a JSON document into a database *)

Module Importer.

(** [url.split('/')[1]] inside [`${guid}.db`]: a missing piece is
    [undefined] and names the file [undefined.db]. *)
Definition import_guid (u : string) : string :=
  default "undefined" (split "/" u !! 1%nat).

(** The request data the importer takes from a stored entry. *)
Definition entry_data (e : LogEntry) : RequestData :=
  {| url := e_url e; method := e_method e; headers := e_headers e;
     body := e_body e; timestamp := e_timestamp e |}.

Section Functions.
Context `{!Platform}.

(** The text the column [name] holds once a value that is neither a
    string nor [null] is bound to it: [0] for [false]. *)
Context (bound : json -> string).

(** What [jsonData.name] is bound as: a string as it is, [null] and a
    missing name as NULL. *)
Definition name_column (name : option json) : option string :=
  match name with
  | None | Some JNull => None
  | Some (JStr s) => Some s
  | Some v => Some (bound v)
  end.

(** [insertMetadata(dbPath, name)] *)
Definition insertMetadata (name : option json) (db : Sqlite.Db) : Sqlite.Db :=
  {| Sqlite.metadata := Sqlite.metadata db ++ [name_column name];
     Sqlite.requests := Sqlite.requests db;
     Sqlite.sqlite_sequence := Sqlite.sqlite_sequence db |}.

(** [insertRequests(dbPath, requests)]: one [INSERT] per entry, in order. *)
Definition insertRequests (requests : list LogEntry) (db : Sqlite.Db) : Sqlite.Db :=
  foldl (fun d e => (Sqlite.insert_request (entry_data e) d).2) db requests.

(** [importJsonToDb(jsonFilePath)] on the parsed document: reading
    [jsonData.requests[0].url] throws when there is no first entry, and
    the [catch] leaves the data directory as it is. *)
Definition importJsonToDb (jsonData : JsonFile.Doc) (fs : gmap string Sqlite.Db)
  : gmap string Sqlite.Db :=
  match JsonFile.requests jsonData with
  | Some ((first :: _) as requests) =>
      let guid := import_guid (e_url first) in
      alter (fun db => insertRequests requests
                         (insertMetadata (JsonFile.name jsonData) db))
            (Sqlite.dbPath guid) (Sqlite.initDb guid fs)
  | _ => fs
  end.

End Functions.

End Importer.

(** ** Vocabulary of the properties *)

(** [res] is in no list of the registry. *)
Definition unregistered (res : nat) (clients : gmap string (list nat)) : Prop :=
  forall guid l, clients !! guid = Some l -> res ∉ l.

(** Rows in insertion order carry strictly increasing log numbers. *)
Definition increasing (rows : list Sqlite.Row) : Prop :=
  StronglySorted (fun a b => Sqlite.r_logNumber a < Sqlite.r_logNumber b) rows.

(** Every database of the file system has increasing log numbers. *)
Definition well_numbered (fs : gmap string Sqlite.Db) : Prop :=
  forall key db, fs !! key = Some db -> increasing (Sqlite.requests db).

(** The largest log number of a log, 0 for an empty one. *)
Definition max_logNumber (log : list LogEntry) : Z :=
  foldr Z.max 0 (map logNumber log).

(** The document of the file [key], when there is one, holds a log
    numbered 1, 2, ... *)
Definition numbered (key : string) (fs : gmap string JsonFile.Doc) : Prop :=
  forall data, fs !! key = Some data ->
    exists stored, JsonFile.requests data = Some stored /\
      map logNumber stored = seqZ 1 (Z.of_nat (length stored)).

(** Every document of the file system has an array under [requests]. *)
Definition has_array (fs : gmap string JsonFile.Doc) : Prop :=
  forall key data, fs !! key = Some data -> is_Some (JsonFile.requests data).

(** Events of the flat-file server other than the two entry deletions. *)
Definition deletes_no_entry (ev : JsonFile.Event) : bool :=
  match ev with
  | JsonFile.DeleteLog _ _ | JsonFile.DeleteLogs _ _ => false
  | _ => true
  end.

(** The number of entries of the document of the file [key]. *)
Definition entries (key : string) (fs : gmap string JsonFile.Doc) : nat :=
  length (default [] (fs !! key ≫= JsonFile.requests)).

(** No deletion of the run takes an entry out of the file [key]: a
    deletion of entries, of this bin or of another one, leaves the file
    with as many entries as it had. *)
Fixpoint keeps_entries `{!Platform} (key : string) (st : JsonFile.State)
  (evs : list JsonFile.Event) : bool :=
  match evs with
  | [] => true
  | ev :: evs' =>
      let st1 := (JsonFile.step st ev).1 in
      (deletes_no_entry ev ||
       (entries key (JsonFile.files st) <=? entries key (JsonFile.files st1))%nat)
      && keeps_entries key st1 evs'
  end.

(** A capture routed to the bin id [guid], or a firing of a keep-alive
    timer. *)
Definition feeds `{!Platform} (guid : string) (ev : Sqlite.Event) : bool :=
  match ev with
  | Sqlite.Capture req _ => bool_decide (route_guid (originalUrl req) = Some guid)
  | Sqlite.Tick _ => true
  | _ => false
  end.

(** The request data of the captures of a sequence of events, in order. *)
Definition captured (evs : list Sqlite.Event) : list RequestData :=
  omap (fun ev =>
          match ev with
          | Sqlite.Capture req now => Some (request_data req now)
          | _ => None
          end) evs.

(** The streams after the viewers of [guid] have been told of [log]:
    as they were when the notification throws. *)
Definition told `{!Platform} (sseClients : gmap string (list nat)) (guid : string)
  (log : LogEntry) (streams : gmap nat (list string)) : gmap nat (list string) :=
  match pushUpdateToClients sseClients guid log streams with
  | Returned streams' => streams'
  | Thrown _ => streams
  end.

(** The payload of the event that announces entry [e]. *)
Definition payload `{!Platform} (e : LogEntry) : string :=
  JSON_stringify (entry_json e).

(** The value an object has under the key [k]. *)
Definition field (k : string) (v : json) : option json :=
  match v with
  | JObj fields => snd <$> find (fun kv => String.eqb (fst kv) k) fields
  | _ => None
  end.

(** [v] is an object with the data [d] of a captured request and the log
    number [n]. *)
Definition announces (v : json) (d : RequestData) (n : Z) : Prop :=
  field "url" v = Some (JStr (url d)) /\
  field "method" v = Some (JStr (method d)) /\
  field "headers" v = Some (headers d) /\
  field "body" v = Some (body d) /\
  field "timestamp" v = Some (JStr (timestamp d)) /\
  field "logNumber" v = Some (JNum n).


(** The event registers the response object [res]. *)
Definition opens (res : nat) (ev : Sqlite.Event) : bool :=
  match ev with
  | Sqlite.LogsStream _ r => bool_decide (r = res)
  | _ => false
  end.


(** The counter of every database is at least every log number in it. *)
Definition sequenced (fs : gmap string Sqlite.Db) : Prop :=
  forall key db, fs !! key = Some db ->
    0 <= Sqlite.sqlite_sequence db /\
    forall r, r ∈ Sqlite.requests db -> Sqlite.r_logNumber r <= Sqlite.sqlite_sequence db.

(** Every database has a row in [metadata]. *)
Definition named (fs : gmap string Sqlite.Db) : Prop :=
  forall key db, fs !! key = Some db -> Sqlite.metadata db <> [].

(** A chunk is a keep-alive comment or a data block. *)
Definition framed (chunk : string) : Prop :=
  chunk = keep_alive \/ exists message, chunk = sse_data message.

(** The response object [res] is in no list of the registry and has no
    timer. *)
Definition gone (res : nat) (st : Sqlite.State) : Prop :=
  unregistered res (Sqlite.sseClients st) /\ res ∉ Sqlite.keepAlive st.

(** Events that neither create nor delete a bin. *)
Definition keeps_bins (ev : Sqlite.Event) : bool :=
  match ev with
  | Sqlite.CreateUrl _ _ | Sqlite.DeleteUrl _ => false
  | _ => true
  end.

Definition json_keeps_bins (ev : JsonFile.Event) : bool :=
  match ev with
  | JsonFile.CreateUrl _ _ | JsonFile.DeleteUrl _ => false
  | _ => true
  end.

(** [s] is made of characters that satisfy [p]. *)
Fixpoint all_chars (p : ascii -> bool) (s : string) : bool :=
  match s with
  | String c r => p c && all_chars p r
  | EmptyString => true
  end.

Definition is_decimal_digit (c : ascii) : bool :=
  let n := nat_of_ascii c in (48 <=? n)%nat && (n <=? 57)%nat.

(** The text is empty or starts with a character that is neither a
    decimal digit nor the letter of the prefix [0x]. *)
Definition ends_number (rest : string) : bool :=
  match rest with
  | EmptyString => true
  | String c _ =>
      negb (is_decimal_digit c) && negb (Ascii.eqb c "x") && negb (Ascii.eqb c "X")
  end.

(** Texts as SQLite orders them. *)
Definition text_le (a b : string) : Prop := String.leb a b = true.

(** ** A platform to evaluate the handlers on concrete requests

    JSON text without string escapes; parameters with their percent
    escapes decoded, each escaped character checked to be UTF-8 as the
    source does; TEXT that is a run of decimal digits as the integer it
    spells (other text is left as TEXT); the limit of 32766 parameters
    of SQLite from 3.32 on; the program in [/srv/wb-hook]. *)

Definition quote : string := String "034" EmptyString.

Fixpoint plain_stringify (v : json) : string :=
  match v with
  | JNull => "null"
  | JBool true => "true"
  | JBool false => "false"
  | JNum n => pretty n
  | JStr s => quote +:+ s +:+ quote
  | JArr items => "[" +:+ join "," (map plain_stringify items) +:+ "]"
  | JObj fields =>
      "{" +:+ join "," (map (fun kv => quote +:+ fst kv +:+ quote +:+ ":" +:+
                                       plain_stringify (snd kv)) fields) +:+ "}"
  end.

Definition decimal (s : string) : option Z :=
  if all_chars is_decimal_digit s then parse_digits 10 s None else None.

(** The characters of a parameter: as they are, or the byte of an escape. *)
Inductive token :=
| Raw (c : ascii)
| Escaped (byte : nat).

Definition hex_value (c : ascii) : option nat :=
  match digit_value c with
  | Some d => if d <? 16 then Some (Z.to_nat d) else None
  | None => None
  end.

Fixpoint tokens (s : string) : option (list token) :=
  match s with
  | String "%" (String h (String l r)) =>
      match hex_value h, hex_value l with
      | Some a, Some b => cons (Escaped (16 * a + b)) <$> tokens r
      | _, _ => None
      end
  | String "%" _ => None
  | String c r => cons (Raw c) <$> tokens r
  | EmptyString => Some []
  end.

Definition between (lo b hi : nat) : bool := ((lo <=? b) && (b <=? hi))%nat.

Definition bytes (l : list nat) (s : string) : string :=
  foldr (fun b r => String (ascii_of_nat b) r) s l.

(** The escapes of a character beyond ASCII are those of its bytes in
    UTF-8, in the shortest form and of no surrogate. *)
Fixpoint utf8 (ts : list token) : option string :=
  match ts with
  | [] => Some EmptyString
  | Raw c :: r => String c <$> utf8 r
  | Escaped b :: r =>
      if (b <? 128)%nat then bytes [b] <$> utf8 r
      else
        match r with
        | Escaped b1 :: r1 =>
            if between 194 b 223 && between 128 b1 191 then bytes [b; b1] <$> utf8 r1
            else
              match r1 with
              | Escaped b2 :: r2 =>
                  if between 224 b 239 && between 128 b1 191 && between 128 b2 191
                     && negb ((b =? 224)%nat && (b1 <? 160)%nat)
                     && negb ((b =? 237)%nat && (160 <=? b1)%nat)
                  then bytes [b; b1; b2] <$> utf8 r2
                  else
                    match r2 with
                    | Escaped b3 :: r3 =>
                        if between 240 b 244 && between 128 b1 191
                           && between 128 b2 191 && between 128 b3 191
                           && negb ((b =? 240)%nat && (b1 <? 144)%nat)
                           && negb ((b =? 244)%nat && (144 <=? b1)%nat)
                        then bytes [b; b1; b2; b3] <$> utf8 r3
                        else None
                    | _ => None
                    end
              | _ => None
              end
        | _ => None
        end
  end.

Definition plain_decode (s : string) : option string :=
  match tokens s with
  | Some ts => utf8 ts
  | None => None
  end.

Definition plain : Platform :=
  {| JSON_stringify := plain_stringify; JSON_parse := JStr;
     decodeURIComponent := plain_decode; sqlite_integer_of_text := decimal;
     SQLITE_MAX_VARIABLE_NUMBER := 32766; dirname := ["srv"; "wb-hook"] |}.

(** ** States and values of the concrete runs *)

Section ConcreteStates.
#[local] Existing Instance plain.

(** A request [GET /b/hello?x=1] with one header. *)
Definition hello : Request :=
  {| originalUrl := "/b/hello?x=1"; req_method := "GET";
     req_headers := JObj [("x", JStr "1")]; req_body := JObj [] |}.

(** A request to another bin, [k]. *)
Definition elsewhere : Request :=
  {| originalUrl := "/k/x"; req_method := "POST";
     req_headers := JObj []; req_body := JStr "body" |}.

(** A request whose first segment, [.%2Fb], is decoded to [./b]: another
    id of the file of the bin [b]. *)
Definition dotted : Request :=
  {| originalUrl := "/.%2Fb/x"; req_method := "POST";
     req_headers := JObj []; req_body := JObj [] |}.

(** A request to the bin id [constructor]. *)
Definition inherited : Request :=
  {| originalUrl := "/constructor/x"; req_method := "POST";
     req_headers := JObj []; req_body := JObj [] |}.

(** The flat-file server after a bin is created, captured to twice and
    its first entry deleted; the relational server after the same with
    its second entry deleted. *)
Definition json_after_delete : JsonFile.State :=
  (JsonFile.run JsonFile.initial
     [JsonFile.CreateUrl "b" None; JsonFile.Capture hello "t1";
      JsonFile.Capture hello "t2"; JsonFile.DeleteLog "b" "1"]).1.

Definition sqlite_after_delete : Sqlite.State :=
  (Sqlite.run Sqlite.initial
     [Sqlite.CreateUrl "b" None; Sqlite.Capture hello "t1";
      Sqlite.Capture hello "t2"; Sqlite.DeleteLog "b" "2"]).1.

(** A bin with one viewer, the response object 7. *)
Definition sqlite_watched : Sqlite.State :=
  (Sqlite.run Sqlite.initial [Sqlite.CreateUrl "b" None; Sqlite.LogsStream "b" 7]).1.

(** The relational server after a bin is created and captured to twice. *)
Definition sqlite_two : Sqlite.State :=
  (Sqlite.run Sqlite.initial
     [Sqlite.CreateUrl "b" None; Sqlite.Capture hello "t1";
      Sqlite.Capture hello "t2"]).1.

Definition json_two : JsonFile.State :=
  (JsonFile.run JsonFile.initial
     [JsonFile.CreateUrl "b" None; JsonFile.Capture hello "t1";
      JsonFile.Capture hello "t2"]).1.

(** The flat-file server after a bin is created, captured to twice, its
    first entry deleted and captured to once more. *)
Definition json_twice_two : JsonFile.State :=
  (JsonFile.run JsonFile.initial
     [JsonFile.CreateUrl "b" None; JsonFile.Capture hello "t1";
      JsonFile.Capture hello "t2"; JsonFile.DeleteLog "b" "1";
      JsonFile.Capture hello "t3"]).1.

(** A run of the flat-file server in which an entry of another bin is
    deleted and a deletion addressed to the bin [b] matches none of its
    entries. *)
Definition json_kept_events : list JsonFile.Event :=
  [JsonFile.CreateUrl "b" None; JsonFile.CreateUrl "k" None;
   JsonFile.Capture elsewhere "t0"; JsonFile.DeleteLog "k" "1";
   JsonFile.Capture hello "t1"; JsonFile.DeleteLog "b" "7"].

Definition row_of (d : RequestData) (n : Z) : Sqlite.Row :=
  {| Sqlite.r_logNumber := n; Sqlite.r_timestamp := timestamp d;
     Sqlite.r_method := method d; Sqlite.r_url := url d;
     Sqlite.r_headers := plain_stringify (headers d);
     Sqlite.r_body := plain_stringify (body d) |}.

Definition sqlite_two_db : Sqlite.Db :=
  {| Sqlite.metadata := [Some "Untitled"];
     Sqlite.requests :=
       [row_of (request_data hello "t1") 1; row_of (request_data hello "t2") 2];
     Sqlite.sqlite_sequence := 2 |}.

Definition json_two_doc : JsonFile.Doc :=
  {| JsonFile.name := Some (JBool false);
     JsonFile.requests :=
       Some [with_logNumber (request_data hello "t1") 1;
             with_logNumber (request_data hello "t2") 2] |}.

End ConcreteStates.

(** * Properties *)

(** ** Strings and framing *)

Lemma append_cons (x : ascii) (a b : string) :
  String x a +:+ b = String x (a +:+ b).
Proof. reflexivity. Qed.

Lemma strip_prefix_app (p s : string) : strip_prefix p (p +:+ s) = Some s.
Proof.
  induction p as [|a p IH]; [by destruct s|].
  rewrite append_cons. simpl. by rewrite Ascii.eqb_refl.
Qed.

Lemma substring_prefix (m x : string) :
  substring 0 (String.length m) (m +:+ x) = m.
Proof.
  induction m as [|a m IH].
  - by destruct x.
  - rewrite append_cons. simpl. by rewrite IH.
Qed.

Lemma length_append (a b : string) :
  String.length (a +:+ b) = (String.length a + String.length b)%nat.
Proof.
  induction a as [|c a IH]; [done|].
  rewrite append_cons. simpl. by rewrite IH.
Qed.

Lemma append_assoc (a b c : string) : (a +:+ b) +:+ c = a +:+ b +:+ c.
Proof.
  induction a as [|x a IH]; [done|].
  rewrite !append_cons. by rewrite IH.
Qed.

Lemma data_event_sse_data (m : string) : data_event (sse_data m) = Some m.
Proof.
  unfold data_event, sse_data. rewrite strip_prefix_app. f_equal.
  rewrite length_append. simpl.
  replace (String.length m + 2 - 2)%nat with (String.length m) by lia.
  apply substring_prefix.
Qed.

Lemma data_event_keep_alive : data_event keep_alive = None.
Proof. reflexivity. Qed.

Lemma data_events_snoc (chunks : list string) (c : string) :
  data_events (chunks ++ [c]) = data_events chunks ++ option_list (data_event c).
Proof.
  unfold data_events. rewrite omap_app. simpl. by destruct (data_event c).
Qed.

Lemma break_at_append (stop : ascii) (s a b : string) :
  break_at stop s = (a, b) -> s = a +:+ b.
Proof.
  revert a b. induction s as [|c s IH]; simpl; intros a b Hb.
  - by inversion Hb.
  - destruct (Ascii.eqb c stop).
    + by inversion Hb.
    + destruct (break_at stop s) as [a' b']. inversion Hb; subst.
      by rewrite (IH a' b eq_refl) at 1.
Qed.


Lemma break_at_stop (stop : ascii) (a b : string) :
  lacks stop a = true ->
  break_at stop (a +:+ String stop b) = (a, String stop b).
Proof.
  induction a as [|c a IH]; intros Ha.
  - simpl. by rewrite Ascii.eqb_refl.
  - simpl in Ha. apply andb_true_iff in Ha as [Hc Ha].
    rewrite append_cons. simpl. apply negb_true_iff in Hc. rewrite Hc.
    by rewrite IH.
Qed.

Lemma break_at_none (stop : ascii) (a : string) :
  lacks stop a = true -> break_at stop a = (a, EmptyString).
Proof.
  induction a as [|c a IH]; intros Ha; [done|].
  simpl in Ha. apply andb_true_iff in Ha as [Hc Ha].
  simpl. apply negb_true_iff in Hc. rewrite Hc. by rewrite IH.
Qed.

(** A URL that reaches the catch-all route starts with a slash and the
    text of the segment the bin id is decoded from. *)
Lemma first_segment_prefix (u seg : string) :
  first_segment (pathname u) = Some seg ->
  seg <> EmptyString /\ exists rest, u = "/" +:+ seg +:+ rest.
Proof.
  unfold pathname. destruct (break_at "?" u) as [path query] eqn:Eu.
  apply break_at_append in Eu. simpl. intros Hseg.
  destruct path as [|c r]; [done|]. simpl in Hseg.
  destruct (break_at "/" r) as [s rest] eqn:Er.
  apply break_at_append in Er.
  assert (c = "/"%char /\ s = seg /\ s <> EmptyString) as (-> & -> & Hne).
  { destruct c as [[] [] [] [] [] [] [] []]; try done.
    destruct s; [done|]. destruct (rest_matches rest); [|done].
    by inversion Hseg. }
  split; [done|]. exists (rest +:+ query). subst u r.
  change ("/" +:+ seg +:+ rest +:+ query) with (String "/" (seg +:+ rest +:+ query)).
  change (String "/" (seg +:+ rest) +:+ query) with (String "/" ((seg +:+ rest) +:+ query)).
  by rewrite append_assoc.
Qed.

Section Routing.
Context `{!Platform}.

Lemma route_guid_params (u guid : string) :
  route_guid u = Some guid <-> route u = Params guid.
Proof.
  unfold route_guid. destruct (route u); split; intros Hr; by inversion Hr.
Qed.

(** The bin id of a routed request is the decoded first segment. *)
Lemma route_guid_segment (u guid : string) :
  route_guid u = Some guid ->
  exists seg, first_segment (pathname u) = Some seg /\
              decodeURIComponent seg = Some guid.
Proof.
  unfold route_guid, route.
  destruct (first_segment (pathname u)) as [seg|] eqn:Eseg; [|done].
  destruct (first_segment_prefix _ _ Eseg) as [Hne _].
  assert (decode_param seg = decodeURIComponent seg) as Hd by by destruct seg.
  intros Hr. exists seg. split; [done|]. rewrite <- Hd.
  destruct (decode_param seg) as [g|]; [|done].
  destruct (decode_param (subPath _)); [|done].
  destruct (decode_param (star _)); [|done].
  by injection Hr as ->.
Qed.

(** A request the route does not take, or takes with a parameter that
    does not decode, is answered by the router with 404 or 400. *)
Lemma route_guid_none (u : string) :
  route_guid u = None -> route u = NoRoute \/ route u = BadRequest.
Proof. unfold route_guid. destruct (route u); auto. done. Qed.

End Routing.

(** ** The file a bin id names *)

Lemma split_lacks (sep : ascii) (s : string) :
  lacks sep s = true -> split sep s = [s].
Proof.
  induction s as [|c s IH]; [done|].
  simpl. intros [Hc Hs]%andb_true_iff. apply negb_true_iff in Hc.
  by rewrite Hc, IH.
Qed.

Section Paths.
Context `{!Platform}.

(** A bin id without slash names the file of the data directory that is
    called like it. *)
Lemma data_file_plain (guid : string) :
  lacks "/" guid = true -> data_file guid = guid.
Proof.
  intros Hguid. unfold data_file. rewrite split_lacks by done. simpl.
  by rewrite bool_decide_eq_true_2.
Qed.

End Paths.

(** ** Writing to live streams *)

Lemma written_write_eq (c : string) (s : gmap nat (list string)) (res : nat) :
  written (write c s res) res = written s res ++ [c].
Proof. unfold written at 1, write. by rewrite lookup_insert_eq. Qed.

Lemma written_write_ne (c : string) (s : gmap nat (list string)) (res other : nat) :
  other <> res -> written (write c s other) res = written s res.
Proof. intros Hne. unfold written, write. by rewrite lookup_insert_ne. Qed.

Lemma written_write_all_notin (c : string) (clients : list nat)
  (s : gmap nat (list string)) (res : nat) :
  res ∉ clients -> written (write_all c clients s) res = written s res.
Proof.
  revert s. induction clients as [|x clients IH]; intros s Hnotin; [done|].
  apply not_elem_of_cons in Hnotin as [Hne Hnotin]. simpl.
  rewrite IH by done. by apply written_write_ne.
Qed.

Lemma written_write_all_in (c : string) (clients : list nat)
  (s : gmap nat (list string)) (res : nat) :
  NoDup clients -> res ∈ clients ->
  written (write_all c clients s) res = written s res ++ [c].
Proof.
  revert s. induction clients as [|x clients IH]; intros s Hnd Hin.
  - by apply elem_of_nil in Hin.
  - apply NoDup_cons in Hnd as [Hx Hnd]. simpl.
    apply elem_of_cons in Hin as [->|Hin].
    + rewrite written_write_all_notin by done. apply written_write_eq.
    + rewrite IH by done. rewrite written_write_ne; [done|].
      intros ->. contradiction.
Qed.

(** ** The registry and what it inherits *)

Lemma property_own (clients : gmap string (list nat)) (guid : string) (l : list nat) :
  clients !! guid = Some l -> property clients guid = Clients l.
Proof. intros E. unfold property. by rewrite E. Qed.

Lemma property_clients (clients : gmap string (list nat)) (guid : string)
  (l : list nat) :
  property clients guid = Clients l <-> clients !! guid = Some l.
Proof.
  unfold property. destruct (clients !! guid) as [l'|].
  - split; by intros [= ->].
  - case_bool_decide; split; done.
Qed.

Lemma property_inherited (clients : gmap string (list nat)) (guid : string) :
  property clients guid = Inherited <->
  clients !! guid = None /\ guid ∈ Object_prototype.
Proof.
  unfold property. destruct (clients !! guid) as [l'|].
  - split; [done|]. by intros [? _].
  - case_bool_decide; split; try done. by intros [_ ?].
Qed.

Lemma property_fresh (clients : gmap string (list nat)) (guid : string) :
  guid ∉ Object_prototype -> property clients guid <> Inherited.
Proof. intros Hguid [_ Hin]%property_inherited. contradiction. Qed.

Section Pushing.
Context `{!Platform}.

Lemma told_unregistered (clients : gmap string (list nat)) (guid : string)
  (log : LogEntry) (s : gmap nat (list string)) (res : nat) :
  unregistered res clients ->
  written (told clients guid log s) res = written s res.
Proof.
  intros Hun. unfold told, pushUpdateToClients.
  destruct (property clients guid) as [l| |] eqn:E; [|done..].
  apply property_clients in E.
  apply written_write_all_notin. by eapply Hun.
Qed.

Lemma told_registered (clients : gmap string (list nat)) (guid : string)
  (log : LogEntry) (s : gmap nat (list string)) (res : nat) (l : list nat) :
  clients !! guid = Some l -> NoDup l -> res ∈ l ->
  written (told clients guid log s) res =
  written s res ++ [sse_data (JSON_stringify (entry_json log))].
Proof.
  intros E Hnd Hin. unfold told, pushUpdateToClients.
  rewrite (property_own _ _ _ E). by apply written_write_all_in.
Qed.

Lemma told_outside (clients : gmap string (list nat)) (guid : string)
  (log : LogEntry) (s : gmap nat (list string)) (res : nat) :
  res ∉ default [] (clients !! guid) ->
  written (told clients guid log s) res = written s res.
Proof.
  intros Hout. unfold told, pushUpdateToClients.
  destruct (property clients guid) as [l| |] eqn:E; [|done..].
  apply property_clients in E. rewrite E in Hout.
  by apply written_write_all_notin.
Qed.

End Pushing.

Lemma register_returns (res : nat) (guid : string)
  (clients : gmap string (list nat)) :
  property clients guid <> Inherited ->
  register_client guid res clients =
    Returned (<[guid := default [] (clients !! guid) ++ [res]]> clients).
Proof.
  intros Hp. unfold register_client.
  destruct (property clients guid) as [l| |] eqn:E; [| done |].
  - apply property_clients in E. by rewrite E.
  - unfold property in E. destruct (clients !! guid); [done|]. done.
Qed.

Lemma register_throws (res : nat) (guid : string)
  (clients : gmap string (list nat)) :
  property clients guid = Inherited ->
  register_client guid res clients =
    Thrown "TypeError: sseClients[guid].push is not a function".
Proof. intros Hp. unfold register_client. by rewrite Hp. Qed.

Lemma unregistered_register (res other : nat) (guid : string)
  (clients clients' : gmap string (list nat)) :
  register_client guid other clients = Returned clients' ->
  other <> res -> unregistered res clients ->
  unregistered res clients'.
Proof.
  intros Hreg Hne Hun.
  assert (property clients guid <> Inherited) as Hp.
  { intros Hp. by rewrite register_throws in Hreg. }
  rewrite register_returns in Hreg by done. injection Hreg as <-.
  intros g l. destruct (decide (guid = g)) as [->|Hg].
  - rewrite lookup_insert_eq. intros [= <-].
    rewrite elem_of_app, list_elem_of_singleton. intros [Hin| ->]; [|done].
    destruct (clients !! g) as [l'|] eqn:E; simpl in Hin.
    + by eapply Hun.
    + by apply elem_of_nil in Hin.
  - rewrite lookup_insert_ne by done. apply Hun.
Qed.

Lemma unregistered_unregister (res other : nat) (guid : string)
  (clients clients' : gmap string (list nat)) :
  unregister_client guid other clients = Returned clients' ->
  unregistered res clients -> unregistered res clients'.
Proof.
  unfold unregister_client.
  destruct (property clients guid) as [l0| |] eqn:E; [|done..].
  apply property_clients in E.
  intros [= <-] Hun g l. destruct (decide (guid = g)) as [->|Hg].
  - rewrite lookup_insert_eq. intros [= <-].
    rewrite list_elem_of_filter. intros [_ Hin]. by eapply Hun.
  - rewrite lookup_insert_ne by done. apply Hun.
Qed.

(** ** Log numbers in the relational variant *)

Lemma max_rowid_nonneg (rows : list Sqlite.Row) : 0 <= Sqlite.max_rowid rows.
Proof. induction rows as [|r rows IH]; simpl; lia. Qed.

Lemma max_rowid_bound (rows : list Sqlite.Row) (r : Sqlite.Row) :
  r ∈ rows -> Sqlite.r_logNumber r <= Sqlite.max_rowid rows.
Proof.
  induction rows as [|x rows IH]; intros Hin.
  - by apply elem_of_nil in Hin.
  - apply elem_of_cons in Hin as [->|Hin]; simpl; [lia|].
    specialize (IH Hin). lia.
Qed.

Lemma next_rowid_above (db : Sqlite.Db) (r : Sqlite.Row) :
  r ∈ Sqlite.requests db -> Sqlite.r_logNumber r < Sqlite.next_rowid db.
Proof.
  intros Hin%max_rowid_bound. unfold Sqlite.next_rowid. lia.
Qed.

Lemma next_rowid_positive (db : Sqlite.Db) : 1 <= Sqlite.next_rowid db.
Proof.
  unfold Sqlite.next_rowid. pose proof (max_rowid_nonneg (Sqlite.requests db)). lia.
Qed.

Lemma increasing_snoc (rows : list Sqlite.Row) (x : Sqlite.Row) :
  increasing rows ->
  (forall r, r ∈ rows -> Sqlite.r_logNumber r < Sqlite.r_logNumber x) ->
  increasing (rows ++ [x]).
Proof.
  intros Hs Hx. apply StronglySorted_app_2; [|done|].
  - intros a b Ha Hb. apply list_elem_of_singleton in Hb as ->. by apply Hx.
  - repeat constructor.
Qed.

Lemma increasing_filter (P : Sqlite.Row -> Prop) `{!forall r, Decision (P r)}
  (rows : list Sqlite.Row) :
  increasing rows -> increasing (filter P rows).
Proof.
  unfold increasing. induction 1 as [|r rows Hs IH Hall]; [constructor|].
  rewrite filter_cons. destruct (decide (P r)); [|done].
  constructor; [done|].
  apply Forall_forall. intros x [_ Hx]%list_elem_of_filter.
  by eapply Forall_forall in Hall.
Qed.

Lemma increasing_NoDup (rows : list Sqlite.Row) :
  increasing rows -> NoDup (map Sqlite.r_logNumber rows).
Proof.
  induction 1 as [|r rows Hs IH Hall]; simpl; constructor; [|done].
  intros (x & Heq & Hx)%list_elem_of_fmap.
  eapply Forall_forall in Hall; [|done]. lia.
Qed.

Section SqliteNumbering.
Context `{!Platform}.

(** A capture into an existing database: the row is inserted whatever
    the notification does, and the notification throws exactly when the
    bin id is read from what [sseClients] inherits. *)
Lemma logRequest_found (guid : string) (d : RequestData) (st : Sqlite.State)
  (db : Sqlite.Db) :
  Sqlite.files st !! Sqlite.dbPath guid = Some db ->
  Sqlite.logRequest guid d st =
  ({| Sqlite.files :=
        <[Sqlite.dbPath guid := (Sqlite.insert_request d db).2]> (Sqlite.files st);
      Sqlite.sseClients := Sqlite.sseClients st;
      Sqlite.streams :=
        told (Sqlite.sseClients st) guid
          (with_logNumber d (Sqlite.next_rowid db)) (Sqlite.streams st);
      Sqlite.keepAlive := Sqlite.keepAlive st |},
   match property (Sqlite.sseClients st) guid with
   | Inherited => Thrown "TypeError: sseClients[guid].forEach is not a function"
   | _ => Returned {| status := 200; error := None |}
   end).
Proof.
  intros E. unfold Sqlite.logRequest, told, pushUpdateToClients. rewrite E. simpl.
  by destruct (property (Sqlite.sseClients st) guid).
Qed.

Lemma logRequest_missing (guid : string) (d : RequestData) (st : Sqlite.State) :
  Sqlite.files st !! Sqlite.dbPath guid = None ->
  Sqlite.logRequest guid d st =
    (st, Returned {| status := 404; error := Some "Not found" |}).
Proof. intros E. unfold Sqlite.logRequest. by rewrite E. Qed.

Lemma capture_found (req : Request) (now guid : string) (st : Sqlite.State)
  (db : Sqlite.Db) :
  route_guid (originalUrl req) = Some guid ->
  Sqlite.files st !! Sqlite.dbPath guid = Some db ->
  Sqlite.capture req now st =
  ({| Sqlite.files :=
        <[Sqlite.dbPath guid := (Sqlite.insert_request (request_data req now) db).2]>
          (Sqlite.files st);
      Sqlite.sseClients := Sqlite.sseClients st;
      Sqlite.streams :=
        told (Sqlite.sseClients st) guid
          (with_logNumber (request_data req now) (Sqlite.next_rowid db))
          (Sqlite.streams st);
      Sqlite.keepAlive := Sqlite.keepAlive st |},
   match property (Sqlite.sseClients st) guid with
   | Inherited => Uncaught "TypeError: sseClients[guid].forEach is not a function"
   | _ => SendStatus 200
   end).
Proof.
  intros Hroute%route_guid_params E. unfold Sqlite.capture.
  rewrite Hroute, (logRequest_found _ _ _ _ E).
  by destruct (property (Sqlite.sseClients st) guid).
Qed.

Lemma capture_missing (req : Request) (now guid : string) (st : Sqlite.State) :
  route_guid (originalUrl req) = Some guid ->
  Sqlite.files st !! Sqlite.dbPath guid = None ->
  Sqlite.capture req now st = (st, Send 404 "Not found").
Proof.
  intros Hroute%route_guid_params E. unfold Sqlite.capture.
  by rewrite Hroute, (logRequest_missing _ _ _ E).
Qed.

Lemma capture_unrouted (req : Request) (now : string) (st : Sqlite.State) :
  route_guid (originalUrl req) = None ->
  Sqlite.capture req now st = (st, Unmatched) \/
  Sqlite.capture req now st = (st, Malformed).
Proof.
  intros [Hr|Hr]%route_guid_none; unfold Sqlite.capture; rewrite Hr; auto.
Qed.

Lemma insert_request_increasing (d : RequestData) (db : Sqlite.Db) :
  increasing (Sqlite.requests db) ->
  increasing (Sqlite.requests (Sqlite.insert_request d db).2).
Proof.
  intros Hs. simpl. apply increasing_snoc; [done|].
  intros r Hr. simpl. by apply next_rowid_above.
Qed.

Lemma run_cons (st : Sqlite.State) (ev : Sqlite.Event) (evs : list Sqlite.Event) :
  Sqlite.run st (ev :: evs) =
  ((Sqlite.run (Sqlite.step st ev).1 evs).1,
   (Sqlite.step st ev).2 :: (Sqlite.run (Sqlite.step st ev).1 evs).2).
Proof.
  simpl. destruct (Sqlite.step st ev) as [st1 r]. cbn [fst snd].
  by destruct (Sqlite.run st1 evs).
Qed.

(** A database found after an event was created by it, or was there
    before and is the same, has one more name, has lost entries, has been
    renamed, or has one more entry. *)
Lemma step_db (st : Sqlite.State) (ev : Sqlite.Event) (g : string) (db' : Sqlite.Db) :
  Sqlite.files (Sqlite.step st ev).1 !! g = Some db' ->
  (exists name,
     Sqlite.files st !! g = None /\
     db' = {| Sqlite.metadata := [name]; Sqlite.requests := [];
              Sqlite.sqlite_sequence := 0 |}) \/
  exists db,
    Sqlite.files st !! g = Some db /\
    (db' = db \/
     (exists name,
        db' = {| Sqlite.metadata := Sqlite.metadata db ++ [name];
                 Sqlite.requests := Sqlite.requests db;
                 Sqlite.sqlite_sequence := Sqlite.sqlite_sequence db |}) \/
     (exists rows,
        rows `sublist_of` Sqlite.requests db /\ db' = Sqlite.set_requests rows db) \/
     (exists name,
        db' = {| Sqlite.metadata := map (fun _ => name) (Sqlite.metadata db);
                 Sqlite.requests := Sqlite.requests db;
                 Sqlite.sqlite_sequence := Sqlite.sqlite_sequence db |}) \/
     (exists d, db' = (Sqlite.insert_request d db).2)).
Proof.
  assert (forall st', Sqlite.files st' = Sqlite.files st ->
            Sqlite.files st' !! g = Some db' ->
            exists db, Sqlite.files st !! g = Some db /\
              (db' = db \/
               (exists name,
                  db' = {| Sqlite.metadata := Sqlite.metadata db ++ [name];
                           Sqlite.requests := Sqlite.requests db;
                           Sqlite.sqlite_sequence := Sqlite.sqlite_sequence db |}) \/
               (exists rows,
                  rows `sublist_of` Sqlite.requests db /\
                  db' = Sqlite.set_requests rows db) \/
               (exists name,
                  db' = {| Sqlite.metadata := map (fun _ => name) (Sqlite.metadata db);
                           Sqlite.requests := Sqlite.requests db;
                           Sqlite.sqlite_sequence := Sqlite.sqlite_sequence db |}) \/
               (exists d, db' = (Sqlite.insert_request d db).2))) as Hsame.
  { intros st' -> Hg. exists db'. auto. }
  destruct ev as [guid name|guid| |guid|guid n|guid logs
    |guid res|res|guid res|guid name|req now]; simpl.
  - (* create *)
    rewrite lookup_alter. unfold Sqlite.initDb.
    destruct (decide (Sqlite.dbPath guid = g)) as [<-|Hne].
    + destruct (Sqlite.files st !! Sqlite.dbPath guid) as [db|] eqn:E.
      * rewrite E. intros [= <-]. right. exists db. split; [done|].
        right. left. by eexists.
      * rewrite lookup_insert_eq. intros [= <-]. left. by eexists.
    + destruct (Sqlite.files st !! Sqlite.dbPath guid) eqn:E.
      * intros Hg. right. exists db'. auto.
      * rewrite lookup_insert_ne by done. intros Hg. right. exists db'. auto.
  - unfold Sqlite.delete_url. destruct (Sqlite.files st !! Sqlite.dbPath guid); simpl.
    + intros [_ Hl]%lookup_delete_Some. right. exists db'. auto.
    + intros Hg. right. by apply (Hsame st).
  - intros Hg. right. by apply (Hsame st).
  - unfold Sqlite.get_logs. destruct (Sqlite.files st !! Sqlite.dbPath guid);
      intros Hg; right; by apply (Hsame st).
  - unfold Sqlite.delete_log.
    destruct (Sqlite.files st !! Sqlite.dbPath guid) as [db|] eqn:E;
      simpl; [|intros Hg; right; by apply (Hsame st)].
    rewrite lookup_insert. case_decide as Hg; [subst g|intros Hl; right; exists db'; auto].
    intros [= <-]. right. exists db. split; [done|]. do 2 right. left.
    eexists. split; [|reflexivity]. apply sublist_filter.
  - unfold Sqlite.delete_logs.
    destruct (Sqlite.files st !! Sqlite.dbPath guid) as [db|] eqn:E;
      simpl; [|intros Hg; right; by apply (Hsame st)].
    destruct logs as [l|]; [case_bool_decide|]; simpl;
      [| intros Hg; right; by apply (Hsame st) |];
      (rewrite lookup_insert; case_decide as Hg;
       [subst g|intros Hl; right; exists db'; auto]);
      intros [= <-]; right; exists db; (split; [done|]); do 2 right; left;
      (eexists; split; [|reflexivity]); [apply sublist_filter|apply sublist_nil_l].
  - unfold Sqlite.logs_stream.
    destruct (register_client guid res (Sqlite.sseClients st));
      intros Hg; right; by apply (Hsame st).
  - unfold Sqlite.tick. case_decide; intros Hg; right; by apply (Hsame st).
  - unfold Sqlite.close.
    destruct (unregister_client guid res (Sqlite.sseClients st));
      intros Hg; right; by eapply Hsame.
  - unfold Sqlite.rename_url.
    destruct (Sqlite.files st !! Sqlite.dbPath guid) as [db|] eqn:E;
      simpl; [|intros Hg; right; by apply (Hsame st)].
    rewrite lookup_insert. case_decide as Hg; [subst g|intros Hl; right; exists db'; auto].
    intros [= <-]. right. exists db. split; [done|]. do 3 right. left. by eexists.
  - destruct (route_guid (originalUrl req)) as [guid|] eqn:Er.
    + destruct (Sqlite.files st !! Sqlite.dbPath guid) as [db|] eqn:E.
      * rewrite (capture_found _ _ _ _ _ Er E). simpl.
        rewrite lookup_insert.
        case_decide as Hg; [subst g|intros Hl; right; exists db'; auto].
        intros [= <-]. right. exists db. split; [done|]. do 4 right.
        by exists (request_data req now).
      * rewrite (capture_missing _ _ _ _ Er E). intros Hg. right. by apply (Hsame st).
    + destruct (capture_unrouted req now st Er) as [-> | ->];
        intros Hg; right; by apply (Hsame st).
Qed.

(** What holds of the empty file system and is kept by every event
    holds after every sequence of events. *)
Lemma run_invariant (P : gmap string Sqlite.Db -> Prop) (evs : list Sqlite.Event)
  (st : Sqlite.State) :
  (forall st ev, P (Sqlite.files st) -> P (Sqlite.files (Sqlite.step st ev).1)) ->
  P (Sqlite.files st) -> P (Sqlite.files (Sqlite.run st evs).1).
Proof.
  intros Hstep. revert st. induction evs as [|ev evs IH]; intros st HP; [done|].
  rewrite run_cons. cbn [fst]. apply IH. by apply Hstep.
Qed.

Lemma step_well_numbered (st : Sqlite.State) (ev : Sqlite.Event) :
  well_numbered (Sqlite.files st) ->
  well_numbered (Sqlite.files (Sqlite.step st ev).1).
Proof.
  intros Hwf g db' Hg.
  destruct (step_db st ev g db' Hg) as [(name & _ & ->)|(db & Hdb & Hcases)].
  { constructor. }
  specialize (Hwf g db Hdb).
  destruct Hcases as [->|[(name & ->)|[(rows & Hsub & ->)|[(name & ->)|(d & ->)]]]];
    simpl; try done.
  - unfold increasing in *. clear -Hwf Hsub.
    induction Hsub as [|x l1 l2 Hsub IH|x l1 l2 Hsub IH]; [constructor| |].
    + apply StronglySorted_inv in Hwf as [Hs Hall]. constructor; [by apply IH|].
      apply Forall_forall. intros y Hy. eapply Forall_forall in Hall; [done|].
      by eapply elem_of_sublist.
    + apply StronglySorted_inv in Hwf as [Hs _]. by apply IH.
  - by apply (insert_request_increasing d db).
Qed.

Lemma run_well_numbered (evs : list Sqlite.Event) (st : Sqlite.State) :
  well_numbered (Sqlite.files st) ->
  well_numbered (Sqlite.files (Sqlite.run st evs).1).
Proof. apply run_invariant. apply step_well_numbered. Qed.

Lemma initial_well_numbered : well_numbered (Sqlite.files Sqlite.initial).
Proof. intros g db. simpl. by rewrite lookup_empty. Qed.

Lemma step_sequenced (st : Sqlite.State) (ev : Sqlite.Event) :
  sequenced (Sqlite.files st) -> sequenced (Sqlite.files (Sqlite.step st ev).1).
Proof.
  intros Hwf g db' Hg.
  destruct (step_db st ev g db' Hg) as [(name & _ & ->)|(db & Hdb & Hcases)].
  { simpl. split; [lia|]. intros r Hr. by apply elem_of_nil in Hr. }
  destruct (Hwf g db Hdb) as [Hpos Hle].
  destruct Hcases as [->|[(name & ->)|[(rows & Hsub & ->)|[(name & ->)|(d & ->)]]]];
    simpl; try done.
  - split; [done|]. intros r Hr. apply Hle. by eapply elem_of_sublist.
  - unfold Sqlite.next_rowid. split; [lia|]. intros r [Hr|Hr]%elem_of_app.
    + specialize (Hle r Hr). lia.
    + apply list_elem_of_singleton in Hr as ->. simpl. unfold Sqlite.next_rowid. lia.
Qed.

Lemma step_named (st : Sqlite.State) (ev : Sqlite.Event) :
  named (Sqlite.files st) -> named (Sqlite.files (Sqlite.step st ev).1).
Proof.
  intros Hwf g db' Hg.
  destruct (step_db st ev g db' Hg) as [(name & _ & ->)|(db & Hdb & Hcases)]; [done|].
  specialize (Hwf g db Hdb).
  destruct Hcases as [->|[(name & ->)|[(rows & Hsub & ->)|[(name & ->)|(d & ->)]]]];
    simpl; try done.
  - by destruct (Sqlite.metadata db).
  - by destruct (Sqlite.metadata db).
Qed.

Lemma reachable_well_numbered (evs : list Sqlite.Event) :
  well_numbered (Sqlite.files (Sqlite.run Sqlite.initial evs).1).
Proof. apply run_well_numbered, initial_well_numbered. Qed.

Lemma reachable_sequenced (evs : list Sqlite.Event) :
  sequenced (Sqlite.files (Sqlite.run Sqlite.initial evs).1).
Proof.
  apply run_invariant; [apply step_sequenced|].
  intros g db. simpl. by rewrite lookup_empty.
Qed.

Lemma reachable_named (evs : list Sqlite.Event) :
  named (Sqlite.files (Sqlite.run Sqlite.initial evs).1).
Proof.
  apply run_invariant; [apply step_named|].
  intros g db. simpl. by rewrite lookup_empty.
Qed.

Lemma next_rowid_sequenced (db : Sqlite.Db) :
  0 <= Sqlite.sqlite_sequence db ->
  (forall r, r ∈ Sqlite.requests db -> Sqlite.r_logNumber r <= Sqlite.sqlite_sequence db) ->
  Sqlite.next_rowid db = Sqlite.sqlite_sequence db + 1.
Proof.
  intros Hpos Hle. unfold Sqlite.next_rowid.
  assert (Sqlite.max_rowid (Sqlite.requests db) <= Sqlite.sqlite_sequence db); [|lia].
  induction (Sqlite.requests db) as [|r rows IH]; simpl; [done|].
  assert (Sqlite.r_logNumber r <= Sqlite.sqlite_sequence db) by (apply Hle; left).
  assert (Sqlite.max_rowid rows <= Sqlite.sqlite_sequence db).
  { apply IH. intros x Hx. apply Hle. by right. }
  lia.
Qed.

End SqliteNumbering.

(** ** Log numbers in the flat-file variant *)

Lemma foldr_max_snoc (l : list Z) (x : Z) :
  0 <= x -> foldr Z.max 0 (l ++ [x]) = Z.max (foldr Z.max 0 l) x.
Proof. intros Hx. induction l as [|y l IH]; simpl; lia. Qed.

Lemma max_seqZ (n : nat) : foldr Z.max 0 (seqZ 1 (Z.of_nat n)) = Z.of_nat n.
Proof.
  induction n as [|n IH]; [done|].
  rewrite seqZ_S, foldr_max_snoc, IH by lia. lia.
Qed.

Lemma max_logNumber_numbered (stored : list LogEntry) :
  map logNumber stored = seqZ 1 (Z.of_nat (length stored)) ->
  max_logNumber stored = Z.of_nat (length stored).
Proof. intros E. unfold max_logNumber. rewrite E. apply max_seqZ. Qed.

Lemma numbered_snoc (stored : list LogEntry) (d : RequestData) :
  map logNumber stored = seqZ 1 (Z.of_nat (length stored)) ->
  map logNumber (stored ++ [with_logNumber d (Z.of_nat (length stored) + 1)]) =
  seqZ 1 (Z.of_nat (length (stored ++ [with_logNumber d (Z.of_nat (length stored) + 1)]))).
Proof.
  intros E. rewrite map_app, length_app. simpl.
  replace (length stored + 1)%nat with (S (length stored)) by lia.
  rewrite seqZ_S, E. do 2 f_equal. lia.
Qed.

(** A part of a list that is as long as the list is the list. *)
Lemma sublist_whole {A : Type} (l1 l2 : list A) :
  l1 `sublist_of` l2 -> (length l2 <= length l1)%nat -> l1 = l2.
Proof.
  induction 1 as [|x l1 l2 Hsub IH|x l1 l2 Hsub IH]; simpl; intros Hlen; [done| |].
  - f_equal. apply IH. lia.
  - apply sublist_length in Hsub. lia.
Qed.

Section JsonNumbering.
Context `{!Platform}.

Lemma json_logRequest_found (guid : string) (d : RequestData)
  (st : JsonFile.State) (data : JsonFile.Doc) :
  JsonFile.files st !! JsonFile.filePath guid = Some data ->
  let stored := default [] (JsonFile.requests data) in
  let log := with_logNumber d (Z.of_nat (length stored) + 1) in
  JsonFile.logRequest guid d st =
  ({| JsonFile.files :=
        <[JsonFile.filePath guid :=
            {| JsonFile.name := JsonFile.name data;
               JsonFile.requests := Some (stored ++ [log]) |}]>
          (JsonFile.files st);
      JsonFile.sseClients := JsonFile.sseClients st;
      JsonFile.streams :=
        told (JsonFile.sseClients st) guid log (JsonFile.streams st) |},
   match property (JsonFile.sseClients st) guid with
   | Inherited => Thrown "TypeError: sseClients[guid].forEach is not a function"
   | _ => Returned {| status := 200; error := None |}
   end).
Proof.
  intros E. unfold JsonFile.logRequest, told, pushUpdateToClients. rewrite E. simpl.
  by destruct (property (JsonFile.sseClients st) guid).
Qed.

Lemma json_logRequest_missing (guid : string) (d : RequestData)
  (st : JsonFile.State) :
  JsonFile.files st !! JsonFile.filePath guid = None ->
  JsonFile.logRequest guid d st =
  (st, Returned {| status := 404; error := Some "File not found" |}).
Proof. intros E. unfold JsonFile.logRequest. by rewrite E. Qed.

Lemma json_capture_found (req : Request) (now guid : string)
  (st : JsonFile.State) (data : JsonFile.Doc) :
  route_guid (originalUrl req) = Some guid ->
  JsonFile.files st !! JsonFile.filePath guid = Some data ->
  let stored := default [] (JsonFile.requests data) in
  let log := with_logNumber (request_data req now) (Z.of_nat (length stored) + 1) in
  JsonFile.capture req now st =
  ({| JsonFile.files :=
        <[JsonFile.filePath guid :=
            {| JsonFile.name := JsonFile.name data;
               JsonFile.requests := Some (stored ++ [log]) |}]>
          (JsonFile.files st);
      JsonFile.sseClients := JsonFile.sseClients st;
      JsonFile.streams :=
        told (JsonFile.sseClients st) guid log (JsonFile.streams st) |},
   match property (JsonFile.sseClients st) guid with
   | Inherited => Uncaught "TypeError: sseClients[guid].forEach is not a function"
   | _ => SendStatus 200
   end).
Proof.
  intros Hroute%route_guid_params E. unfold JsonFile.capture.
  rewrite Hroute, (json_logRequest_found _ _ _ _ E).
  by destruct (property (JsonFile.sseClients st) guid).
Qed.

Lemma json_capture_missing (req : Request) (now guid : string)
  (st : JsonFile.State) :
  route_guid (originalUrl req) = Some guid ->
  JsonFile.files st !! JsonFile.filePath guid = None ->
  JsonFile.capture req now st = (st, Send 404 "File not found").
Proof.
  intros Hroute%route_guid_params E. unfold JsonFile.capture.
  by rewrite Hroute, (json_logRequest_missing _ _ _ E).
Qed.

Lemma json_capture_unrouted (req : Request) (now : string) (st : JsonFile.State) :
  route_guid (originalUrl req) = None ->
  JsonFile.capture req now st = (st, Unmatched) \/
  JsonFile.capture req now st = (st, Malformed).
Proof.
  intros [Hr|Hr]%route_guid_none; unfold JsonFile.capture; rewrite Hr; auto.
Qed.

Lemma json_run_cons (st : JsonFile.State) (ev : JsonFile.Event)
  (evs : list JsonFile.Event) :
  JsonFile.run st (ev :: evs) =
  ((JsonFile.run (JsonFile.step st ev).1 evs).1,
   (JsonFile.step st ev).2 :: (JsonFile.run (JsonFile.step st ev).1 evs).2).
Proof.
  simpl. destruct (JsonFile.step st ev) as [st1 r]. cbn [fst snd].
  by destruct (JsonFile.run st1 evs).
Qed.

(** A document found after an event was created by it, or was there
    before and is the same, has lost entries to a deletion, has been
    renamed, or has one more entry, numbered by the length of the log. *)
Lemma json_step_doc (st : JsonFile.State) (ev : JsonFile.Event) (key : string)
  (data' : JsonFile.Doc) :
  JsonFile.files (JsonFile.step st ev).1 !! key = Some data' ->
  data' = {| JsonFile.name := Some (JBool false); JsonFile.requests := Some [] |} \/
  exists data,
    JsonFile.files st !! key = Some data /\
    (data' = data \/
     (exists kept,
        kept `sublist_of` default [] (JsonFile.requests data) /\
        deletes_no_entry ev = false /\
        data' = {| JsonFile.name := JsonFile.name data;
                   JsonFile.requests := Some kept |}) \/
     (exists new_name,
        data' = {| JsonFile.name := new_name;
                   JsonFile.requests := JsonFile.requests data |}) \/
     (exists d,
        data' =
          {| JsonFile.name := JsonFile.name data;
             JsonFile.requests :=
               Some (default [] (JsonFile.requests data) ++
                     [with_logNumber d
                        (Z.of_nat (length (default [] (JsonFile.requests data))) + 1)]) |})).
Proof.
  assert (JsonFile.files st !! key = Some data' ->
          exists data,
            JsonFile.files st !! key = Some data /\
            (data' = data \/
             (exists kept,
                kept `sublist_of` default [] (JsonFile.requests data) /\
                deletes_no_entry ev = false /\
                data' = {| JsonFile.name := JsonFile.name data;
                           JsonFile.requests := Some kept |}) \/
             (exists new_name,
                data' = {| JsonFile.name := new_name;
                           JsonFile.requests := JsonFile.requests data |}) \/
             (exists d,
                data' =
                  {| JsonFile.name := JsonFile.name data;
                     JsonFile.requests :=
                       Some (default [] (JsonFile.requests data) ++
                             [with_logNumber d
                                (Z.of_nat (length (default [] (JsonFile.requests data)))
                                 + 1)]) |}))) as Hsame.
  { intros Hg. exists data'. auto. }
  destruct ev as [guid supplied|guid| |guid|guid n|guid logs
    |guid res|guid res|guid new_name|req now]; simpl.
  - rewrite lookup_insert. case_decide; [|intros Hg; right; by apply Hsame].
    intros [= <-]. by left.
  - unfold JsonFile.delete_url.
    destruct (JsonFile.files st !! JsonFile.filePath guid); simpl.
    + intros [_ Hl]%lookup_delete_Some. right. by apply Hsame.
    + intros Hg. right. by apply Hsame.
  - intros Hg. right. by apply Hsame.
  - unfold JsonFile.get_logs. destruct (JsonFile.files st !! JsonFile.filePath guid);
      intros Hg; right; by apply Hsame.
  - unfold JsonFile.delete_log.
    destruct (JsonFile.files st !! JsonFile.filePath guid) as [[nm [stored|]]|] eqn:E;
      simpl; try (intros Hg; right; by apply Hsame).
    rewrite lookup_insert. case_decide as Hg; [subst key|intros Hl; right; by apply Hsame].
    intros [= <-]. right. eexists. split; [done|]. right. left.
    eexists. split; [|split; [done|reflexivity]]. apply sublist_filter.
  - unfold JsonFile.delete_logs.
    destruct (JsonFile.files st !! JsonFile.filePath guid) as [[nm [stored|]]|] eqn:E,
      logs as [l|]; simpl; try (intros Hg; right; by apply Hsame);
      (rewrite lookup_insert;
       case_decide as Hg; [subst key|intros Hl; right; by apply Hsame]);
      intros [= <-]; right; (eexists; split; [done|]); right; left; eexists;
      (split; [|split; [done|reflexivity]]); simpl;
      [apply sublist_filter|apply sublist_nil_l|apply sublist_nil_l].
  - unfold JsonFile.logs_stream.
    destruct (register_client guid res (JsonFile.sseClients st));
      intros Hg; right; by apply Hsame.
  - unfold JsonFile.close.
    destruct (unregister_client guid res (JsonFile.sseClients st));
      intros Hg; right; by apply Hsame.
  - unfold JsonFile.rename_url.
    destruct (JsonFile.files st !! JsonFile.filePath guid) as [data|] eqn:E; simpl;
      [|intros Hg; right; by apply Hsame].
    rewrite lookup_insert. case_decide as Hg; [subst key|intros Hl; right; by apply Hsame].
    intros [= <-]. right. exists data. split; [done|]. do 2 right. left. by eexists.
  - destruct (route_guid (originalUrl req)) as [guid|] eqn:Er.
    + destruct (JsonFile.files st !! JsonFile.filePath guid) as [data|] eqn:E.
      * rewrite (json_capture_found _ _ _ _ _ Er E). simpl.
        rewrite lookup_insert.
        case_decide as Hg; [subst key|intros Hl; right; by apply Hsame].
        intros [= <-]. right. exists data. split; [done|]. do 3 right.
        by exists (request_data req now).
      * rewrite (json_capture_missing _ _ _ _ Er E). intros Hg. right. by apply Hsame.
    + destruct (json_capture_unrouted req now st Er) as [-> | ->];
        intros Hg; right; by apply Hsame.
Qed.

(** A deletion after which the file has as many entries as before has
    taken none out, and the log stays numbered 1, 2, ...; so it does
    under every other event. *)
Lemma json_step_numbered (key : string) (st : JsonFile.State) (ev : JsonFile.Event) :
  deletes_no_entry ev = true \/
  (entries key (JsonFile.files st) <=
   entries key (JsonFile.files (JsonFile.step st ev).1))%nat ->
  numbered key (JsonFile.files st) ->
  numbered key (JsonFile.files (JsonFile.step st ev).1).
Proof.
  intros Hev Hwf data' Hg.
  pose proof Hg as Hg'.
  apply json_step_doc in Hg' as [->|(data & Hdata & Hcases)]; [by exists []|].
  destruct (Hwf data Hdata) as (stored & Hstored & Hnum).
  destruct Hcases as [->|[(kept & Hsub & Hdel & ->)|[(new_name & ->)|(d & ->)]]].
  - by exists stored.
  - rewrite Hstored in Hsub. simpl in Hsub.
    destruct Hev as [Hev|Hev]; [congruence|].
    unfold entries in Hev. rewrite Hdata, Hg in Hev. simpl in Hev.
    rewrite Hstored in Hev. simpl in Hev.
    assert (kept = stored) as -> by by apply sublist_whole.
    by exists stored.
  - by exists stored.
  - rewrite Hstored. simpl. eexists. split; [done|]. by apply numbered_snoc.
Qed.

Lemma json_run_numbered (key : string) (evs : list JsonFile.Event)
  (st : JsonFile.State) :
  keeps_entries key st evs = true ->
  numbered key (JsonFile.files st) ->
  numbered key (JsonFile.files (JsonFile.run st evs).1).
Proof.
  revert st. induction evs as [|ev evs IH]; intros st Hevs Hwf; [done|].
  simpl in Hevs. apply andb_true_iff in Hevs as [Hev Hevs].
  rewrite json_run_cons. cbn [fst]. apply IH; [done|].
  apply json_step_numbered; [|done].
  apply orb_true_iff in Hev as [Hev|Hev]; [by left|right].
  by apply Nat.leb_le.
Qed.

(** The documents the flat-file server writes always have an array under
    [requests]: the bins of a state reached from the empty directory are
    the ones the theorems on deletion speak of. *)
Lemma json_run_has_array (evs : list JsonFile.Event) (st : JsonFile.State) :
  has_array (JsonFile.files st) ->
  has_array (JsonFile.files (JsonFile.run st evs).1).
Proof.
  revert st. induction evs as [|ev evs IH]; intros st Hwf; [done|].
  rewrite json_run_cons. cbn [fst]. apply IH. intros key data' Hg.
  apply json_step_doc in Hg as [->|(data & Hdata & Hcases)]; [done|].
  specialize (Hwf key data Hdata).
  by destruct Hcases as [->|[(kept & _ & _ & ->)|[(new_name & ->)|(d & ->)]]].
Qed.

End JsonNumbering.

(** ** C1: assignment of log numbers *)

Section C1.
Context `{!Platform}.

(** C1, amended.  In the relational variant a capture appended to an
    existing bin gets the number the store computes from the database
    alone ([next_rowid]): it is at least 1 and greater than every number
    in the bin, so the numbers of a bin are increasing in insertion
    order, hence distinct.  In the flat-file variant, for a bin from
    which no deletion of the run has taken an entry, the number is one
    more than the largest number in the bin (0 for an empty log).  The
    caller's data carries no number.  The entry is stored in either
    variant before the viewers are told; the answer is 200 for every bin
    id that is no key of [Object.prototype]. *)
Theorem C1_log_numbers_assigned_by_store
  (evs : list Sqlite.Event) (guid : string) (db : Sqlite.Db) (d : RequestData)
  (jevs : list JsonFile.Event) (jguid : string) (data : JsonFile.Doc)
  (jd : RequestData) :
  let st := (Sqlite.run Sqlite.initial evs).1 in
  let jst := (JsonFile.run JsonFile.initial jevs).1 in
  (Sqlite.files st !! Sqlite.dbPath guid = Some db ->
   increasing (Sqlite.requests db) /\
   exists row,
     Sqlite.requests <$>
       Sqlite.files (Sqlite.logRequest guid d st).1 !! Sqlite.dbPath guid =
       Some (Sqlite.requests db ++ [row]) /\
     (guid ∉ Object_prototype ->
      (Sqlite.logRequest guid d st).2 = Returned {| status := 200; error := None |}) /\
     Sqlite.r_logNumber row = Sqlite.next_rowid db /\
     1 <= Sqlite.r_logNumber row /\
     (forall r, r ∈ Sqlite.requests db ->
                Sqlite.r_logNumber r < Sqlite.r_logNumber row) /\
     increasing (Sqlite.requests db ++ [row]) /\
     NoDup (map Sqlite.r_logNumber (Sqlite.requests db ++ [row]))) /\
  (keeps_entries (JsonFile.filePath jguid) JsonFile.initial jevs = true ->
   JsonFile.files jst !! JsonFile.filePath jguid = Some data ->
   exists stored,
     JsonFile.requests data = Some stored /\
     (jguid ∉ Object_prototype ->
      (JsonFile.logRequest jguid jd jst).2 =
        Returned {| status := 200; error := None |}) /\
     JsonFile.files (JsonFile.logRequest jguid jd jst).1 !! JsonFile.filePath jguid
       ≫= JsonFile.requests =
       Some (stored ++ [with_logNumber jd (max_logNumber stored + 1)])).
Proof.
  intros st jst. split.
  - intros Hdb.
    assert (increasing (Sqlite.requests db)) as Hinc
      by exact (reachable_well_numbered evs _ db Hdb).
    split; [done|].
    rewrite (logRequest_found _ _ _ _ Hdb). eexists. cbn [fst snd Sqlite.files].
    rewrite lookup_insert_eq. simpl. split; [done|].
    assert (increasing (Sqlite.requests (Sqlite.insert_request d db).2)) as Hinc'
      by by apply insert_request_increasing.
    split.
    { intros Hguid. pose proof (property_fresh (Sqlite.sseClients st) guid Hguid).
      by destruct (property (Sqlite.sseClients st) guid). }
    repeat split; try done.
    + apply next_rowid_positive.
    + intros r Hr. by apply next_rowid_above.
    + by apply increasing_NoDup in Hinc'.
  - intros Hkeeps Hdata.
    destruct (json_run_numbered (JsonFile.filePath jguid) jevs JsonFile.initial Hkeeps)
      with (2 := Hdata) as (stored & Hreq & Hnum).
    { intros x. simpl. by rewrite lookup_empty. }
    rewrite (json_logRequest_found _ _ _ _ Hdata). rewrite Hreq.
    cbn [fst snd JsonFile.files default].
    exists stored. split; [done|]. split.
    { intros Hguid. pose proof (property_fresh (JsonFile.sseClients jst) jguid Hguid).
      by destruct (property (JsonFile.sseClients jst) jguid). }
    rewrite lookup_insert_eq. simpl.
    by rewrite (max_logNumber_numbered _ Hnum).
Qed.

End C1.

(** ** C2: capture to an unknown bin *)

Section C2.
Context `{!Platform}.


End C2.

(** ** C3: fetching the log of a bin *)

Section C3.
Context `{!Platform}.

#[local] Instance logNumber_desc_total : Total Sqlite.logNumber_desc.
Proof. intros a b. unfold Sqlite.logNumber_desc. lia. Qed.

#[local] Instance logNumber_desc_trans : Transitive Sqlite.logNumber_desc.
Proof. intros a b c. unfold Sqlite.logNumber_desc. lia. Qed.

(** C3, amended.  The relational variant answers a fetch of an existing
    bin with the bin's entries ordered descending by log number; the
    flat-file variant answers with the stored document, its entries in
    stored (insertion) order.  Both answer 404 for an absent bin and
    neither changes the state. *)
Theorem C3_fetch_log (guid : string) (st : Sqlite.State) (jst : JsonFile.State) :
  (forall db, Sqlite.files st !! Sqlite.dbPath guid = Some db ->
     exists entries,
       Sqlite.get_logs guid st =
         (st, JsonLog (Some (Sqlite.bin_name db)) (Some entries)) /\
       entries ≡ₚ map Sqlite.entry_of_row (Sqlite.requests db) /\
       StronglySorted (fun a b => logNumber b <= logNumber a) entries) /\
  (Sqlite.files st !! Sqlite.dbPath guid = None ->
     Sqlite.get_logs guid st = (st, SendStatus 404)) /\
  (forall data, JsonFile.files jst !! JsonFile.filePath guid = Some data ->
     JsonFile.get_logs guid jst =
       (jst, JsonLog (JsonFile.name data) (JsonFile.requests data))) /\
  (JsonFile.files jst !! JsonFile.filePath guid = None ->
     JsonFile.get_logs guid jst = (jst, Send 404 "Logs not found")).
Proof.
  repeat split.
  - intros db Hdb. unfold Sqlite.get_logs. rewrite Hdb. eexists. split; [done|].
    split.
    + apply fmap_Permutation, merge_sort_Permutation.
    + pose proof (StronglySorted_merge_sort Sqlite.logNumber_desc
                    (Sqlite.requests db)) as Hs.
      induction Hs as [|r rows Hs IH Hall]; simpl; constructor; [done|].
      apply Forall_fmap. eapply Forall_impl; [exact Hall|]. done.
  - intros E. unfold Sqlite.get_logs. by rewrite E.
  - intros data E. unfold JsonFile.get_logs. by rewrite E.
  - intros E. unfold JsonFile.get_logs. by rewrite E.
Qed.

End C3.

(** ** C4: what a subscriber receives *)

(** The object sent for an entry carries the data of the request and
    the log number of the entry. *)
Lemma entry_json_announces (d : RequestData) (n : Z) :
  announces (entry_json (with_logNumber d n)) d n.
Proof. repeat split. Qed.

Section C4.
Context `{!Platform}.

Lemma feed_step (st : Sqlite.State) (guid : string) (db : Sqlite.Db)
  (clients : list nat) (res : nat) (ev : Sqlite.Event) :
  Sqlite.files st !! Sqlite.dbPath guid = Some db ->
  Sqlite.sseClients st !! guid = Some clients -> NoDup clients -> res ∈ clients ->
  feeds guid ev = true ->
  let st1 := (Sqlite.step st ev).1 in
  exists db' numbers,
    Sqlite.files st1 !! Sqlite.dbPath guid = Some db' /\
    Sqlite.sseClients st1 = Sqlite.sseClients st /\
    map Sqlite.r_logNumber (Sqlite.requests db') =
      map Sqlite.r_logNumber (Sqlite.requests db) ++ numbers /\
    length numbers = length (captured [ev]) /\
    data_events (written (Sqlite.streams st1) res) =
      data_events (written (Sqlite.streams st) res) ++
      map payload (zip_with with_logNumber (captured [ev]) numbers) /\
    ((Sqlite.step st ev).2 = SendStatus 200 \/ (Sqlite.step st ev).2 = NoReply).
Proof.
  intros Hdb Hcl Hnd Hin Hfeeds. destruct ev; try done; simpl in *.
  - (* a timer fires *)
    exists db, []. unfold Sqlite.tick. case_decide; simpl.
    + repeat split; try done; [by rewrite app_nil_r| |by right].
      destruct (decide (res0 = res)) as [->|Hne].
      * rewrite written_write_eq, data_events_snoc, data_event_keep_alive. done.
      * rewrite written_write_ne by done. by rewrite app_nil_r.
    + repeat split; try done; [by rewrite app_nil_r|by rewrite app_nil_r|by right].
  - (* a capture *)
    apply bool_decide_eq_true in Hfeeds.
    rewrite (capture_found _ _ _ _ _ Hfeeds Hdb). cbn [fst snd].
    rewrite (property_own _ _ _ Hcl).
    exists (Sqlite.insert_request (request_data req now) db).2,
           [Sqlite.next_rowid db].
    cbn [Sqlite.files Sqlite.sseClients Sqlite.streams].
    rewrite lookup_insert_eq. repeat split; try done.
    + simpl. by rewrite map_app.
    + rewrite (told_registered _ _ _ _ _ _ Hcl Hnd Hin).
      by rewrite data_events_snoc, data_event_sse_data.
    + by left.
Qed.

Lemma captured_cons (ev : Sqlite.Event) (evs : list Sqlite.Event) :
  captured (ev :: evs) = captured [ev] ++ captured evs.
Proof. unfold captured. by rewrite <- omap_app. Qed.

Lemma feed_run (st : Sqlite.State) (guid : string)
  (db : Sqlite.Db) (clients : list nat) (res : nat) (evs : list Sqlite.Event) :
  Sqlite.files st !! Sqlite.dbPath guid = Some db ->
  Sqlite.sseClients st !! guid = Some clients -> NoDup clients -> res ∈ clients ->
  forallb (feeds guid) evs = true ->
  let st' := (Sqlite.run st evs).1 in
  exists db' numbers,
    Sqlite.files st' !! Sqlite.dbPath guid = Some db' /\
    map Sqlite.r_logNumber (Sqlite.requests db') =
      map Sqlite.r_logNumber (Sqlite.requests db) ++ numbers /\
    length numbers = length (captured evs) /\
    data_events (written (Sqlite.streams st') res) =
      data_events (written (Sqlite.streams st) res) ++
      map payload (zip_with with_logNumber (captured evs) numbers) /\
    Forall (fun r => r = SendStatus 200 \/ r = NoReply) (Sqlite.run st evs).2.
Proof.
  revert st db. induction evs as [|ev evs IH]; intros st db Hdb Hcl Hnd Hin Hfeeds.
  - exists db, []. simpl. rewrite !app_nil_r. repeat split; done.
  - simpl in Hfeeds. apply andb_true_iff in Hfeeds as [Hev Hevs].
    destruct (feed_step st guid db clients res ev Hdb Hcl Hnd Hin Hev)
      as (db1 & n1 & Hdb1 & Hcl1 & Hnum1 & Hlen1 & Hdata1 & Hreply).
    rewrite run_cons, captured_cons. cbn [fst snd].
    rewrite <- Hcl1 in Hcl.
    destruct (IH _ db1 Hdb1 Hcl Hnd Hin Hevs)
      as (db2 & n2 & Hdb2 & Hnum2 & Hlen2 & Hdata2 & Hreplies).
    exists db2, (n1 ++ n2). repeat split; try done.
    + rewrite Hnum2, Hnum1. by rewrite app_assoc.
    + by rewrite !length_app, Hlen1, Hlen2.
    + rewrite Hdata2, Hdata1. rewrite <- app_assoc. f_equal.
      rewrite zip_with_app by done. by rewrite map_app.
    + by constructor.
Qed.

(** The payloads of the entries of a run are the texts of objects that
    carry the data and the number of each. *)
Lemma payloads_announce (ds : list RequestData) (ns : list Z) :
  length ns = length ds ->
  exists objects,
    map payload (zip_with with_logNumber ds ns) = map JSON_stringify objects /\
    Forall2 (fun v dn => announces v dn.1 dn.2) objects (zip ds ns).
Proof.
  revert ns. induction ds as [|d ds IH]; intros [|n ns] Hlen; try done.
  - by exists [].
  - destruct (IH ns) as (objects & Hmap & Hall); [simpl in Hlen; lia|].
    exists (entry_json (with_logNumber d n) :: objects). simpl. rewrite Hmap.
    split; [done|]. constructor; [apply entry_json_announces|done].
Qed.

(** A capture that reaches the file of a bin by another id than the one
    its viewers gave is stored and answered like any other, and tells
    the viewers of that other id only. *)
Lemma alias_capture (req : Request) (now guid alias : string) (st : Sqlite.State)
  (db : Sqlite.Db) (res : nat) :
  route_guid (originalUrl req) = Some alias ->
  Sqlite.dbPath alias = Sqlite.dbPath guid ->
  Sqlite.files st !! Sqlite.dbPath guid = Some db ->
  res ∉ default [] (Sqlite.sseClients st !! alias) ->
  let st' := (Sqlite.capture req now st).1 in
  Sqlite.files st' !! Sqlite.dbPath guid =
    Some (Sqlite.insert_request (request_data req now) db).2 /\
  written (Sqlite.streams st') res = written (Sqlite.streams st) res /\
  (alias ∉ Object_prototype -> (Sqlite.capture req now st).2 = SendStatus 200).
Proof.
  intros Hroute Hpath Hdb Hres. rewrite <- Hpath in Hdb.
  rewrite (capture_found _ _ _ _ _ Hroute Hdb). cbn [fst snd].
  cbn [Sqlite.files Sqlite.streams]. rewrite <- Hpath, lookup_insert_eq.
  split; [done|]. split; [by apply told_outside|].
  intros Halias. pose proof (property_fresh (Sqlite.sseClients st) alias Halias).
  by destruct (property (Sqlite.sseClients st) alias).
Qed.

End C4.

(** ** C5 and C9: deleting one entry *)

Lemma filter_all {A : Type} (P : A -> Prop) `{!forall x, Decision (P x)}
  (l : list A) :
  Forall P l -> filter P l = l.
Proof.
  induction 1 as [|x l Hx Hl IH]; [done|].
  rewrite filter_cons. destruct (decide (P x)); [|done]. by rewrite IH.
Qed.

(** Among entries with distinct keys, dropping those with the key of one
    of them drops exactly one. *)
Lemma filter_key_length {A : Type} (f : A -> Z) (l : list A) (x : A) :
  NoDup (map f l) -> x ∈ l ->
  length l = S (length (filter (fun y => f y <> f x) l)).
Proof.
  induction l as [|y l IH]; intros Hnd Hin.
  - by apply elem_of_nil in Hin.
  - simpl in Hnd. apply NoDup_cons in Hnd as [Hy Hnd]. rewrite filter_cons.
    destruct (decide (f y <> f x)) as [Hne|Heq].
    + apply elem_of_cons in Hin as [->|Hin]; [done|].
      simpl. f_equal. by apply IH.
    + assert (f y = f x) as Hyx by (destruct (decide (f y = f x)); [done|tauto]).
      simpl. f_equal. rewrite filter_all; [done|].
      apply Forall_forall. intros z Hz Hzx. apply Hy.
      rewrite Hyx, <- Hzx. apply list_elem_of_fmap. by exists z.
Qed.

(** Among entries with distinct keys, dropping those with the key of one
    of them takes that one out and leaves the list around it. *)
Lemma filter_key_split {A : Type} (f : A -> Z) (l : list A) (x : A) :
  NoDup (map f l) -> x ∈ l ->
  exists before after,
    l = before ++ x :: after /\
    filter (fun y => f y <> f x) l = before ++ after.
Proof.
  intros Hnd Hin. apply list_elem_of_split in Hin as (before & after & ->).
  exists before, after. split; [done|].
  rewrite map_app in Hnd. simpl in Hnd.
  apply NoDup_app in Hnd as (_ & Hdisjoint & Hnd).
  apply NoDup_cons in Hnd as [Hafter _].
  rewrite filter_app, filter_cons.
  destruct (decide (f x <> f x)) as [Hne|_]; [done|].
  rewrite !filter_all; [done| |].
  - apply Forall_forall. intros y Hy Heq. apply Hafter.
    rewrite <- Heq. apply list_elem_of_fmap. by exists y.
  - apply Forall_forall. intros y Hy Heq. apply (Hdisjoint (f y)).
    + apply list_elem_of_fmap. by exists y.
    + rewrite Heq. left.
Qed.

Section DeleteEntry.
Context `{!Platform}.

Lemma set_files_same (st : Sqlite.State) : Sqlite.set_files (Sqlite.files st) st = st.
Proof. by destruct st. Qed.

Lemma json_set_files_same (st : JsonFile.State) :
  JsonFile.set_files (JsonFile.files st) st = st.
Proof. by destruct st. Qed.


End DeleteEntry.

(** ** C6: deleting a bin *)

(** The listing has a row for each file of the data directory. *)
Lemma listed_files {A : Type} (f : string * A -> Summary) (fs : gmap string A) :
  (forall kv, s_guid (f kv) = kv.1) ->
  NoDup (map s_guid (map f (readdir fs))) /\
  forall g, g ∈ map s_guid (map f (readdir fs)) <->
            is_Some (fs !! g) /\ lacks "/" g = true.
Proof.
  intros Hf.
  assert (map s_guid (map f (readdir fs)) = (readdir fs).*1) as ->.
  { induction (readdir fs) as [|kv l IH]; simpl; [done|]. by rewrite Hf, IH. }
  unfold readdir. split.
  - apply NoDup_fmap_fst.
    + intros k x y [_ Hx%elem_of_map_to_list]%list_elem_of_filter
        [_ Hy%elem_of_map_to_list]%list_elem_of_filter. congruence.
    + apply NoDup_filter, NoDup_map_to_list.
  - intros g. split.
    + intros ([g' x] & -> & [Hg Hin]%list_elem_of_filter)%list_elem_of_fmap.
      apply elem_of_map_to_list in Hin. simpl in *. split; [by exists x|done].
    + intros [[x Hx] Hg]. apply list_elem_of_fmap. exists (g, x). split; [done|].
      apply list_elem_of_filter. split; [done|]. by apply elem_of_map_to_list.
Qed.

Section C6.
Context `{!Platform}.

Lemma unregistered_delete_any (res : nat) (guid : string)
  (clients : gmap string (list nat)) :
  unregistered res clients -> unregistered res (delete guid clients).
Proof. intros Hun g l [_ Hl]%lookup_delete_Some. by eapply Hun. Qed.


(** Nothing is written to a response object that is in no list and has
    no timer, by any event that does not register it. *)
Lemma step_silent (st : Sqlite.State) (ev : Sqlite.Event) (res : nat) :
  gone res st -> opens res ev = false ->
  gone res (Sqlite.step st ev).1 /\
  written (Sqlite.streams (Sqlite.step st ev).1) res = written (Sqlite.streams st) res.
Proof.
  intros [Hun Htimer] Hev. unfold gone.
  destruct ev as [guid name|guid| |guid|guid n|guid logs
    |guid r|r|guid r|guid name|req now]; simpl in *; try done.
  - unfold Sqlite.delete_url.
    destruct (Sqlite.files st !! Sqlite.dbPath guid); simpl; [|done].
    split; [|done]. split; [|done]. by apply unregistered_delete_any.
  - unfold Sqlite.get_logs. by destruct (Sqlite.files st !! Sqlite.dbPath guid).
  - unfold Sqlite.delete_log. by destruct (Sqlite.files st !! Sqlite.dbPath guid).
  - unfold Sqlite.delete_logs.
    destruct (Sqlite.files st !! Sqlite.dbPath guid); [|done].
    destruct logs; [case_bool_decide|]; done.
  - apply bool_decide_eq_false in Hev. unfold Sqlite.logs_stream.
    destruct (register_client guid r (Sqlite.sseClients st)) as [c|] eqn:E;
      simpl; [|done].
    split; [|done]. split.
    + by eapply unregistered_register.
    + rewrite elem_of_union, elem_of_singleton. intros [->|Hin]; done.
  - unfold Sqlite.tick. case_decide as Hr; simpl; [|done]. split; [done|].
    apply written_write_ne. intros ->. contradiction.
  - unfold Sqlite.close.
    destruct (unregister_client guid r (Sqlite.sseClients st)) as [c|] eqn:E; simpl.
    + split; [|done]. split; [by eapply unregistered_unregister|].
      rewrite elem_of_difference. by intros [Hin _].
    + split; [|done]. split; [done|].
      rewrite elem_of_difference. by intros [Hin _].
  - unfold Sqlite.rename_url. by destruct (Sqlite.files st !! Sqlite.dbPath guid).
  - destruct (route_guid (originalUrl req)) as [guid|] eqn:Er.
    + destruct (Sqlite.files st !! Sqlite.dbPath guid) as [db|] eqn:E.
      * rewrite (capture_found _ _ _ _ _ Er E). simpl. split; [done|].
        by rewrite told_unregistered.
      * by rewrite (capture_missing _ _ _ _ Er E).
    + by destruct (capture_unrouted req now st Er) as [-> | ->].
Qed.

Lemma run_silent (evs : list Sqlite.Event) (st : Sqlite.State) (res : nat) :
  gone res st ->
  forallb (fun ev => negb (opens res ev)) evs = true ->
  written (Sqlite.streams (Sqlite.run st evs).1) res = written (Sqlite.streams st) res.
Proof.
  revert st. induction evs as [|ev evs IH]; intros st Hgone Hevs; [done|].
  simpl in Hevs. apply andb_true_iff in Hevs as [Hev%negb_true_iff Hevs].
  destruct (step_silent st ev res Hgone Hev) as [Hgone1 Hw].
  rewrite run_cons. cbn [fst]. by rewrite IH.
Qed.






End C6.

(** ** C7: renaming a bin *)

Section C7.
Context `{!Platform}.

(** The relational variant answers a rename 404 for a bin that does not
    exist, and 200 for one that does, whose name is then the new one. *)
Lemma sqlite_rename_status (guid name : string) (st : Sqlite.State) :
  (Sqlite.files st !! Sqlite.dbPath guid = None ->
   Sqlite.rename_url guid name st = (st, SendStatus 404)) /\
  (forall db, Sqlite.files st !! Sqlite.dbPath guid = Some db ->
     exists st' db',
       Sqlite.rename_url guid name st = (st', SendStatus 200) /\
       Sqlite.files st' !! Sqlite.dbPath guid = Some db' /\
       Sqlite.requests db' = Sqlite.requests db /\
       (Sqlite.metadata db <> [] -> Sqlite.bin_name db' = JStr name)).
Proof.
  split.
  - intros E. unfold Sqlite.rename_url. by rewrite E.
  - intros db E. unfold Sqlite.rename_url. rewrite E. do 2 eexists.
    split; [done|]. simpl. rewrite lookup_insert_eq. split; [done|].
    split; [done|]. unfold Sqlite.bin_name. simpl.
    by destruct (Sqlite.metadata db).
Qed.

(** The flat-file variant answers a rename of an existing bin 200 and
    stores the new name. *)
Lemma json_rename_found (guid : string) (new_name : option string)
  (st : JsonFile.State) (data : JsonFile.Doc) :
  JsonFile.files st !! JsonFile.filePath guid = Some data ->
  exists st',
    JsonFile.rename_url guid new_name st = (st', SendStatus 200) /\
    JsonFile.files st' !! JsonFile.filePath guid =
      Some {| JsonFile.name := JStr <$> new_name;
              JsonFile.requests := JsonFile.requests data |}.
Proof.
  intros E. unfold JsonFile.rename_url. rewrite E. eexists. split; [done|].
  simpl. by rewrite lookup_insert_eq.
Qed.

(** The flat-file variant answers a rename of a bin that does not exist
    500, where C7 says 404. *)
Lemma json_rename_missing (guid : string) (new_name : option string)
  (st : JsonFile.State) :
  JsonFile.files st !! JsonFile.filePath guid = None ->
  JsonFile.rename_url guid new_name st = (st, Send 500 "Error renaming URL").
Proof. intros E. unfold JsonFile.rename_url. by rewrite E. Qed.

(** C7 fails on the flat-file variant: the rename of a bin that does not
    exist is answered 500, not 404. *)
Theorem C7_rename_of_missing_bin_is_500 :
  JsonFile.rename_url "nobin" (Some "mine") JsonFile.initial =
    (JsonFile.initial, Send 500 "Error renaming URL") /\
  status_of (JsonFile.rename_url "nobin" (Some "mine") JsonFile.initial).2 <> 404%nat.
Proof.
  assert (JsonFile.rename_url "nobin" (Some "mine") JsonFile.initial =
            (JsonFile.initial, Send 500 "Error renaming URL")) as E.
  { unfold JsonFile.rename_url. simpl. by rewrite lookup_empty. }
  split; [done|]. rewrite E. simpl. lia.
Qed.

End C7.

(** ** C8: creating a bin and fetching its log *)

Section C8.
Context `{!Platform}.

(** C8, amended.  Fetching the log of a bin right after its creation
    gives an empty list of entries and the name the creation answered
    with.  In the relational variant, for a new bin id, that name is the
    supplied one, or [Untitled] when none was supplied; in the flat-file
    variant it is [false] whatever name was supplied. *)
Theorem C8_fetch_after_create (guid : string) (name : option string)
  (st : Sqlite.State) (jst : JsonFile.State) :
  let initial_name := Some (JStr (default "Untitled" name)) in
  (Sqlite.files st !! Sqlite.dbPath guid = None ->
   (Sqlite.create_url guid name st).2 = JsonCreated guid initial_name /\
   (Sqlite.get_logs guid (Sqlite.create_url guid name st).1).2 =
     JsonLog initial_name (Some [])) /\
  ((JsonFile.create_url guid name jst).2 = JsonCreated guid (Some (JBool false)) /\
   (JsonFile.get_logs guid (JsonFile.create_url guid name jst).1).2 =
     JsonLog (Some (JBool false)) (Some [])).
Proof.
  intros initial_name. split; [intros Hfresh|]; split; try done.
  - unfold Sqlite.create_url, Sqlite.get_logs, Sqlite.initDb. simpl.
    rewrite Hfresh, lookup_alter. case_decide; [|done].
    by rewrite lookup_insert_eq.
  - unfold JsonFile.create_url, JsonFile.get_logs. simpl.
    by rewrite lookup_insert_eq.
Qed.

End C8.

(** ** C10: the stored URL *)

Section C10.
Context `{!Platform}.

(** C10.  A request captured into an existing bin is stored with its
    whole original URL: the slash, the text of the segment the bin id is
    decoded from, and all that follows it.  The entry is stored before
    the viewers are told, and the answer is 200 for every bin id that is
    no key of [Object.prototype]. *)
Theorem C10_stored_url_is_the_original_url (req : Request) (now guid : string)
  (st : Sqlite.State) (db : Sqlite.Db)
  (jst : JsonFile.State) (data : JsonFile.Doc) :
  route_guid (originalUrl req) = Some guid ->
  (exists seg rest,
     originalUrl req = "/" +:+ seg +:+ rest /\ decodeURIComponent seg = Some guid) /\
  (Sqlite.files st !! Sqlite.dbPath guid = Some db ->
   exists db' row,
     Sqlite.files (Sqlite.capture req now st).1 !! Sqlite.dbPath guid = Some db' /\
     Sqlite.requests db' = Sqlite.requests db ++ [row] /\
     Sqlite.r_url row = originalUrl req /\
     (guid ∉ Object_prototype -> (Sqlite.capture req now st).2 = SendStatus 200)) /\
  (JsonFile.files jst !! JsonFile.filePath guid = Some data ->
   exists e,
     JsonFile.files (JsonFile.capture req now jst).1 !! JsonFile.filePath guid
       ≫= JsonFile.requests =
       Some (default [] (JsonFile.requests data) ++ [e]) /\
     e_url e = originalUrl req /\
     (guid ∉ Object_prototype -> (JsonFile.capture req now jst).2 = SendStatus 200)).
Proof.
  intros Hroute. split; [|split].
  - destruct (route_guid_segment _ _ Hroute) as (seg & Hseg & Hdecode).
    destruct (first_segment_prefix _ _ Hseg) as [_ [rest Hrest]]. by exists seg, rest.
  - intros Hdb. rewrite (capture_found _ _ _ _ _ Hroute Hdb). cbn [fst snd].
    do 2 eexists. simpl. rewrite lookup_insert_eq.
    split; [done|]. simpl. split; [done|]. split; [done|].
    intros Hguid. pose proof (property_fresh (Sqlite.sseClients st) guid Hguid).
    by destruct (property (Sqlite.sseClients st) guid).
  - intros Hdata. rewrite (json_capture_found _ _ _ _ _ Hroute Hdata). cbn [fst snd].
    eexists. simpl. rewrite lookup_insert_eq.
    split; [done|]. split; [done|].
    intros Hguid. pose proof (property_fresh (JsonFile.sseClients jst) guid Hguid).
    by destruct (property (JsonFile.sseClients jst) guid).
Qed.

End C10.


(** * Further properties of the handlers *)

(** ** Numbers after a deletion, and the order of a fetched log *)

Section SqliteOrder.
Context `{!Platform}.

Lemma capture_after_loss (st1 : Sqlite.State) (guid : string) (db db1 : Sqlite.Db)
  (d : RequestData) :
  0 <= Sqlite.sqlite_sequence db ->
  (forall r, r ∈ Sqlite.requests db ->
             Sqlite.r_logNumber r <= Sqlite.sqlite_sequence db) ->
  Sqlite.files st1 !! Sqlite.dbPath guid = Some db1 ->
  Sqlite.sqlite_sequence db1 = Sqlite.sqlite_sequence db ->
  Sqlite.requests db1 `sublist_of` Sqlite.requests db ->
  exists row,
    (guid ∉ Object_prototype ->
     (Sqlite.logRequest guid d st1).2 = Returned {| status := 200; error := None |}) /\
    Sqlite.requests <$>
      Sqlite.files (Sqlite.logRequest guid d st1).1 !! Sqlite.dbPath guid =
      Some (Sqlite.requests db1 ++ [row]) /\
    Sqlite.r_logNumber row = Sqlite.sqlite_sequence db + 1 /\
    (forall r, r ∈ Sqlite.requests db -> Sqlite.r_logNumber r < Sqlite.r_logNumber row).
Proof.
  intros Hpos Hle Hdb1 Hseq Hsub.
  rewrite (logRequest_found _ _ _ _ Hdb1). cbn [fst snd Sqlite.files].
  eexists. split.
  { intros Hguid. pose proof (property_fresh (Sqlite.sseClients st1) guid Hguid).
    by destruct (property (Sqlite.sseClients st1) guid). }
  rewrite lookup_insert_eq. simpl. split; [done|]. simpl.
  assert (Sqlite.next_rowid db1 = Sqlite.sqlite_sequence db + 1) as ->.
  { rewrite <- Hseq. apply next_rowid_sequenced; [lia|].
    intros r Hr. rewrite Hseq. apply Hle. by eapply elem_of_sublist. }
  split; [done|]. intros r Hr. specialize (Hle r Hr). lia.
Qed.

(** X1.  In the relational variant a log number is never given a second time:
    after entries of a bin are deleted, by number or all of them, the
    next capture gets one more than the largest number the bin ever gave
    out, which is more than the number of every entry it held before the
    deletion.  Emptying a bin does not restart its numbers at 1.  The
    capture is answered 200 for every bin id that is no key of
    [Object.prototype]. *)
Theorem sqlite_numbers_are_not_reused (evs : list Sqlite.Event) (guid param : string)
  (logs : option (list Z)) (db : Sqlite.Db) (d : RequestData) :
  let st := (Sqlite.run Sqlite.initial evs).1 in
  Sqlite.files st !! Sqlite.dbPath guid = Some db ->
  forall st1,
    st1 = (Sqlite.delete_log guid param st).1 \/
    st1 = (Sqlite.delete_logs guid logs st).1 ->
    exists db1 row,
      Sqlite.files st1 !! Sqlite.dbPath guid = Some db1 /\
      (guid ∉ Object_prototype ->
       (Sqlite.logRequest guid d st1).2 =
         Returned {| status := 200; error := None |}) /\
      Sqlite.requests <$>
        Sqlite.files (Sqlite.logRequest guid d st1).1 !! Sqlite.dbPath guid =
        Some (Sqlite.requests db1 ++ [row]) /\
      Sqlite.r_logNumber row = Sqlite.sqlite_sequence db + 1 /\
      (forall r, r ∈ Sqlite.requests db ->
                 Sqlite.r_logNumber r < Sqlite.r_logNumber row).
Proof.
  intros st Hdb st1 Hst1.
  destruct (reachable_sequenced evs _ db Hdb) as [Hpos Hle].
  assert (exists db1, Sqlite.files st1 !! Sqlite.dbPath guid = Some db1 /\
                      Sqlite.sqlite_sequence db1 = Sqlite.sqlite_sequence db /\
                      Sqlite.requests db1 `sublist_of` Sqlite.requests db)
    as (db1 & Hdb1 & Hseq & Hsub).
  { destruct Hst1 as [-> | ->].
    - unfold Sqlite.delete_log. fold st. rewrite Hdb. simpl.
      rewrite lookup_insert_eq. eexists. split; [done|]. split; [done|].
      apply sublist_filter.
    - unfold Sqlite.delete_logs. fold st. rewrite Hdb.
      destruct logs as [l|]; [case_bool_decide|]; simpl.
      + rewrite lookup_insert_eq. eexists. split; [done|]. split; [done|].
        apply sublist_filter.
      + fold st. by exists db.
      + rewrite lookup_insert_eq. eexists. split; [done|]. split; [done|].
        apply sublist_nil_l. }
  exists db1.
  destruct (capture_after_loss st1 guid db db1 d Hpos Hle Hdb1 Hseq Hsub)
    as (row & Hlog & Hrows & Hnum & Hgt).
  by exists row.
Qed.

Lemma descending_reverse (rows : list Sqlite.Row) :
  increasing rows -> StronglySorted Sqlite.logNumber_desc (reverse rows).
Proof.
  induction 1 as [|r rows Hs IH Hall]; [constructor|].
  rewrite reverse_cons. apply StronglySorted_app_2; [|done|repeat constructor].
  intros x y Hx ->%list_elem_of_singleton. rewrite elem_of_reverse in Hx.
  unfold Sqlite.logNumber_desc. eapply Forall_forall in Hall; [|done]. lia.
Qed.

(** Two descending arrangements of rows with distinct numbers are equal. *)
Lemma descending_unique (l1 l2 : list Sqlite.Row) :
  l1 ≡ₚ l2 ->
  StronglySorted Sqlite.logNumber_desc l1 ->
  StronglySorted Sqlite.logNumber_desc l2 ->
  NoDup (map Sqlite.r_logNumber l1) ->
  l1 = l2.
Proof.
  revert l2. induction l1 as [|a l1 IH]; intros l2 Hperm Hs1 Hs2 Hnd.
  - by apply Permutation_nil_l in Hperm.
  - destruct l2 as [|b l2]; [by apply Permutation_nil_r in Hperm|].
    apply StronglySorted_inv in Hs1 as [Hs1 Ha].
    apply StronglySorted_inv in Hs2 as [Hs2 Hb].
    simpl in Hnd. apply NoDup_cons in Hnd as [Hna Hnd].
    assert (a = b) as ->.
    { assert (a ∈ b :: l2) as Hin by (rewrite <- Hperm; left).
      apply elem_of_cons in Hin as [->|Hin]; [done|].
      assert (b ∈ a :: l1) as Hin' by (rewrite Hperm; left).
      apply elem_of_cons in Hin' as [->|Hin']; [done|].
      exfalso. apply Hna.
      eapply Forall_forall in Ha; [|exact Hin'].
      eapply Forall_forall in Hb; [|exact Hin].
      unfold Sqlite.logNumber_desc in Ha, Hb.
      replace (Sqlite.r_logNumber a) with (Sqlite.r_logNumber b) by lia.
      apply list_elem_of_fmap. by exists b. }
    f_equal. apply IH; try done. by eapply Permutation_cons_inv.
Qed.

(** X2.  In the relational variant the fetched log lists the entries of the
    bin newest first: it is the stored rows in the reverse of the order
    they were inserted in. *)
Theorem sqlite_fetch_is_reverse_insertion_order (evs : list Sqlite.Event)
  (guid : string) (db : Sqlite.Db) :
  let st := (Sqlite.run Sqlite.initial evs).1 in
  Sqlite.files st !! Sqlite.dbPath guid = Some db ->
  Sqlite.get_logs guid st =
    (st, JsonLog (Some (Sqlite.bin_name db))
           (Some (map Sqlite.entry_of_row (reverse (Sqlite.requests db))))).
Proof.
  intros st Hdb. unfold Sqlite.get_logs. rewrite Hdb. do 4 f_equal.
  assert (increasing (Sqlite.requests db)) as Hinc
    by exact (reachable_well_numbered evs _ db Hdb).
  apply descending_unique.
  - rewrite reverse_Permutation. apply merge_sort_Permutation.
  - apply StronglySorted_merge_sort.
    + intros a b c. unfold Sqlite.logNumber_desc. lia.
    + intros a b. unfold Sqlite.logNumber_desc. lia.
  - by apply descending_reverse.
  - apply increasing_NoDup in Hinc.
    eapply NoDup_Permutation_proper; [|exact Hinc].
    apply fmap_Permutation, merge_sort_Permutation.
Qed.

End SqliteOrder.

(** ** Deleting several entries, or all of them *)

Lemma filter_twice {A : Type} (f : A -> Z) (l1 l2 : list Z) (rows : list A) :
  filter (fun r => f r ∉ l2) (filter (fun r => f r ∉ l1) rows) =
  filter (fun r => f r ∉ l1 ++ l2) rows.
Proof.
  rewrite list_filter_filter. apply list_filter_iff. intros r.
  rewrite elem_of_app. tauto.
Qed.

Section DeleteMany.
Context `{!Platform}.

(** The relational deletion of a list: a statement with more parameters
    than SQLite takes fails, and the handler neither answers nor changes
    anything. *)
Lemma sqlite_delete_logs_found (guid : string) (l : list Z) (st : Sqlite.State)
  (db : Sqlite.Db) :
  Sqlite.files st !! Sqlite.dbPath guid = Some db ->
  (Z.of_nat (length l) <= Z.pos SQLITE_MAX_VARIABLE_NUMBER ->
   Sqlite.delete_logs guid (Some l) st =
     (Sqlite.set_files
        (<[Sqlite.dbPath guid :=
             Sqlite.set_requests
               (filter (fun r => Sqlite.r_logNumber r ∉ l) (Sqlite.requests db)) db]>
           (Sqlite.files st)) st,
      SendStatus 200)) /\
  (Z.pos SQLITE_MAX_VARIABLE_NUMBER < Z.of_nat (length l) ->
   Sqlite.delete_logs guid (Some l) st =
     (st, Uncaught "SQLITE_ERROR: too many SQL variables")).
Proof.
  intros Hdb. unfold Sqlite.delete_logs. rewrite Hdb.
  split; intros Hlen; case_bool_decide; (done || lia).
Qed.

(** X3.  Deleting the entries numbered in a list is answered 200 for an
    existing bin and keeps, in their order, exactly the entries whose
    number is not in the list; the name of the bin, the other bins and, in
    the relational variant, the counter stay as they are.  Numbers in the
    list that no entry has are ignored: when no entry has a number of the
    list, as for the empty list, the state is the same.  In the
    relational variant this is so for a list of no more numbers than a
    statement of SQLite may have parameters; a longer list is not
    answered and deletes nothing. *)
Theorem delete_logs_keeps_the_others (guid : string) (l : list Z)
  (st : Sqlite.State) (db : Sqlite.Db)
  (jst : JsonFile.State) (data : JsonFile.Doc) (stored : list LogEntry) :
  (Sqlite.files st !! Sqlite.dbPath guid = Some db ->
   (Z.of_nat (length l) <= Z.pos SQLITE_MAX_VARIABLE_NUMBER ->
    exists st',
      Sqlite.delete_logs guid (Some l) st = (st', SendStatus 200) /\
      Sqlite.files st' !! Sqlite.dbPath guid =
        Some {| Sqlite.metadata := Sqlite.metadata db;
                Sqlite.requests :=
                  filter (fun r => Sqlite.r_logNumber r ∉ l) (Sqlite.requests db);
                Sqlite.sqlite_sequence := Sqlite.sqlite_sequence db |} /\
      (forall g, g <> Sqlite.dbPath guid ->
                 Sqlite.files st' !! g = Sqlite.files st !! g) /\
      ((forall r, r ∈ Sqlite.requests db -> Sqlite.r_logNumber r ∉ l) -> st' = st)) /\
   (Z.pos SQLITE_MAX_VARIABLE_NUMBER < Z.of_nat (length l) ->
    Sqlite.delete_logs guid (Some l) st =
      (st, Uncaught "SQLITE_ERROR: too many SQL variables"))) /\
  (JsonFile.files jst !! JsonFile.filePath guid = Some data ->
   JsonFile.requests data = Some stored ->
   exists jst',
     JsonFile.delete_logs guid (Some l) jst = (jst', SendStatus 200) /\
     JsonFile.files jst' !! JsonFile.filePath guid =
       Some {| JsonFile.name := JsonFile.name data;
               JsonFile.requests := Some (filter (fun x => logNumber x ∉ l) stored) |} /\
     (forall g, g <> JsonFile.filePath guid ->
                JsonFile.files jst' !! g = JsonFile.files jst !! g) /\
     ((forall x, x ∈ stored -> logNumber x ∉ l) -> jst' = jst)).
Proof.
  split.
  - intros Hdb. destruct (sqlite_delete_logs_found guid l st db Hdb) as [Hok Hfail].
    split; [|done]. intros Hlen. rewrite (Hok Hlen). eexists. split; [done|].
    simpl. rewrite lookup_insert_eq. split; [done|].
    split; [by intros g Hg; rewrite lookup_insert_ne|].
    intros Hnone. rewrite filter_all by by apply Forall_forall.
    replace (Sqlite.set_requests (Sqlite.requests db) db) with db by by destruct db.
    by rewrite insert_id, set_files_same.
  - intros Hdata Hstored. unfold JsonFile.delete_logs. rewrite Hdata.
    destruct data as [n reqs]. simpl in Hstored. subst reqs.
    eexists. split; [done|]. simpl. rewrite lookup_insert_eq. split; [done|].
    split; [by intros g Hg; rewrite lookup_insert_ne|].
    intros Hnone. rewrite filter_all by by apply Forall_forall.
    by rewrite insert_id, json_set_files_same.
Qed.

(** X4.  Deleting the numbers of one list and then those of a second one is,
    state and answer, the deletion of the numbers of both lists at once;
    this holds for a bin that does not exist as well.  In the relational
    variant the two lists together must be no longer than a statement of
    SQLite may have parameters, or the one deletion fails where the two
    succeed. *)
Theorem delete_logs_twice (guid : string) (l1 l2 : list Z)
  (st : Sqlite.State) (jst : JsonFile.State) :
  (Z.of_nat (length (l1 ++ l2)) <= Z.pos SQLITE_MAX_VARIABLE_NUMBER ->
   Sqlite.delete_logs guid (Some l2) (Sqlite.delete_logs guid (Some l1) st).1 =
     Sqlite.delete_logs guid (Some (l1 ++ l2)) st) /\
  JsonFile.delete_logs guid (Some l2) (JsonFile.delete_logs guid (Some l1) jst).1 =
    JsonFile.delete_logs guid (Some (l1 ++ l2)) jst.
Proof.
  split.
  - intros Hlen. rewrite length_app in Hlen.
    destruct (Sqlite.files st !! Sqlite.dbPath guid) as [db|] eqn:E.
    + destruct (sqlite_delete_logs_found guid l1 st db E) as [Hok1 _].
      destruct (sqlite_delete_logs_found guid (l1 ++ l2) st db E) as [Hok _].
      rewrite Hok1 by lia. rewrite Hok by (rewrite length_app; lia).
      cbn [fst].
      pose proof (lookup_insert_eq (Sqlite.files st) (Sqlite.dbPath guid)
                    (Sqlite.set_requests
                       (filter (fun r => Sqlite.r_logNumber r ∉ l1) (Sqlite.requests db))
                       db)) as E1.
      destruct (sqlite_delete_logs_found guid l2 (Sqlite.set_files _ st) _ E1)
        as [Hok2 _].
      rewrite Hok2 by lia.
      simpl. unfold Sqlite.set_files. simpl.
      rewrite insert_insert_eq. unfold Sqlite.set_requests. simpl.
      by rewrite (filter_twice Sqlite.r_logNumber).
    + unfold Sqlite.delete_logs. rewrite E. simpl. by rewrite E.
  - unfold JsonFile.delete_logs at 2 3.
    destruct (JsonFile.files jst !! JsonFile.filePath guid) as [[n [stored|]]|] eqn:E.
    + unfold JsonFile.delete_logs. simpl. rewrite lookup_insert_eq. simpl.
      rewrite insert_insert_eq. by rewrite (filter_twice logNumber).
    + unfold JsonFile.delete_logs. simpl. by rewrite E.
    + unfold JsonFile.delete_logs. simpl. by rewrite E.
Qed.

(** X5.  Deleting one entry by its path parameter does to the state what the
    deletion of the one-element list of its number does, and has the same
    status. *)
Theorem delete_log_is_delete_logs_of_one (guid param : string) (k : Z)
  (st : Sqlite.State) (jst : JsonFile.State) :
  (sqlite_integer_of_text param = Some k ->
   Sqlite.delete_log guid param st = Sqlite.delete_logs guid (Some [k]) st) /\
  (parseInt param = Some k ->
   (JsonFile.delete_log guid param jst).1 =
     (JsonFile.delete_logs guid (Some [k]) jst).1 /\
   status_of (JsonFile.delete_log guid param jst).2 =
     status_of (JsonFile.delete_logs guid (Some [k]) jst).2).
Proof.
  split.
  - intros Hparam. unfold Sqlite.delete_log, Sqlite.delete_logs.
    destruct (Sqlite.files st !! Sqlite.dbPath guid) as [db|]; [|done].
    rewrite Hparam. rewrite bool_decide_eq_true_2 by (simpl; lia).
    do 4 f_equal. apply list_filter_iff. intros r.
    rewrite list_elem_of_singleton. split; intros Hne Heq; apply Hne; congruence.
  - intros Hparam. unfold JsonFile.delete_log, JsonFile.delete_logs.
    destruct (JsonFile.files jst !! JsonFile.filePath guid) as [[n [stored|]]|]; [|done..].
    rewrite Hparam. simpl. split; [|done]. do 4 f_equal.
    apply list_filter_iff. intros r.
    rewrite list_elem_of_singleton. split; intros Hne Heq; apply Hne; congruence.
Qed.

(** X6.  Deleting all entries of an existing bin is answered 200 and leaves
    the bin in place: a fetch gives its name as before and an empty list,
    and the row the listing has for its file, when that is a file of the
    data directory, counts no entry and has no first and no last time. *)
Theorem delete_all_keeps_the_bin (guid : string)
  (st : Sqlite.State) (db : Sqlite.Db)
  (jst : JsonFile.State) (data : JsonFile.Doc) :
  (Sqlite.files st !! Sqlite.dbPath guid = Some db ->
   let st' := (Sqlite.delete_logs guid None st).1 in
   (Sqlite.delete_logs guid None st).2 = SendStatus 200 /\
   (Sqlite.get_logs guid st').2 =
     JsonLog (Some (Sqlite.bin_name db)) (Some []) /\
   (lacks "/" (Sqlite.dbPath guid) = true ->
    exists rows,
      (Sqlite.get_urls st').2 = JsonUrls rows /\
      {| s_guid := Sqlite.dbPath guid; s_name := Some (Sqlite.bin_name db);
         requestCount := 0; firstRequestTime := None;
         lastRequestTime := None |} ∈ rows)) /\
  (JsonFile.files jst !! JsonFile.filePath guid = Some data ->
   let jst' := (JsonFile.delete_logs guid None jst).1 in
   (JsonFile.delete_logs guid None jst).2 = SendStatus 200 /\
   (JsonFile.get_logs guid jst').2 = JsonLog (JsonFile.name data) (Some []) /\
   (lacks "/" (JsonFile.filePath guid) = true ->
    exists rows,
      (JsonFile.get_urls jst').2 = JsonUrls rows /\
      exists row,
        row ∈ rows /\ s_guid row = JsonFile.filePath guid /\
        requestCount row = 0%nat /\
        firstRequestTime row = None /\ lastRequestTime row = None)).
Proof.
  split.
  - intros Hdb. unfold Sqlite.delete_logs. rewrite Hdb. simpl.
    split; [done|]. split.
    + unfold Sqlite.get_logs. simpl. by rewrite lookup_insert_eq.
    + intros Hplain. eexists. split; [done|]. apply list_elem_of_fmap.
      exists (Sqlite.dbPath guid, Sqlite.set_requests [] db). split; [done|].
      apply list_elem_of_filter. split; [done|].
      apply elem_of_map_to_list, lookup_insert_eq.
  - intros Hdata. unfold JsonFile.delete_logs. rewrite Hdata.
    assert (forall (A : Type) (x : A),
              match data with
              | {| JsonFile.requests := Some _ |} | _ => x
              end = x) as -> by by intros A x; destruct data as [n [stored|]].
    simpl. split; [done|]. split.
    + unfold JsonFile.get_logs. simpl. by rewrite lookup_insert_eq.
    + intros Hplain. eexists. split; [done|]. eexists. split.
      * apply list_elem_of_fmap.
        exists (JsonFile.filePath guid,
                {| JsonFile.name := JsonFile.name data;
                   JsonFile.requests := Some [] |}).
        split; [done|]. apply list_elem_of_filter. split; [done|].
        apply elem_of_map_to_list, lookup_insert_eq.
      * done.
Qed.

(** X7.  In the flat-file variant the numbers of a bin start again at 1 once
    the bin has been emptied: the capture that follows the deletion of
    all entries is stored under number 1, whatever numbers the bin held;
    it is answered 200 for every bin id that is no key of
    [Object.prototype]. *)
Theorem json_numbers_restart_after_emptying (guid : string) (d : RequestData)
  (jst : JsonFile.State) (data : JsonFile.Doc) :
  JsonFile.files jst !! JsonFile.filePath guid = Some data ->
  let jst1 := (JsonFile.delete_logs guid None jst).1 in
  (guid ∉ Object_prototype ->
   (JsonFile.logRequest guid d jst1).2 = Returned {| status := 200; error := None |}) /\
  JsonFile.files (JsonFile.logRequest guid d jst1).1 !! JsonFile.filePath guid =
    Some {| JsonFile.name := JsonFile.name data;
            JsonFile.requests := Some [with_logNumber d 1] |}.
Proof.
  intros Hdata jst1.
  assert (JsonFile.files jst1 !! JsonFile.filePath guid =
          Some {| JsonFile.name := JsonFile.name data; JsonFile.requests := Some [] |})
    as Hdoc.
  { unfold jst1, JsonFile.delete_logs. rewrite Hdata.
    destruct data as [n [stored|]]; simpl; by rewrite lookup_insert_eq. }
  rewrite (json_logRequest_found _ _ _ _ Hdoc). cbn [fst snd JsonFile.files]. split.
  - intros Hguid. pose proof (property_fresh (JsonFile.sseClients jst1) guid Hguid).
    by destruct (property (JsonFile.sseClients jst1) guid).
  - by rewrite lookup_insert_eq.
Qed.

End DeleteMany.

(** ** The listing of bins *)

Section Listing.
Context `{!Platform}.

Lemma aggregate_none (f : string -> string -> string) (rows : list Sqlite.Row) :
  Sqlite.aggregate f rows = None <-> rows = [].
Proof. by destruct rows. Qed.

(** X8.  The listing of the relational variant leaves the state as it is and
    has one row for each file of the data directory and no other row; the
    row of a bin carries its name and the number of its entries, and has
    a first and a last time exactly when the bin has an entry. *)
Theorem sqlite_listing_is_the_bins (st : Sqlite.State) :
  (Sqlite.get_urls st).1 = st /\
  exists rows,
    (Sqlite.get_urls st).2 = JsonUrls rows /\
    NoDup (map s_guid rows) /\
    (forall g, g ∈ map s_guid rows <->
               is_Some (Sqlite.files st !! g) /\ lacks "/" g = true) /\
    (forall row, row ∈ rows ->
       exists db,
         Sqlite.files st !! s_guid row = Some db /\
         s_name row = Some (Sqlite.bin_name db) /\
         requestCount row = length (Sqlite.requests db) /\
         (firstRequestTime row = None <-> Sqlite.requests db = []) /\
         (lastRequestTime row = None <-> Sqlite.requests db = [])).
Proof.
  split; [done|]. eexists. split; [done|].
  match goal with
  | |- context [map ?f (readdir (Sqlite.files st))] =>
      destruct (listed_files f (Sqlite.files st)) as [Hnd Hin]; [by intros [g db]|]
  end.
  split; [exact Hnd|]. split; [exact Hin|].
  intros row ([g db] & -> & [_ Hg]%list_elem_of_filter)%list_elem_of_fmap.
  apply elem_of_map_to_list in Hg. exists db. simpl.
  repeat split; try done; apply aggregate_none.
Qed.

(** X9.  The listing of the flat-file variant leaves the state as it is and
    has one row for each file of the data directory and no other row.
    The name of a row is never a value that counts as false: it is the
    stored name when that counts as true, and [Untitled] otherwise, as
    for a bin that was never renamed.  The row counts the entries and
    takes its times from the first and the last stored entry. *)
Theorem json_listing_is_the_bins (jst : JsonFile.State) :
  (JsonFile.get_urls jst).1 = jst /\
  exists rows,
    (JsonFile.get_urls jst).2 = JsonUrls rows /\
    NoDup (map s_guid rows) /\
    (forall g, g ∈ map s_guid rows <->
               is_Some (JsonFile.files jst !! g) /\ lacks "/" g = true) /\
    (forall row, row ∈ rows ->
       exists data v,
         JsonFile.files jst !! s_guid row = Some data /\
         s_name row = Some v /\ JsonFile.truthy v = true /\
         (JsonFile.name data = Some (JBool false) -> v = JStr "Untitled") /\
         (forall w, JsonFile.name data = Some w -> JsonFile.truthy w = true -> v = w) /\
         requestCount row = length (default [] (JsonFile.requests data)) /\
         firstRequestTime row = e_timestamp <$> head (default [] (JsonFile.requests data)) /\
         lastRequestTime row = e_timestamp <$> last (default [] (JsonFile.requests data))).
Proof.
  split; [done|]. eexists. split; [done|].
  match goal with
  | |- context [map ?f (readdir (JsonFile.files jst))] =>
      destruct (listed_files f (JsonFile.files jst)) as [Hnd Hin]; [by intros [g db]|]
  end.
  split; [exact Hnd|]. split; [exact Hin|].
  intros row ([g data] & -> & [_ Hg]%list_elem_of_filter)%list_elem_of_fmap.
  apply elem_of_map_to_list in Hg. exists data. simpl.
  destruct (JsonFile.name data) as [w|] eqn:Ename.
  + destruct (JsonFile.truthy w) eqn:Etruthy.
    * exists w. repeat split; try done.
      -- intros [= ->]. done.
      -- by intros w' [= ->].
    * exists (JStr "Untitled"). repeat split; try done.
      intros w' [= ->] Hw. congruence.
  + exists (JStr "Untitled"). repeat split; done.
Qed.

End Listing.

(** ** Renaming and fetching *)

Section Rename.
Context `{!Platform}.

(** X10.  A fetch after a rename gives the new name and the entries the fetch
    gave before; the rename changes no other bin.  In the relational
    variant this is so for every bin the server has made; in the
    flat-file variant a rename without a name leaves the document without
    one. *)
Theorem fetch_after_rename (evs : list Sqlite.Event) (guid name : string)
  (db : Sqlite.Db) (jst : JsonFile.State) (data : JsonFile.Doc)
  (new_name : option string) :
  let st := (Sqlite.run Sqlite.initial evs).1 in
  (Sqlite.files st !! Sqlite.dbPath guid = Some db ->
   let st' := (Sqlite.rename_url guid name st).1 in
   (Sqlite.rename_url guid name st).2 = SendStatus 200 /\
   (exists entries,
      (Sqlite.get_logs guid st).2 = JsonLog (Some (Sqlite.bin_name db)) (Some entries) /\
      (Sqlite.get_logs guid st').2 = JsonLog (Some (JStr name)) (Some entries)) /\
   (forall g, g <> Sqlite.dbPath guid ->
              Sqlite.files st' !! g = Sqlite.files st !! g)) /\
  (JsonFile.files jst !! JsonFile.filePath guid = Some data ->
   let jst' := (JsonFile.rename_url guid new_name jst).1 in
   (JsonFile.rename_url guid new_name jst).2 = SendStatus 200 /\
   (JsonFile.get_logs guid jst).2 =
     JsonLog (JsonFile.name data) (JsonFile.requests data) /\
   (JsonFile.get_logs guid jst').2 =
     JsonLog (JStr <$> new_name) (JsonFile.requests data) /\
   (forall g, g <> JsonFile.filePath guid ->
              JsonFile.files jst' !! g = JsonFile.files jst !! g)).
Proof.
  intros st. split.
  - intros Hdb. pose proof (reachable_named evs _ db Hdb) as Hnamed.
    unfold Sqlite.rename_url. fold st. rewrite Hdb. simpl.
    split; [done|]. split.
    + eexists. unfold Sqlite.get_logs. simpl. fold st.
      rewrite Hdb, lookup_insert_eq. split; [done|]. simpl. do 3 f_equal.
      unfold Sqlite.bin_name. simpl. by destruct (Sqlite.metadata db).
    + intros g Hg. by rewrite lookup_insert_ne.
  - intros Hdata. unfold JsonFile.rename_url, JsonFile.get_logs.
    rewrite Hdata. simpl. rewrite lookup_insert_eq.
    repeat split; try done. intros g Hg. by rewrite lookup_insert_ne.
Qed.

End Rename.

(** ** What an error answer and what an event other than creation and
       deletion leave alone *)

Section Frames.
Context `{!Platform}.

(** X11.  An event of the relational variant that is answered with a status of
    400 or more leaves the whole state as it was. *)
Theorem sqlite_error_answers_change_nothing (st : Sqlite.State) (ev : Sqlite.Event) :
  (400 <= status_of (Sqlite.step st ev).2)%nat -> (Sqlite.step st ev).1 = st.
Proof.
  destruct ev as [guid name|guid| |guid|guid n|guid logs
    |guid res|res|guid res|guid name|req now]; simpl; try lia.
  - unfold Sqlite.delete_url.
    destruct (Sqlite.files st !! Sqlite.dbPath guid); simpl; [lia|done].
  - unfold Sqlite.get_logs. by destruct (Sqlite.files st !! Sqlite.dbPath guid).
  - unfold Sqlite.delete_log.
    destruct (Sqlite.files st !! Sqlite.dbPath guid); simpl; [lia|done].
  - unfold Sqlite.delete_logs.
    destruct (Sqlite.files st !! Sqlite.dbPath guid); simpl; [|done].
    destruct logs; [case_bool_decide|]; simpl; lia.
  - unfold Sqlite.logs_stream.
    destruct (register_client guid res (Sqlite.sseClients st)); simpl; [lia|done].
  - unfold Sqlite.tick. case_decide; simpl; lia.
  - unfold Sqlite.close.
    destruct (unregister_client guid res (Sqlite.sseClients st)); simpl; lia.
  - unfold Sqlite.rename_url.
    destruct (Sqlite.files st !! Sqlite.dbPath guid); simpl; [lia|done].
  - destruct (route_guid (originalUrl req)) as [guid|] eqn:Er.
    + destruct (Sqlite.files st !! Sqlite.dbPath guid) as [db|] eqn:E.
      * rewrite (capture_found _ _ _ _ _ Er E). simpl.
        destruct (property (Sqlite.sseClients st) guid); simpl; lia.
      * by rewrite (capture_missing _ _ _ _ Er E).
    + by destruct (capture_unrouted req now st Er) as [-> | ->].
Qed.

(** X12.  An event of the flat-file variant that is answered with a status
    of 400 or more leaves the whole state as it was. *)
Theorem json_error_answers_change_nothing (jst : JsonFile.State) (ev : JsonFile.Event) :
  (400 <= status_of (JsonFile.step jst ev).2)%nat -> (JsonFile.step jst ev).1 = jst.
Proof.
  destruct ev as [guid name|guid| |guid|guid n|guid logs
    |guid res|guid res|guid name|req now]; simpl; try lia.
  - unfold JsonFile.delete_url.
    destruct (JsonFile.files jst !! JsonFile.filePath guid); simpl; [lia|done].
  - unfold JsonFile.get_logs.
    by destruct (JsonFile.files jst !! JsonFile.filePath guid).
  - unfold JsonFile.delete_log.
    destruct (JsonFile.files jst !! JsonFile.filePath guid) as [[nm [stored|]]|];
      simpl; [lia|done..].
  - unfold JsonFile.delete_logs.
    destruct (JsonFile.files jst !! JsonFile.filePath guid) as [[nm [stored|]]|], logs;
      simpl; try lia; done.
  - unfold JsonFile.logs_stream.
    destruct (register_client guid res (JsonFile.sseClients jst)); simpl; [lia|done].
  - unfold JsonFile.close.
    destruct (unregister_client guid res (JsonFile.sseClients jst)); simpl; lia.
  - unfold JsonFile.rename_url.
    destruct (JsonFile.files jst !! JsonFile.filePath guid); simpl; [lia|done].
  - destruct (route_guid (originalUrl req)) as [guid|] eqn:Er.
    + destruct (JsonFile.files jst !! JsonFile.filePath guid) as [data|] eqn:E.
      * rewrite (json_capture_found _ _ _ _ _ Er E). simpl.
        destruct (property (JsonFile.sseClients jst) guid); simpl; lia.
      * by rewrite (json_capture_missing _ _ _ _ Er E).
    + by destruct (json_capture_unrouted req now jst Er) as [-> | ->].
Qed.

(** X13.  Bins come and go by creation and deletion only: every other event of
    the relational and of the flat-file variant, a capture or a deletion
    of entries or a rename among them, leaves the set of files as it
    was. *)
Theorem only_create_and_delete_change_the_bins (st : Sqlite.State)
  (ev : Sqlite.Event) (jst : JsonFile.State) (jev : JsonFile.Event) :
  (keeps_bins ev = true ->
   dom (Sqlite.files (Sqlite.step st ev).1) = dom (Sqlite.files st)) /\
  (json_keeps_bins jev = true ->
   dom (JsonFile.files (JsonFile.step jst jev).1) = dom (JsonFile.files jst)).
Proof.
  assert (forall (A : Type) (m : gmap string A) g x,
            is_Some (m !! g) -> dom (<[g := x]> m) = dom m) as Hins.
  { intros A m g x Hg. by apply dom_insert_lookup_L. }
  split.
  - intros Hev. destruct ev as [guid name|guid| |guid|guid n|guid logs
      |guid res|res|guid res|guid name|req now]; simpl in *; try done.
    + unfold Sqlite.get_logs. by destruct (Sqlite.files st !! Sqlite.dbPath guid).
    + unfold Sqlite.delete_log.
      destruct (Sqlite.files st !! Sqlite.dbPath guid) eqn:E; simpl; [|done].
      apply Hins. by rewrite E.
    + unfold Sqlite.delete_logs.
      destruct (Sqlite.files st !! Sqlite.dbPath guid) eqn:E; simpl; [|done].
      destruct logs; [case_bool_decide|]; simpl; try done; apply Hins; by rewrite E.
    + unfold Sqlite.logs_stream.
      by destruct (register_client guid res (Sqlite.sseClients st)).
    + unfold Sqlite.tick. by case_decide.
    + unfold Sqlite.close.
      by destruct (unregister_client guid res (Sqlite.sseClients st)).
    + unfold Sqlite.rename_url.
      destruct (Sqlite.files st !! Sqlite.dbPath guid) eqn:E; simpl; [|done].
      apply Hins. by rewrite E.
    + destruct (route_guid (originalUrl req)) as [guid|] eqn:Er.
      * destruct (Sqlite.files st !! Sqlite.dbPath guid) as [db|] eqn:E.
        -- rewrite (capture_found _ _ _ _ _ Er E). simpl. apply Hins. by rewrite E.
        -- by rewrite (capture_missing _ _ _ _ Er E).
      * by destruct (capture_unrouted req now st Er) as [-> | ->].
  - intros Hev. destruct jev as [guid name|guid| |guid|guid n|guid logs
      |guid res|guid res|guid name|req now]; simpl in *; try done.
    + unfold JsonFile.get_logs.
      by destruct (JsonFile.files jst !! JsonFile.filePath guid).
    + unfold JsonFile.delete_log.
      destruct (JsonFile.files jst !! JsonFile.filePath guid) as [[nm [stored|]]|] eqn:E;
        simpl; [|done..].
      apply Hins. by rewrite E.
    + unfold JsonFile.delete_logs.
      destruct (JsonFile.files jst !! JsonFile.filePath guid) as [[nm [stored|]]|] eqn:E,
        logs; simpl; try done; apply Hins; by rewrite E.
    + unfold JsonFile.logs_stream.
      by destruct (register_client guid res (JsonFile.sseClients jst)).
    + unfold JsonFile.close.
      by destruct (unregister_client guid res (JsonFile.sseClients jst)).
    + unfold JsonFile.rename_url.
      destruct (JsonFile.files jst !! JsonFile.filePath guid) eqn:E; simpl; [|done].
      apply Hins. by rewrite E.
    + destruct (route_guid (originalUrl req)) as [guid|] eqn:Er.
      * destruct (JsonFile.files jst !! JsonFile.filePath guid) as [data|] eqn:E.
        -- rewrite (json_capture_found _ _ _ _ _ Er E). simpl. apply Hins. by rewrite E.
        -- by rewrite (json_capture_missing _ _ _ _ Er E).
      * by destruct (json_capture_unrouted req now jst Er) as [-> | ->].
Qed.

End Frames.

(** ** The life of a live stream *)

Lemma written_write_all_replicate (c : string) (clients : list nat)
  (s : gmap nat (list string)) (res : nat) :
  exists k, written (write_all c clients s) res = written s res ++ replicate k c.
Proof.
  revert s. induction clients as [|x clients IH]; intros s.
  - exists 0%nat. simpl. by rewrite app_nil_r.
  - simpl. destruct (IH (write c s x)) as [k Hk]. rewrite Hk.
    destruct (decide (x = res)) as [->|Hne].
    + exists (S k). rewrite written_write_eq, <- app_assoc. done.
    + exists k. by rewrite written_write_ne.
Qed.

Lemma filter_out_last (l : list nat) (res : nat) :
  res ∉ l -> filter (fun client => client <> res) (l ++ [res]) = l.
Proof.
  intros Hnotin. rewrite filter_app, filter_all.
  - rewrite filter_cons. destruct (decide (res <> res)); [done|].
    by rewrite app_nil_r.
  - apply Forall_forall. by intros x Hx ->.
Qed.

Section Streams.
Context `{!Platform}.

(** X14.  A viewer that connects and disconnects leaves the relational server
    as it found it, but for an empty list under a bin id that had none:
    the response object is out of the list of the bin, its timer is
    cleared, and nothing more is written to it, neither a data block nor
    a keep-alive, by any later events that do not register it again. *)
Theorem viewer_gone_after_close (st : Sqlite.State) (guid : string) (res : nat)
  (evs : list Sqlite.Event) :
  gone res st ->
  (Sqlite.logs_stream guid res st).2 = StreamOpen ->
  forallb (fun ev => negb (opens res ev)) evs = true ->
  let st1 := (Sqlite.logs_stream guid res st).1 in
  let st2 := (Sqlite.close guid res st1).1 in
  (Sqlite.close guid res st1).2 = NoReply /\
  Sqlite.sseClients st2 !! guid = Some (default [] (Sqlite.sseClients st !! guid)) /\
  (forall g, g <> guid -> Sqlite.sseClients st2 !! g = Sqlite.sseClients st !! g) /\
  Sqlite.keepAlive st2 = Sqlite.keepAlive st /\
  Sqlite.files st2 = Sqlite.files st /\
  written (Sqlite.streams (Sqlite.run st2 evs).1) res = written (Sqlite.streams st) res.
Proof.
  intros [Hun Htimer] Hopen Hevs st1 st2.
  assert (res ∉ default [] (Sqlite.sseClients st !! guid)) as Hnotin.
  { destruct (Sqlite.sseClients st !! guid) as [l|] eqn:E; simpl.
    - by eapply Hun.
    - apply not_elem_of_nil. }
  assert (property (Sqlite.sseClients st) guid <> Inherited) as Hp.
  { intros Hp. unfold Sqlite.logs_stream in Hopen.
    by rewrite (register_throws _ _ _ Hp) in Hopen. }
  assert (Sqlite.close guid res st1 =
          ({| Sqlite.files := Sqlite.files st;
              Sqlite.sseClients :=
                <[guid := default [] (Sqlite.sseClients st !! guid)]> (Sqlite.sseClients st);
              Sqlite.streams := Sqlite.streams st;
              Sqlite.keepAlive := ({[res]} ∪ Sqlite.keepAlive st) ∖ {[res]} |},
           NoReply)) as Hclose.
  { unfold st1, Sqlite.close, Sqlite.logs_stream.
    rewrite (register_returns _ _ _ Hp). simpl. unfold unregister_client.
    erewrite property_own by apply lookup_insert_eq.
    rewrite insert_insert_eq. by rewrite filter_out_last. }
  assert (({[res]} ∪ Sqlite.keepAlive st) ∖ {[res]} = Sqlite.keepAlive st) as Hk.
  { apply set_eq. intros x.
    rewrite elem_of_difference, elem_of_union, elem_of_singleton.
    split; [by intros [[->|Hx] Hne]|]. intros Hx. split; [by right|].
    by intros ->. }
  unfold st2. rewrite Hclose. simpl. rewrite Hk.
  split; [done|]. split; [by rewrite lookup_insert_eq|].
  split; [by intros g Hg; rewrite lookup_insert_ne|].
  split; [done|]. split; [done|].
  rewrite run_silent; [done| |done]. split; [|done]. simpl.
  intros g l. destruct (decide (guid = g)) as [->|Hg].
  - rewrite lookup_insert_eq. by intros [= <-].
  - rewrite lookup_insert_ne by done. apply Hun.
Qed.

(** X15.  The [close] listener of a viewer whose bin has been deleted throws:
    the deletion took the list of the bin out of the registry and the
    listener reads it.  In the relational variant the timer of the
    viewer is cleared before that.  The exception is the one of reading
    [filter] of [undefined], for every bin id that is no key of
    [Object.prototype]. *)
Theorem close_after_delete_throws (guid : string) (res : nat)
  (st : Sqlite.State) (jst : JsonFile.State) :
  (is_Some (Sqlite.files st !! Sqlite.dbPath guid) ->
   let st1 := (Sqlite.delete_url guid st).1 in
   exists message,
     Sqlite.close guid res st1 =
       ({| Sqlite.files := Sqlite.files st1; Sqlite.sseClients := Sqlite.sseClients st1;
           Sqlite.streams := Sqlite.streams st1;
           Sqlite.keepAlive := Sqlite.keepAlive st ∖ {[res]} |},
        Uncaught message) /\
     (guid ∉ Object_prototype ->
      message = "TypeError: Cannot read properties of undefined (reading 'filter')")) /\
  (is_Some (JsonFile.files jst !! JsonFile.filePath guid) ->
   let jst1 := (JsonFile.delete_url guid jst).1 in
   exists message,
     JsonFile.close guid res jst1 = (jst1, Uncaught message) /\
     (guid ∉ Object_prototype ->
      message = "TypeError: Cannot read properties of undefined (reading 'filter')")).
Proof.
  split.
  - intros [db Hdb]. unfold Sqlite.delete_url. rewrite Hdb. simpl.
    unfold Sqlite.close, unregister_client, property. simpl.
    rewrite lookup_delete_eq. case_bool_decide; eexists; (split; [done|]); done.
  - intros [data Hdata]. unfold JsonFile.delete_url. rewrite Hdata. simpl.
    unfold JsonFile.close, unregister_client, property. simpl.
    rewrite lookup_delete_eq. case_bool_decide; eexists; (split; [done|]); done.
Qed.

(** X16.  A capture into a bin touches that bin only: the databases or
    documents of the other bins, the registry and the timers stay as they
    are, every response object in the list of the bin gets the same one
    data block, and a response object outside that list gets nothing. *)
Theorem capture_touches_one_bin (req : Request) (now guid : string)
  (st : Sqlite.State) (jst : JsonFile.State) :
  route_guid (originalUrl req) = Some guid ->
  (is_Some (Sqlite.files st !! Sqlite.dbPath guid) ->
   let st' := (Sqlite.capture req now st).1 in
   exists chunk,
     (forall g, g <> Sqlite.dbPath guid ->
                Sqlite.files st' !! g = Sqlite.files st !! g) /\
     Sqlite.sseClients st' = Sqlite.sseClients st /\
     Sqlite.keepAlive st' = Sqlite.keepAlive st /\
     (forall res, res ∉ default [] (Sqlite.sseClients st !! guid) ->
        written (Sqlite.streams st') res = written (Sqlite.streams st) res) /\
     (forall res, res ∈ default [] (Sqlite.sseClients st !! guid) ->
        NoDup (default [] (Sqlite.sseClients st !! guid)) ->
        written (Sqlite.streams st') res = written (Sqlite.streams st) res ++ [chunk])) /\
  (is_Some (JsonFile.files jst !! JsonFile.filePath guid) ->
   let jst' := (JsonFile.capture req now jst).1 in
   exists chunk,
     (forall g, g <> JsonFile.filePath guid ->
                JsonFile.files jst' !! g = JsonFile.files jst !! g) /\
     JsonFile.sseClients jst' = JsonFile.sseClients jst /\
     (forall res, res ∉ default [] (JsonFile.sseClients jst !! guid) ->
        written (JsonFile.streams jst') res = written (JsonFile.streams jst) res) /\
     (forall res, res ∈ default [] (JsonFile.sseClients jst !! guid) ->
        NoDup (default [] (JsonFile.sseClients jst !! guid)) ->
        written (JsonFile.streams jst') res = written (JsonFile.streams jst) res ++ [chunk])).
Proof.
  intros Hroute. split.
  - intros [db Hdb]. rewrite (capture_found _ _ _ _ _ Hroute Hdb). simpl.
    exists (sse_data (JSON_stringify
              (entry_json (with_logNumber (request_data req now) (Sqlite.next_rowid db))))).
    split; [by intros g Hg; rewrite lookup_insert_ne|]. split; [done|]. split; [done|].
    split.
    + intros res Hres. by apply told_outside.
    + intros res Hres Hnd.
      destruct (Sqlite.sseClients st !! guid) as [l|] eqn:E; simpl in *.
      * by apply (told_registered _ _ _ _ _ l).
      * by apply elem_of_nil in Hres.
  - intros [data Hdata]. rewrite (json_capture_found _ _ _ _ _ Hroute Hdata). simpl.
    eexists. split; [by intros g Hg; rewrite lookup_insert_ne|]. split; [done|].
    split.
    + intros res Hres. by apply told_outside.
    + intros res Hres Hnd.
      destruct (JsonFile.sseClients jst !! guid) as [l|] eqn:E; simpl in *.
      * by apply (told_registered _ _ _ _ _ l).
      * by apply elem_of_nil in Hres.
Qed.

(** X17.  What the relational server has written to a response object is
    never taken back or changed, and all it ever adds are keep-alive
    comments and data blocks. *)
Theorem streams_only_grow_by_frames (st : Sqlite.State) (evs : list Sqlite.Event)
  (res : nat) :
  exists added,
    written (Sqlite.streams (Sqlite.run st evs).1) res =
      written (Sqlite.streams st) res ++ added /\
    Forall framed added.
Proof.
  revert st. induction evs as [|ev evs IH]; intros st.
  { exists []. by rewrite app_nil_r. }
  rewrite run_cons. cbn [fst].
  destruct (IH (Sqlite.step st ev).1) as (added & -> & Hadded).
  assert (exists first,
            written (Sqlite.streams (Sqlite.step st ev).1) res =
              written (Sqlite.streams st) res ++ first /\ Forall framed first)
    as (first & -> & Hfirst).
  { clear. assert (forall s : gmap nat (list string),
                     exists first, written s res = written s res ++ first /\
                                   Forall framed first) as Hsame.
    { intros s. exists []. by rewrite app_nil_r. }
    destruct ev as [guid name|guid| |guid|guid n|guid logs
      |guid r|r|guid r|guid name|req now]; simpl; try apply Hsame.
    - unfold Sqlite.delete_url.
      destruct (Sqlite.files st !! Sqlite.dbPath guid); apply Hsame.
    - unfold Sqlite.get_logs.
      destruct (Sqlite.files st !! Sqlite.dbPath guid); apply Hsame.
    - unfold Sqlite.delete_log.
      destruct (Sqlite.files st !! Sqlite.dbPath guid); apply Hsame.
    - unfold Sqlite.delete_logs.
      destruct (Sqlite.files st !! Sqlite.dbPath guid); [|apply Hsame].
      destruct logs; [case_bool_decide|]; apply Hsame.
    - unfold Sqlite.logs_stream.
      destruct (register_client guid r (Sqlite.sseClients st)); apply Hsame.
    - unfold Sqlite.tick. case_decide; [|apply Hsame]. simpl.
      destruct (decide (r = res)) as [->|Hne].
      + rewrite written_write_eq. eexists. split; [done|].
        constructor; [by left|constructor].
      + rewrite written_write_ne by done. apply Hsame.
    - unfold Sqlite.close.
      destruct (unregister_client guid r (Sqlite.sseClients st)); apply Hsame.
    - unfold Sqlite.rename_url.
      destruct (Sqlite.files st !! Sqlite.dbPath guid); apply Hsame.
    - destruct (route_guid (originalUrl req)) as [guid|] eqn:Er.
      + destruct (Sqlite.files st !! Sqlite.dbPath guid) as [db|] eqn:E.
        * rewrite (capture_found _ _ _ _ _ Er E). simpl.
          unfold told, pushUpdateToClients.
          destruct (property (Sqlite.sseClients st) guid) as [l| |];
            [|apply Hsame..].
          destruct (written_write_all_replicate
                      (sse_data (JSON_stringify (entry_json
                         (with_logNumber (request_data req now) (Sqlite.next_rowid db)))))
                      l (Sqlite.streams st) res) as [k Hk].
          eexists. split; [exact Hk|]. apply Forall_replicate. right. by eexists.
        * rewrite (capture_missing _ _ _ _ Er E). apply Hsame.
      + destruct (capture_unrouted req now st Er) as [-> | ->]; apply Hsame. }
  exists (first ++ added). split; [by rewrite app_assoc|].
  by apply Forall_app.
Qed.

End Streams.

(** ** Deleting all entries of a bin that does not exist *)

Section MissingBin.
Context `{!Platform}.


End MissingBin.

(** ** The route of a capture *)

Section Route.
Context `{!Platform}.

(** X19.  The bin id of a capture does not depend on the query string: a path
    without question mark routes to the same bin with and without a
    query after it. *)
Theorem route_ignores_the_query (path query : string) :
  lacks "?" path = true ->
  route_guid (path +:+ "?" +:+ query) = route_guid path.
Proof.
  intros Hpath.
  assert (pathname (path +:+ "?" +:+ query) = pathname path) as Hp.
  { unfold pathname. change ("?" +:+ query) with (String "?" query).
    by rewrite break_at_stop, break_at_none. }
  unfold route_guid, route. by rewrite Hp.
Qed.

End Route.



(** ** The importer *)




Lemma max_rowid_snoc (rows : list Sqlite.Row) (x : Sqlite.Row) :
  Sqlite.max_rowid (rows ++ [x]) = Z.max (Sqlite.max_rowid rows) (Sqlite.r_logNumber x).
Proof.
  induction rows as [|r rows IH]; simpl.
  - pose proof (max_rowid_nonneg []). simpl in *. lia.
  - rewrite IH. lia.
Qed.

Section ImportRows.
Context `{!Platform}.
Context (bound : json -> string).

Lemma next_rowid_after_insert (d : RequestData) (db : Sqlite.Db) :
  Sqlite.next_rowid (Sqlite.insert_request d db).2 = Sqlite.next_rowid db + 1.
Proof.
  unfold Sqlite.next_rowid at 1. simpl. rewrite max_rowid_snoc. simpl.
  unfold Sqlite.next_rowid. lia.
Qed.

(** The rows the importer inserts: the entries of the document in their
    order, numbered from the next number of the database on. *)
Lemma insertRequests_rows (l : list LogEntry) (db : Sqlite.Db) :
  exists rows,
    Sqlite.requests (Importer.insertRequests l db) = Sqlite.requests db ++ rows /\
    Sqlite.metadata (Importer.insertRequests l db) = Sqlite.metadata db /\
    map Sqlite.r_logNumber rows = seqZ (Sqlite.next_rowid db) (Z.of_nat (length l)) /\
    map Sqlite.r_url rows = map e_url l /\
    map Sqlite.r_timestamp rows = map e_timestamp l /\
    map Sqlite.r_method rows = map e_method l.
Proof.
  revert db. induction l as [|e l IH]; intros db.
  - exists []. simpl. by rewrite app_nil_r.
  - change (Importer.insertRequests (e :: l) db)
      with (Importer.insertRequests l (Sqlite.insert_request (Importer.entry_data e) db).2).
    destruct (IH (Sqlite.insert_request (Importer.entry_data e) db).2)
      as (rows & Hrows & Hmeta & Hnum & Hurl & Htime & Hmethod).
    rewrite next_rowid_after_insert in Hnum.
    exists ({| Sqlite.r_logNumber := Sqlite.next_rowid db;
               Sqlite.r_timestamp := e_timestamp e; Sqlite.r_method := e_method e;
               Sqlite.r_url := e_url e;
               Sqlite.r_headers := JSON_stringify (e_headers e);
               Sqlite.r_body := JSON_stringify (e_body e) |} :: rows).
    split; [rewrite Hrows; simpl; by rewrite <- app_assoc|].
    split; [by rewrite Hmeta|]. simpl.
    rewrite Hnum, Hurl, Htime, Hmethod.
    repeat split; try done.
    rewrite (seqZ_cons _ (Z.of_nat (S (length l)))) by lia.
    do 2 f_equal; lia.
Qed.

(** X22.  The importer appends the entries of a document to the database whose
    id it takes from the first entry, making the database when there is
    none.  The rows keep the order, URL, time and method of the entries
    but not their log numbers: they are numbered anew, from 1 in a new
    database.  What the document has under [name] is bound to one more
    row of [metadata]: a string as it is, [null] and a missing name as
    NULL, any other value, such as [false], as the text SQLite makes of
    it.  No other database changes.  A document without a first entry
    leaves the data directory as it is. *)
Theorem import_numbers_the_entries_anew (jsonData : JsonFile.Doc)
  (first : LogEntry) (others : list LogEntry) (fs : gmap string Sqlite.Db) :
  let guid := Importer.import_guid (e_url first) in
  let old := default Sqlite.empty_db (fs !! Sqlite.dbPath guid) in
  let fs' := Importer.importJsonToDb bound jsonData fs in
  (JsonFile.requests jsonData = Some (first :: others) ->
   exists db' rows,
     fs' !! Sqlite.dbPath guid = Some db' /\
     Sqlite.metadata db' =
       Sqlite.metadata old ++
       [match JsonFile.name jsonData with
        | None | Some JNull => None
        | Some (JStr s) => Some s
        | Some v => Some (bound v)
        end] /\
     Sqlite.requests db' = Sqlite.requests old ++ rows /\
     map Sqlite.r_logNumber rows =
       seqZ (Sqlite.next_rowid old) (Z.of_nat (length (first :: others))) /\
     (fs !! Sqlite.dbPath guid = None ->
      map Sqlite.r_logNumber (Sqlite.requests db') =
        seqZ 1 (Z.of_nat (length (first :: others)))) /\
     map Sqlite.r_url rows = map e_url (first :: others) /\
     map Sqlite.r_timestamp rows = map e_timestamp (first :: others) /\
     map Sqlite.r_method rows = map e_method (first :: others) /\
     (forall g, g <> Sqlite.dbPath guid -> fs' !! g = fs !! g)) /\
  (JsonFile.requests jsonData = None \/ JsonFile.requests jsonData = Some [] ->
   fs' = fs).
Proof.
  intros guid old fs'. split.
  - intros Hreq. unfold fs', Importer.importJsonToDb. rewrite Hreq.
    fold guid.
    assert (Sqlite.initDb guid fs !! Sqlite.dbPath guid = Some old) as Hold.
    { unfold Sqlite.initDb, old.
      destruct (fs !! Sqlite.dbPath guid) as [db|] eqn:E; simpl.
      - done.
      - by rewrite lookup_insert_eq. }
    destruct (insertRequests_rows (first :: others)
                (Importer.insertMetadata bound (JsonFile.name jsonData) old))
      as (rows & Hrows & Hmeta & Hnum & Hurl & Htime & Hmethod).
    change (Sqlite.next_rowid (Importer.insertMetadata bound (JsonFile.name jsonData) old))
      with (Sqlite.next_rowid old) in Hnum.
    change (Sqlite.requests (Importer.insertMetadata bound (JsonFile.name jsonData) old))
      with (Sqlite.requests old) in Hrows.
    exists (Importer.insertRequests (first :: others)
              (Importer.insertMetadata bound (JsonFile.name jsonData) old)), rows.
    split.
    { rewrite lookup_alter. case_decide; [|done]. by rewrite Hold. }
    split; [by rewrite Hmeta|]. split; [exact Hrows|]. split; [exact Hnum|]. split.
    + intros Hfresh. rewrite Hrows, map_app, Hnum. unfold old. by rewrite Hfresh.
    + split; [done|]. split; [done|]. split; [done|].
      intros g Hg. rewrite lookup_alter_ne by done. unfold Sqlite.initDb.
      destruct (fs !! Sqlite.dbPath guid); [done|]. by rewrite lookup_insert_ne.
  - intros [Hreq|Hreq]; unfold fs', Importer.importJsonToDb; by rewrite Hreq.
Qed.

End ImportRows.

(** ** [parseInt] and the path parameter of a deletion *)

Lemma digit_is_digit (c : ascii) :
  is_decimal_digit c = true ->
  is_space c = false /\ exists d, digit_value c = Some d /\ 0 <= d < 10.
Proof.
  destruct c as [[] [] [] [] [] [] [] []]; intros Hc;
    try (vm_compute in Hc; discriminate Hc);
    (split; [reflexivity|]; eexists; split; [vm_compute; reflexivity|lia]).
Qed.

Lemma parse_digits_digit (c : ascii) (d : Z) (r : string) (acc : option Z) :
  digit_value c = Some d -> d < 10 ->
  parse_digits 10 (String c r) acc = parse_digits 10 r (Some (default 0 acc * 10 + d)).
Proof.
  intros Hd Hrange. simpl. rewrite Hd. destruct (d <? 10) eqn:E; [done|]. lia.
Qed.

Lemma parse_digits_stop (c : ascii) (r : string) (acc : option Z) :
  is_decimal_digit c = false -> parse_digits 10 (String c r) acc = acc.
Proof.
  destruct c as [[] [] [] [] [] [] [] []]; intros Hc;
    try (vm_compute in Hc; discriminate Hc); reflexivity.
Qed.

Lemma parse_digits_ignores_rest (ds rest : string) (acc : option Z) :
  all_chars is_decimal_digit ds = true -> ends_number rest = true ->
  parse_digits 10 (ds +:+ rest) acc = parse_digits 10 ds acc.
Proof.
  intros Hds Hrest. revert acc. induction ds as [|c ds IH]; intros acc.
  - destruct rest as [|c r]; [done|]. simpl in Hrest.
    apply andb_true_iff in Hrest as [[Hc%negb_true_iff _]%andb_true_iff _].
    by apply parse_digits_stop.
  - simpl in Hds. apply andb_true_iff in Hds as [Hc Hds]. rewrite append_cons.
    destruct (digit_is_digit c Hc) as (_ & d & Hd & Hrange).
    rewrite !(parse_digits_digit c d) by (done || lia). by apply IH.
Qed.

Lemma parse_digits_some (ds : string) (a : Z) :
  all_chars is_decimal_digit ds = true -> 0 <= a ->
  exists n, parse_digits 10 ds (Some a) = Some n /\ 0 <= n.
Proof.
  revert a. induction ds as [|c ds IH]; intros a Hds Ha; [by exists a|].
  simpl in Hds. apply andb_true_iff in Hds as [Hc Hds].
  destruct (digit_is_digit c Hc) as (_ & d & Hd & Hrange).
  rewrite (parse_digits_digit c d) by (done || lia). apply IH; [done|]. simpl. lia.
Qed.

(** On a text that starts with a decimal digit and not with the prefix
    [0x], [parseInt] is the reading of its decimal digits. *)
Lemma parseInt_decimal (c : ascii) (r : string) :
  is_decimal_digit c = true ->
  ends_number r = true \/ (exists c2 r2, r = String c2 r2 /\ is_decimal_digit c2 = true) ->
  parseInt (String c r) = parse_digits 10 (String c r) None.
Proof.
  intros Hc Hr.
  assert (forall s, match parse_digits 10 s None with
                    | Some n => Some n
                    | None => None
                    end = parse_digits 10 s None) as Hid
    by (intros s; by destruct (parse_digits 10 s None)).
  rewrite <- (Hid (String c r)).
  destruct c as [[] [] [] [] [] [] [] []];
    try (vm_compute in Hc; discriminate Hc); try reflexivity.
  (* the digit 0: the next character decides on the prefix *)
  destruct r as [|c2 r2]; [reflexivity|].
  assert (Ascii.eqb c2 "x" = false /\ Ascii.eqb c2 "X" = false) as [Hx HX].
  { destruct Hr as [Hr|(c3 & r3 & [= -> ->] & Hdigit)].
    - simpl in Hr. apply andb_true_iff in Hr as [[_ Hx]%andb_true_iff HX].
      by apply negb_true_iff in Hx, HX.
    - by destruct c3 as [[] [] [] [] [] [] [] []];
        try (vm_compute in Hdigit; discriminate Hdigit). }
  destruct c2 as [[] [] [] [] [] [] [] []];
    try (vm_compute in Hx; discriminate Hx);
    try (vm_compute in HX; discriminate HX); reflexivity.
Qed.

Section LeadingDigits.
Context `{!Platform}.

(** X23.  [parseInt] reads the decimal digits a text starts with and ignores
    what follows them, so that a deletion addressed to [2abc] is the
    deletion addressed to [2] in the two variants that parse the
    parameter. *)
Theorem parseInt_reads_the_leading_digits (ds rest guid : string)
  (jst : JsonFile.State) (lst : Legacy.State) :
  all_chars is_decimal_digit ds = true -> ds <> EmptyString ->
  ends_number rest = true ->
  parseInt (ds +:+ rest) = parseInt ds /\
  (exists n, parseInt ds = Some n /\ 0 <= n) /\
  JsonFile.delete_log guid (ds +:+ rest) jst = JsonFile.delete_log guid ds jst /\
  Legacy.delete_log guid (ds +:+ rest) lst = Legacy.delete_log guid ds lst.
Proof.
  intros Hds Hne Hrest. destruct ds as [|c ds]; [done|]. clear Hne.
  pose proof Hds as Hall. simpl in Hds. apply andb_true_iff in Hds as [Hc Hds].
  assert (parseInt (String c ds +:+ rest) = parseInt (String c ds)) as Heq.
  { rewrite append_cons. rewrite !parseInt_decimal; try done.
    - rewrite <- append_cons. by apply parse_digits_ignores_rest.
    - destruct ds as [|c2 ds]; [by left|]. right. simpl in Hds.
      apply andb_true_iff in Hds as [Hc2 _]. by eexists _, _.
    - destruct ds as [|c2 ds]; [by left|]. right. simpl in Hds.
      apply andb_true_iff in Hds as [Hc2 _]. rewrite append_cons. by eexists _, _. }
  split; [done|]. split.
  - rewrite parseInt_decimal; [|done|].
    + destruct (digit_is_digit c Hc) as (_ & d & Hd & Hrange).
      rewrite (parse_digits_digit c d) by (done || lia).
      apply parse_digits_some; [done|]. simpl. lia.
    + destruct ds as [|c2 ds]; [by left|]. right. simpl in Hds.
      apply andb_true_iff in Hds as [Hc2 _]. by eexists _, _.
  - unfold JsonFile.delete_log, Legacy.delete_log. by rewrite Heq.
Qed.

End LeadingDigits.

(** ** The first and the last time of a listing row *)

Lemma text_le_refl (a : string) : text_le a a.
Proof.
  unfold text_le, String.leb. assert ((a ?= a)%string = Eq) as ->; [|done].
  induction a as [|c a IH]; simpl; [done|].
  unfold Ascii.compare. by rewrite N.compare_refl.
Qed.

Lemma text_le_trans (a b c : string) : text_le a b -> text_le b c -> text_le a c.
Proof.
  unfold text_le. intros Hab Hbc.
  pose proof (@transitivity _ String.le _ a b c) as Htrans.
  unfold String.le in Htrans. apply Is_true_true, Htrans; by apply Is_true_true.
Qed.

Lemma text_min_le (a b : string) :
  text_le (Sqlite.text_min a b) a /\ text_le (Sqlite.text_min a b) b /\
  (Sqlite.text_min a b = a \/ Sqlite.text_min a b = b).
Proof.
  unfold Sqlite.text_min, text_le.
  destruct (a ?= b)%string eqn:E.
  - split; [apply text_le_refl|]. split; [|by left]. unfold String.leb. by rewrite E.
  - split; [apply text_le_refl|]. split; [|by left]. unfold String.leb. by rewrite E.
  - split; [|split; [apply text_le_refl|by right]].
    unfold String.leb. rewrite String.compare_antisym, E. done.
Qed.

Lemma text_max_ge (a b : string) :
  text_le a (Sqlite.text_max a b) /\ text_le b (Sqlite.text_max a b) /\
  (Sqlite.text_max a b = a \/ Sqlite.text_max a b = b).
Proof.
  unfold Sqlite.text_max, text_le.
  destruct (a ?= b)%string eqn:E.
  - split; [apply text_le_refl|]. split; [|by left].
    unfold String.leb. rewrite String.compare_antisym, E. done.
  - split; [|split; [apply text_le_refl|by right]]. unfold String.leb. by rewrite E.
  - split; [apply text_le_refl|]. split; [|by left].
    unfold String.leb. rewrite String.compare_antisym, E. done.
Qed.

Lemma foldl_min_least (rows : list Sqlite.Row) (m : string) :
  let t := foldl (fun m x => Sqlite.text_min m (Sqlite.r_timestamp x)) m rows in
  text_le t m /\
  (forall r, r ∈ rows -> text_le t (Sqlite.r_timestamp r)) /\
  (t = m \/ t ∈ map Sqlite.r_timestamp rows).
Proof.
  revert m. induction rows as [|x rows IH]; intros m; simpl.
  - split; [apply text_le_refl|]. split; [|by left].
    intros r Hr. by apply elem_of_nil in Hr.
  - destruct (IH (Sqlite.text_min m (Sqlite.r_timestamp x))) as (Hm & Hall & Hin).
    destruct (text_min_le m (Sqlite.r_timestamp x)) as (Hle1 & Hle2 & Hcase).
    split; [by eapply text_le_trans|]. split.
    + intros r [->|Hr]%elem_of_cons; [by eapply text_le_trans|by apply Hall].
    + destruct Hin as [->|Hin].
      * destruct Hcase as [->| ->]; [by left|right; left].
      * right. by right.
Qed.

Lemma foldl_max_greatest (rows : list Sqlite.Row) (m : string) :
  let t := foldl (fun m x => Sqlite.text_max m (Sqlite.r_timestamp x)) m rows in
  text_le m t /\
  (forall r, r ∈ rows -> text_le (Sqlite.r_timestamp r) t) /\
  (t = m \/ t ∈ map Sqlite.r_timestamp rows).
Proof.
  revert m. induction rows as [|x rows IH]; intros m; simpl.
  - split; [apply text_le_refl|]. split; [|by left].
    intros r Hr. by apply elem_of_nil in Hr.
  - destruct (IH (Sqlite.text_max m (Sqlite.r_timestamp x))) as (Hm & Hall & Hin).
    destruct (text_max_ge m (Sqlite.r_timestamp x)) as (Hle1 & Hle2 & Hcase).
    split; [by eapply text_le_trans|]. split.
    + intros r [->|Hr]%elem_of_cons; [by eapply text_le_trans|by apply Hall].
    + destruct Hin as [->|Hin].
      * destruct Hcase as [->| ->]; [by left|right; left].
      * right. by right.
Qed.

(** X24.  In the listing of the relational variant the first time of a bin is
    the least and the last time the greatest of the times of its entries
    in the order of texts, whatever the order the entries are stored in;
    each is the time of an entry of the bin. *)
Theorem sqlite_first_and_last_time (rows : list Sqlite.Row) (first last : string) :
  Sqlite.aggregate Sqlite.text_min rows = Some first ->
  Sqlite.aggregate Sqlite.text_max rows = Some last ->
  first ∈ map Sqlite.r_timestamp rows /\
  last ∈ map Sqlite.r_timestamp rows /\
  forall r, r ∈ rows ->
    text_le first (Sqlite.r_timestamp r) /\ text_le (Sqlite.r_timestamp r) last.
Proof.
  destruct rows as [|x rows]; [done|]. simpl. intros [= <-] [= <-].
  destruct (foldl_min_least rows (Sqlite.r_timestamp x)) as (Hm & Hall & Hin).
  destruct (foldl_max_greatest rows (Sqlite.r_timestamp x)) as (Hm' & Hall' & Hin').
  split; [|split].
  - destruct Hin as [->|Hin]; [left|by right].
  - destruct Hin' as [->|Hin']; [left|by right].
  - intros r [->|Hr]%elem_of_cons; [done|]. split; [by apply Hall|by apply Hall'].
Qed.
(** ** What a viewer is told *)

Section Viewers.
Context `{!Platform}.

(** X25.  A response object [res] that joins the viewers of an existing
    bin, none of which it is yet, and then a sequence of captures routed
    by the bin id the viewer gave, with firings of keep-alive timers
    between them: every capture is answered 200 and stored under a
    number, and the data events of [res] grow by exactly one event per
    capture, in the order of the captures; each is the text of an object
    that has the URL, method, headers, body and time of the captured
    request and the number it was stored under.  What a timer writes is
    a comment and no data event. *)
Theorem one_data_event_per_capture (st : Sqlite.State) (guid : string)
  (db : Sqlite.Db) (res : nat) (evs : list Sqlite.Event) :
  Sqlite.files st !! Sqlite.dbPath guid = Some db ->
  NoDup (default [] (Sqlite.sseClients st !! guid)) ->
  res ∉ default [] (Sqlite.sseClients st !! guid) ->
  (Sqlite.logs_stream guid res st).2 = StreamOpen ->
  forallb (feeds guid) evs = true ->
  let st0 := (Sqlite.logs_stream guid res st).1 in
  let st' := (Sqlite.run st0 evs).1 in
  exists db' numbers objects,
    Sqlite.files st' !! Sqlite.dbPath guid = Some db' /\
    map Sqlite.r_logNumber (Sqlite.requests db') =
      map Sqlite.r_logNumber (Sqlite.requests db) ++ numbers /\
    length numbers = length (captured evs) /\
    data_events (written (Sqlite.streams st') res) =
      data_events (written (Sqlite.streams st) res) ++ map JSON_stringify objects /\
    Forall2 (fun v dn => announces v dn.1 dn.2) objects (zip (captured evs) numbers) /\
    Forall (fun r => r = SendStatus 200 \/ r = NoReply) (Sqlite.run st0 evs).2 /\
    data_event keep_alive = None.
Proof.
  intros Hdb Hnd Hfresh Hopen Hevs st0 st'.
  assert (property (Sqlite.sseClients st) guid <> Inherited) as Hp.
  { intros Hp. unfold Sqlite.logs_stream in Hopen.
    by rewrite (register_throws _ _ _ Hp) in Hopen. }
  assert (st0 =
          {| Sqlite.files := Sqlite.files st;
             Sqlite.sseClients :=
               <[guid := default [] (Sqlite.sseClients st !! guid) ++ [res]]>
                 (Sqlite.sseClients st);
             Sqlite.streams := Sqlite.streams st;
             Sqlite.keepAlive := {[res]} ∪ Sqlite.keepAlive st |}) as Hst0.
  { unfold st0, Sqlite.logs_stream. by rewrite (register_returns _ _ _ Hp). }
  destruct (feed_run st0 guid db
              (default [] (Sqlite.sseClients st !! guid) ++ [res]) res evs)
    as (db' & numbers & Hdb' & Hnum & Hlen & Hdata & Hreplies); try done.
  - by rewrite Hst0.
  - rewrite Hst0. simpl. by rewrite lookup_insert_eq.
  - apply NoDup_app. split; [done|]. split; [|apply NoDup_singleton].
    intros x Hx ->%list_elem_of_singleton. contradiction.
  - apply elem_of_app. right. by apply list_elem_of_singleton.
  - destruct (payloads_announce (captured evs) numbers Hlen) as (objects & Hmap & Hall).
    exists db', numbers, objects.
    split; [done|]. split; [done|]. split; [done|]. split.
    + unfold st'. rewrite Hdata, Hmap. by rewrite Hst0.
    + split; [done|]. split; [done|]. apply data_event_keep_alive.
Qed.

(** X28.  A capture that reaches the file of a bin by another id than the
    bin's, one that [path.join] takes to the same file, is stored in the
    bin as its next entry and answered 200 like any other, and writes to
    no response object but those of the other id: the viewers of the bin
    are told nothing.  For a bin in the data directory, the id with [./]
    before it is such an id. *)
Theorem capture_by_another_id_of_the_bin (req : Request) (now guid alias : string)
  (st : Sqlite.State) (db : Sqlite.Db) (res : nat) :
  (route_guid (originalUrl req) = Some alias ->
   Sqlite.dbPath alias = Sqlite.dbPath guid ->
   Sqlite.files st !! Sqlite.dbPath guid = Some db ->
   res ∉ default [] (Sqlite.sseClients st !! alias) ->
   let st' := (Sqlite.capture req now st).1 in
   Sqlite.files st' !! Sqlite.dbPath guid =
     Some (Sqlite.insert_request (request_data req now) db).2 /\
   written (Sqlite.streams st') res = written (Sqlite.streams st) res /\
   (alias ∉ Object_prototype -> (Sqlite.capture req now st).2 = SendStatus 200)) /\
  (lacks "/" guid = true ->
   Sqlite.dbPath ("./" +:+ guid) = Sqlite.dbPath guid /\ "./" +:+ guid <> guid).
Proof.
  split.
  - apply alias_capture.
  - intros Hguid. split.
    + unfold Sqlite.dbPath. rewrite (data_file_plain guid Hguid).
      unfold data_file. change ("./" +:+ guid) with (String "." (String "/" guid)).
      cbn [split Ascii.eqb Bool.eqb]. rewrite (split_lacks _ _ Hguid). simpl.
      by rewrite bool_decide_eq_true_2.
    + change ("./" +:+ guid) with (String "." (String "/" guid)).
      intros Heq. rewrite <- Heq in Hguid. by simpl in Hguid.
Qed.

(** X29.  A bin id that is a key of [Object.prototype], such as
    [constructor], under which the registry has no list of its own: a
    capture into the bin stores the entry and then throws where the
    viewers are told, in the callback of the insertion, so that nothing
    is answered and nothing written to a stream; a viewer that asks for
    the stream of the bin is answered by the router, with status 500,
    and is not registered. *)
Theorem inherited_key_as_bin_id (req : Request) (now guid : string)
  (st : Sqlite.State) (db : Sqlite.Db) (res : nat) :
  guid ∈ Object_prototype -> Sqlite.sseClients st !! guid = None ->
  (route_guid (originalUrl req) = Some guid ->
   Sqlite.files st !! Sqlite.dbPath guid = Some db ->
   Sqlite.capture req now st =
     (Sqlite.set_files
        (<[Sqlite.dbPath guid := (Sqlite.insert_request (request_data req now) db).2]>
           (Sqlite.files st)) st,
      Uncaught "TypeError: sseClients[guid].forEach is not a function")) /\
  Sqlite.logs_stream guid res st =
    (st, Failed "TypeError: sseClients[guid].push is not a function") /\
  status_of (Sqlite.logs_stream guid res st).2 = 500%nat.
Proof.
  intros Hguid Hnone.
  assert (property (Sqlite.sseClients st) guid = Inherited) as Hp.
  { by apply property_inherited. }
  assert (Sqlite.logs_stream guid res st =
            (st, Failed "TypeError: sseClients[guid].push is not a function")) as Hs.
  { unfold Sqlite.logs_stream. by rewrite (register_throws _ _ _ Hp). }
  split; [|split; [done|by rewrite Hs]].
  intros Hroute Hdb. rewrite (capture_found _ _ _ _ _ Hroute Hdb), Hp.
  f_equal. unfold told, pushUpdateToClients. rewrite Hp. by destruct st.
Qed.

End Viewers.

(** ** Deleting one entry *)

Section DeleteOne.
Context `{!Platform}.

(** X26.  A delete addressed to the number [k] of an entry of the bin is
    answered 200 and keeps, unchanged and in their order, exactly the
    entries of the bin whose number is not [k]: every entry numbered [k]
    goes; nothing else of the bin and no other bin changes.  Where the
    numbers of the bin are distinct the log gets shorter by one entry. *)
Theorem delete_log_keeps_the_others (guid param : string) (k : Z)
  (st : Sqlite.State) (db : Sqlite.Db) (row : Sqlite.Row)
  (jst : JsonFile.State) (data : JsonFile.Doc) (stored : list LogEntry)
  (e : LogEntry) :
  (Sqlite.files st !! Sqlite.dbPath guid = Some db ->
   row ∈ Sqlite.requests db -> Sqlite.r_logNumber row = k ->
   sqlite_integer_of_text param = Some k ->
   exists st' db',
     Sqlite.delete_log guid param st = (st', SendStatus 200) /\
     Sqlite.files st' !! Sqlite.dbPath guid = Some db' /\
     (forall g, g <> Sqlite.dbPath guid ->
                Sqlite.files st' !! g = Sqlite.files st !! g) /\
     Sqlite.metadata db' = Sqlite.metadata db /\
     Sqlite.requests db' =
       filter (fun r => Sqlite.r_logNumber r <> k) (Sqlite.requests db) /\
     (row ∉ Sqlite.requests db') /\
     (forall r, r ∈ Sqlite.requests db -> Sqlite.r_logNumber r <> k ->
                r ∈ Sqlite.requests db') /\
     (Sqlite.requests db' `sublist_of` Sqlite.requests db) /\
     (NoDup (map Sqlite.r_logNumber (Sqlite.requests db)) ->
      length (Sqlite.requests db) = S (length (Sqlite.requests db')))) /\
  (JsonFile.files jst !! JsonFile.filePath guid = Some data ->
   JsonFile.requests data = Some stored ->
   e ∈ stored -> logNumber e = k ->
   parseInt param = Some k ->
   exists jst' kept,
     JsonFile.delete_log guid param jst = (jst', SendStatus 200) /\
     JsonFile.files jst' !! JsonFile.filePath guid =
       Some {| JsonFile.name := JsonFile.name data;
               JsonFile.requests := Some kept |} /\
     (forall g, g <> JsonFile.filePath guid ->
                JsonFile.files jst' !! g = JsonFile.files jst !! g) /\
     kept = filter (fun x => logNumber x <> k) stored /\
     (e ∉ kept) /\
     (forall x, x ∈ stored -> logNumber x <> k -> x ∈ kept) /\
     (kept `sublist_of` stored) /\
     (NoDup (map logNumber stored) -> length stored = S (length kept))).
Proof.
  split.
  - intros Hdb Hrow Hk Hparam.
    unfold Sqlite.delete_log. rewrite Hdb, Hparam.
    assert (filter (fun r => Some k <> Some (Sqlite.r_logNumber r)) (Sqlite.requests db)
            = filter (fun r => Sqlite.r_logNumber r <> k) (Sqlite.requests db)) as ->.
    { apply list_filter_iff. intros r. split; intros Hne Heq; apply Hne; congruence. }
    do 2 eexists. split; [done|]. simpl. rewrite lookup_insert_eq.
    split; [done|]. split; [by intros g Hg; rewrite lookup_insert_ne|].
    simpl. repeat split.
    + intros [Hne _]%list_elem_of_filter. done.
    + intros r Hr Hne. by apply list_elem_of_filter.
    + apply sublist_filter.
    + intros Hnd. subst k. by apply filter_key_length.
  - intros Hdata Hstored He Hek Hparse.
    unfold JsonFile.delete_log. rewrite Hdata. destruct data as [n reqs].
    simpl in Hstored. subst reqs. rewrite Hparse.
    assert (filter (fun x => Some k <> Some (logNumber x)) stored
            = filter (fun x => logNumber x <> k) stored) as ->.
    { apply list_filter_iff. intros r. split; intros Hne Heq; apply Hne; congruence. }
    do 2 eexists. split; [done|]. simpl. rewrite lookup_insert_eq.
    split; [done|]. split; [by intros g Hg; rewrite lookup_insert_ne|].
    repeat split.
    + intros [Hne _]%list_elem_of_filter. done.
    + intros r Hr Hne. by apply list_elem_of_filter.
    + apply sublist_filter.
    + intros Hnd. rewrite <- Hek. by apply filter_key_length.
Qed.

(** X27.  In the relational variant a delete addressed to the number of
    an entry removes exactly that entry, in every state the server
    reaches: the rows before it and the rows after it stay, unchanged
    and in their order, and no other row has gone. *)
Theorem sqlite_delete_log_removes_one (evs : list Sqlite.Event) (guid param : string)
  (db : Sqlite.Db) (row : Sqlite.Row) :
  let st := (Sqlite.run Sqlite.initial evs).1 in
  Sqlite.files st !! Sqlite.dbPath guid = Some db ->
  row ∈ Sqlite.requests db ->
  sqlite_integer_of_text param = Some (Sqlite.r_logNumber row) ->
  exists before after,
    Sqlite.requests db = before ++ row :: after /\
    Sqlite.delete_log guid param st =
      (Sqlite.set_files
         (<[Sqlite.dbPath guid := Sqlite.set_requests (before ++ after) db]>
            (Sqlite.files st)) st,
       SendStatus 200).
Proof.
  intros st Hdb Hrow Hparam.
  pose proof (reachable_well_numbered evs _ db Hdb) as Hinc.
  apply increasing_NoDup in Hinc.
  destruct (filter_key_split Sqlite.r_logNumber (Sqlite.requests db) row Hinc Hrow)
    as (before & after & Hsplit & Hfilter).
  exists before, after. split; [done|].
  unfold Sqlite.delete_log. rewrite Hdb, Hparam.
  assert (filter (fun r => Some (Sqlite.r_logNumber row) <> Some (Sqlite.r_logNumber r))
                 (Sqlite.requests db)
          = filter (fun r => Sqlite.r_logNumber r <> Sqlite.r_logNumber row)
                   (Sqlite.requests db)) as ->.
  { apply list_filter_iff. intros r. split; intros Hne Heq; apply Hne; congruence. }
  by rewrite Hfilter.
Qed.

End DeleteOne.


(** * Concrete runs

    The handlers evaluated on the [plain] platform. *)

#[local] Existing Instance plain.

(** The bin id [b] is no key of [Object.prototype]. *)
Lemma b_is_no_inherited_key : "b" ∉ Object_prototype.
Proof.
  unfold Object_prototype. intros Hin.
  repeat (apply elem_of_cons in Hin as [Hin|Hin]; [discriminate Hin|]).
  by apply elem_of_nil in Hin.
Qed.

(** C1 as stated fails.  In the flat-file variant a capture after the
    deletion of entry 1 of two gets number 2 again, although 2 is the
    maximum of the bin, and the bin then holds two entries numbered 2.
    In the relational variant a capture after the deletion of entry 2 of
    two gets number 3, although the maximum of the bin is 1. *)
Lemma C1_counterexample :
  let jst' := (JsonFile.logRequest "b" (request_data hello "t3") json_after_delete).1 in
  let st' := (Sqlite.logRequest "b" (request_data hello "t3") sqlite_after_delete).1 in
  (map logNumber <$> (JsonFile.files json_after_delete !! JsonFile.filePath "b"
                        ≫= JsonFile.requests)
     = Some [2] /\
   map logNumber <$> (JsonFile.files jst' !! JsonFile.filePath "b" ≫= JsonFile.requests)
     = Some [2; 2] /\
   ~ NoDup [2; 2]) /\
  (map Sqlite.r_logNumber <$>
     (Sqlite.requests <$> Sqlite.files sqlite_after_delete !! Sqlite.dbPath "b")
     = Some [1] /\
   map Sqlite.r_logNumber <$> (Sqlite.requests <$> Sqlite.files st' !! Sqlite.dbPath "b")
     = Some [1; 3]).
Proof.
  repeat split; try (vm_compute; reflexivity).
  intros Hnd. apply NoDup_cons in Hnd as [Hnotin _]. apply Hnotin. by left.
Qed.

(** A capture into a bin of each variant that holds one entry; in the run
    of the flat-file server an entry of another bin has been deleted and
    a deletion addressed to the bin itself has matched no entry. *)
Lemma C1_witness :
  (exists row,
     Sqlite.requests <$>
       Sqlite.files (Sqlite.logRequest "b" (request_data hello "t2")
                       (Sqlite.run Sqlite.initial
                          [Sqlite.CreateUrl "b" None; Sqlite.Capture hello "t1"]).1).1
         !! Sqlite.dbPath "b" =
       Some [row_of (request_data hello "t1") 1; row] /\
     Sqlite.r_logNumber row = 2) /\
  JsonFile.files (JsonFile.logRequest "b" (request_data hello "t2")
                    (JsonFile.run JsonFile.initial json_kept_events).1).1
    !! JsonFile.filePath "b" ≫= JsonFile.requests =
    Some [with_logNumber (request_data hello "t1") 1;
          with_logNumber (request_data hello "t2") 2].
Proof.
  destruct (C1_log_numbers_assigned_by_store
              [Sqlite.CreateUrl "b" None; Sqlite.Capture hello "t1"] "b"
              {| Sqlite.metadata := [Some "Untitled"];
                 Sqlite.requests := [row_of (request_data hello "t1") 1];
                 Sqlite.sqlite_sequence := 1 |}
              (request_data hello "t2")
              json_kept_events "b"
              {| JsonFile.name := Some (JBool false);
                 JsonFile.requests := Some [with_logNumber (request_data hello "t1") 1] |}
              (request_data hello "t2"))
    as [Hs Hj].
  destruct Hs as [_ (row & Hrows & _ & Hrow & _)]; [vm_compute; reflexivity|].
  destruct Hj as (stored & Hstored & _ & Hnew);
    [vm_compute; reflexivity | vm_compute; reflexivity|].
  split.
  - exists row. split; [exact Hrows|]. rewrite Hrow. vm_compute. reflexivity.
  - injection Hstored as <-. exact Hnew.
Defined.



(** C3 as stated fails on the flat-file variant: after two captures the
    fetch lists entry 1 before entry 2. *)
Lemma C3_counterexample :
  let st := (JsonFile.run JsonFile.initial
               [JsonFile.CreateUrl "b" None; JsonFile.Capture hello "t1";
                JsonFile.Capture hello "t2"]).1 in
  exists name entries,
    (JsonFile.get_logs "b" st).2 = JsonLog name (Some entries) /\
    map logNumber entries = [1; 2] /\
    ~ StronglySorted (fun a b => logNumber b <= logNumber a) entries.
Proof.
  eexists _, _. split; [vm_compute; reflexivity|]. split; [reflexivity|].
  intros Hs. apply StronglySorted_inv in Hs as [_ Hall].
  apply Forall_cons in Hall as [Hle _]. simpl in Hle. lia.
Qed.

(** The fetch of a bin with two entries: the relational variant lists
    entry 2 before entry 1, the flat-file variant entry 1 before
    entry 2. *)
Lemma C3_witness :
  (exists entries,
     Sqlite.get_logs "b" sqlite_two =
       (sqlite_two, JsonLog (Some (JStr "Untitled")) (Some entries)) /\
     map logNumber entries = [2; 1] /\
     StronglySorted (fun a b => logNumber b <= logNumber a) entries) /\
  JsonFile.get_logs "b" json_two =
    (json_two,
     JsonLog (Some (JBool false))
       (Some [with_logNumber (request_data hello "t1") 1;
              with_logNumber (request_data hello "t2") 2])).
Proof.
  destruct (C3_fetch_log "b" sqlite_two json_two) as (Hs & _ & Hj & _).
  split.
  - destruct (Hs sqlite_two_db) as (entries & Hget & _ & Hsorted);
      [vm_compute; reflexivity|].
    exists entries. split; [exact Hget|]. split; [|exact Hsorted].
    assert ((Sqlite.get_logs "b" sqlite_two).2 =
            JsonLog (Some (JStr "Untitled"))
              (Some (map Sqlite.entry_of_row
                       [row_of (request_data hello "t2") 2;
                        row_of (request_data hello "t1") 1]))) as E
      by (vm_compute; reflexivity).
    rewrite Hget in E. simpl in E. injection E as ->. reflexivity.
  - apply (Hj json_two_doc). vm_compute. reflexivity.
Defined.

(** C4 fails on a capture that reaches the bin by another id.  The
    response object 7 is a viewer of the bin [b].  The request
    [POST /.%2Fb/x] is routed with the id [./b], which names the file of
    [b]: it is answered 200 and stored in [b] as entry 1, and nothing is
    written to the viewer.  A capture routed with the id [b] writes one
    data block to it. *)
Theorem C4_capture_by_another_id_is_not_announced :
  let st' := (Sqlite.capture dotted "t1" sqlite_watched).1 in
  7%nat ∈ default [] (Sqlite.sseClients sqlite_watched !! "b") /\
  route (originalUrl dotted) = Params "./b" /\
  Sqlite.dbPath "./b" = Sqlite.dbPath "b" /\
  (Sqlite.capture dotted "t1" sqlite_watched).2 = SendStatus 200 /\
  map Sqlite.r_logNumber <$>
    (Sqlite.requests <$> Sqlite.files sqlite_watched !! Sqlite.dbPath "b") = Some [] /\
  map Sqlite.r_logNumber <$>
    (Sqlite.requests <$> Sqlite.files st' !! Sqlite.dbPath "b") = Some [1] /\
  written (Sqlite.streams st') 7 = [] /\
  length (data_events
            (written (Sqlite.streams (Sqlite.capture hello "t1" sqlite_watched).1) 7))
    = 1%nat.
Proof.
  repeat split; try (vm_compute; reflexivity).
  vm_compute. left.
Qed.

(** C5 fails on the flat-file variant.  After a bin is created, captured
    to twice, its entry 1 deleted and captured to once more, it holds
    two entries numbered 2, those of the times [t2] and [t3]; the delete
    addressed to 2 is answered 200 and removes both. *)
Theorem C5_delete_removes_two_entries :
  let jst' := (JsonFile.delete_log "b" "2" json_twice_two).1 in
  map (fun e => (logNumber e, e_timestamp e)) <$>
    (JsonFile.files json_twice_two !! JsonFile.filePath "b" ≫= JsonFile.requests) =
    Some [(2, "t2"); (2, "t3")] /\
  (JsonFile.delete_log "b" "2" json_twice_two).2 = SendStatus 200 /\
  JsonFile.files jst' !! JsonFile.filePath "b" ≫= JsonFile.requests = Some [].
Proof. repeat split; vm_compute; reflexivity. Qed.




(** C8 as stated fails on the flat-file variant: a bin created with the
    name [mine] has the name [false]. *)
Lemma C8_counterexample :
  let st1 := (JsonFile.create_url "g" (Some "mine") JsonFile.initial).1 in
  (JsonFile.get_logs "g" st1).2 = JsonLog (Some (JBool false)) (Some []) /\
  Some (JBool false) <> Some (JStr "mine").
Proof. split; [vm_compute; reflexivity | discriminate]. Qed.

Lemma C8_witness :
  (Sqlite.get_logs "g" (Sqlite.create_url "g" (Some "mine") Sqlite.initial).1).2 =
    JsonLog (Some (JStr "mine")) (Some []) /\
  (JsonFile.get_logs "g" (JsonFile.create_url "g" (Some "mine") JsonFile.initial).1).2 =
    JsonLog (Some (JBool false)) (Some []).
Proof.
  destruct (C8_fetch_after_create "g" (Some "mine") Sqlite.initial JsonFile.initial)
    as [Hs [_ Hj]].
  destruct Hs as [_ Hs]; [reflexivity|].
  split; [exact Hs | exact Hj].
Defined.

Lemma C10_witness :
  (exists db',
     (Sqlite.capture hello "t3" sqlite_two).2 = SendStatus 200 /\
     Sqlite.files (Sqlite.capture hello "t3" sqlite_two).1 !! Sqlite.dbPath "b" = Some db' /\
     Sqlite.r_url <$> last (Sqlite.requests db') = Some "/b/hello?x=1") /\
  exists e,
    (JsonFile.capture hello "t3" json_two).2 = SendStatus 200 /\
    e_url e = "/b/hello?x=1".
Proof.
  destruct (C10_stored_url_is_the_original_url hello "t3" "b"
              sqlite_two sqlite_two_db json_two json_two_doc)
    as (_ & Hs & Hj); [vm_compute; reflexivity|].
  destruct Hs as (db' & row & Hdb' & Hrows & Hurl & Hreply);
    [vm_compute; reflexivity|].
  destruct Hj as (e & _ & Hjurl & Hjreply); [vm_compute; reflexivity|].
  pose proof b_is_no_inherited_key as Hb.
  split.
  - exists db'. split; [by apply Hreply|]. split; [exact Hdb'|].
    rewrite Hrows, last_snoc. simpl. by rewrite Hurl.
  - exists e. split; [by apply Hjreply | exact Hjurl].
Defined.

(** ** Runs for the further properties *)

Lemma sqlite_numbers_are_not_reused_witness :
  exists db1 row,
    Sqlite.files (Sqlite.delete_logs "b" None sqlite_two).1 !! Sqlite.dbPath "b" =
      Some db1 /\
    (Sqlite.logRequest "b" (request_data hello "t3")
       (Sqlite.delete_logs "b" None sqlite_two).1).2 =
      Returned {| status := 200; error := None |} /\
    Sqlite.requests <$>
      Sqlite.files (Sqlite.logRequest "b" (request_data hello "t3")
                      (Sqlite.delete_logs "b" None sqlite_two).1).1
        !! Sqlite.dbPath "b" = Some (Sqlite.requests db1 ++ [row]) /\
    Sqlite.r_logNumber row = 3.
Proof.
  destruct (sqlite_numbers_are_not_reused
              [Sqlite.CreateUrl "b" None; Sqlite.Capture hello "t1";
               Sqlite.Capture hello "t2"] "b" "2" None sqlite_two_db
              (request_data hello "t3"))
    with (st1 := (Sqlite.delete_logs "b" None sqlite_two).1)
    as (db1 & row & Hdb1 & Hlog & Hrows & Hnum & _).
  - vm_compute. reflexivity.
  - right. reflexivity.
  - exists db1, row. split; [exact Hdb1|].
    split; [apply Hlog, b_is_no_inherited_key|].
    split; [exact Hrows|]. rewrite Hnum. reflexivity.
Defined.

Lemma sqlite_fetch_is_reverse_insertion_order_witness :
  Sqlite.get_logs "b" sqlite_two =
    (sqlite_two,
     JsonLog (Some (JStr "Untitled"))
       (Some (map Sqlite.entry_of_row
                [row_of (request_data hello "t2") 2;
                 row_of (request_data hello "t1") 1]))).
Proof.
  apply (sqlite_fetch_is_reverse_insertion_order
           [Sqlite.CreateUrl "b" None; Sqlite.Capture hello "t1";
            Sqlite.Capture hello "t2"] "b" sqlite_two_db).
  vm_compute. reflexivity.
Defined.

Lemma delete_logs_keeps_the_others_witness :
  (exists st',
     Sqlite.delete_logs "b" (Some [1; 9]) sqlite_two = (st', SendStatus 200) /\
     Sqlite.requests <$> Sqlite.files st' !! Sqlite.dbPath "b" =
       Some [row_of (request_data hello "t2") 2]) /\
  exists jst',
    JsonFile.delete_logs "b" (Some [1; 9]) json_two = (jst', SendStatus 200) /\
    JsonFile.files jst' !! JsonFile.filePath "b" ≫= JsonFile.requests =
      Some [with_logNumber (request_data hello "t2") 2].
Proof.
  destruct (delete_logs_keeps_the_others "b" [1; 9] sqlite_two sqlite_two_db
              json_two json_two_doc
              [with_logNumber (request_data hello "t1") 1;
               with_logNumber (request_data hello "t2") 2]) as [Hs Hj].
  destruct Hs as [Hs _]; [vm_compute; reflexivity|].
  destruct Hs as (st' & Hs & Hdb & _); [vm_compute; intros Hc; discriminate Hc|].
  destruct Hj as (jst' & Hj & Hdoc & _); [vm_compute; reflexivity|reflexivity|].
  split.
  - exists st'. split; [exact Hs|]. rewrite Hdb. vm_compute. reflexivity.
  - exists jst'. split; [exact Hj|]. rewrite Hdoc. vm_compute. reflexivity.
Defined.

Lemma delete_logs_twice_witness :
  Sqlite.delete_logs "b" (Some [2]) (Sqlite.delete_logs "b" (Some [1]) sqlite_two).1 =
    Sqlite.delete_logs "b" (Some [1; 2]) sqlite_two.
Proof.
  destruct (delete_logs_twice "b" [1] [2] sqlite_two json_two) as [Hs _].
  apply Hs. vm_compute. intros Hc. discriminate Hc.
Defined.

Lemma delete_log_is_delete_logs_of_one_witness :
  Sqlite.delete_log "b" "1" sqlite_two = Sqlite.delete_logs "b" (Some [1]) sqlite_two /\
  (JsonFile.delete_log "b" "1" json_two).1 =
    (JsonFile.delete_logs "b" (Some [1]) json_two).1.
Proof.
  destruct (delete_log_is_delete_logs_of_one "b" "1" 1 sqlite_two json_two)
    as [Hs Hj].
  split; [apply Hs; reflexivity|]. apply Hj. reflexivity.
Defined.

Lemma delete_all_keeps_the_bin_witness :
  (Sqlite.get_logs "b" (Sqlite.delete_logs "b" None sqlite_two).1).2 =
    JsonLog (Some (JStr "Untitled")) (Some []) /\
  (JsonFile.get_logs "b" (JsonFile.delete_logs "b" None json_two).1).2 =
    JsonLog (Some (JBool false)) (Some []).
Proof.
  destruct (delete_all_keeps_the_bin "b" sqlite_two sqlite_two_db json_two json_two_doc)
    as [Hs Hj].
  destruct Hs as (_ & Hs & _); [vm_compute; reflexivity|].
  destruct Hj as (_ & Hj & _); [vm_compute; reflexivity|].
  split; [exact Hs | exact Hj].
Defined.

Lemma json_numbers_restart_after_emptying_witness :
  JsonFile.files (JsonFile.logRequest "b" (request_data hello "t3")
                    (JsonFile.delete_logs "b" None json_two).1).1
    !! JsonFile.filePath "b" ≫= JsonFile.requests =
    Some [with_logNumber (request_data hello "t3") 1].
Proof.
  destruct (json_numbers_restart_after_emptying "b" (request_data hello "t3")
              json_two json_two_doc) as (_ & Hdoc).
  - vm_compute. reflexivity.
  - rewrite Hdoc. reflexivity.
Defined.

Lemma sqlite_listing_is_the_bins_witness :
  exists rows, (Sqlite.get_urls sqlite_two).2 = JsonUrls rows /\ map s_guid rows = ["b"].
Proof.
  destruct (sqlite_listing_is_the_bins sqlite_two) as (_ & rows & Hrows & _).
  exists rows. split; [exact Hrows|].
  injection Hrows as <-. vm_compute. reflexivity.
Defined.

Lemma json_listing_is_the_bins_witness :
  exists rows,
    (JsonFile.get_urls json_two).2 = JsonUrls rows /\
    map s_name rows = [Some (JStr "Untitled")].
Proof.
  destruct (json_listing_is_the_bins json_two) as (_ & rows & Hrows & _).
  exists rows. split; [exact Hrows|].
  injection Hrows as <-. vm_compute. reflexivity.
Defined.

Lemma fetch_after_rename_witness :
  (exists entries,
     (Sqlite.get_logs "b" sqlite_two).2 =
       JsonLog (Some (JStr "Untitled")) (Some entries) /\
     (Sqlite.get_logs "b" (Sqlite.rename_url "b" "mine" sqlite_two).1).2 =
       JsonLog (Some (JStr "mine")) (Some entries)) /\
  (JsonFile.get_logs "b" (JsonFile.rename_url "b" (Some "mine") json_two).1).2 =
    JsonLog (Some (JStr "mine")) (JsonFile.requests json_two_doc).
Proof.
  destruct (fetch_after_rename
              [Sqlite.CreateUrl "b" None; Sqlite.Capture hello "t1";
               Sqlite.Capture hello "t2"] "b" "mine" sqlite_two_db
              json_two json_two_doc (Some "mine")) as [Hs Hj].
  destruct Hs as (_ & Hs & _); [vm_compute; reflexivity|].
  destruct Hj as (_ & _ & Hj & _); [vm_compute; reflexivity|].
  split; [exact Hs | exact Hj].
Defined.

Lemma sqlite_error_answers_change_nothing_witness :
  (Sqlite.step sqlite_two (Sqlite.RenameUrl "nobin" "mine")).1 = sqlite_two.
Proof.
  apply sqlite_error_answers_change_nothing. vm_compute. lia.
Defined.

Lemma json_error_answers_change_nothing_witness :
  (JsonFile.step json_two (JsonFile.DeleteLog "nobin" "1")).1 = json_two.
Proof.
  apply json_error_answers_change_nothing. vm_compute. lia.
Defined.

Lemma only_create_and_delete_change_the_bins_witness :
  dom (Sqlite.files (Sqlite.step sqlite_two (Sqlite.Capture hello "t3")).1) =
    dom (Sqlite.files sqlite_two) /\
  dom (JsonFile.files (JsonFile.step json_two (JsonFile.DeleteLogs "b" None)).1) =
    dom (JsonFile.files json_two).
Proof.
  destruct (only_create_and_delete_change_the_bins sqlite_two
              (Sqlite.Capture hello "t3") json_two (JsonFile.DeleteLogs "b" None))
    as [Hs Hj].
  split; [apply Hs; reflexivity|]. apply Hj. reflexivity.
Defined.

Lemma viewer_gone_after_close_witness :
  let st2 := (Sqlite.close "b" 7 (Sqlite.logs_stream "b" 7 sqlite_two).1).1 in
  Sqlite.sseClients st2 !! "b" = Some [] /\
  written (Sqlite.streams
             (Sqlite.run st2 [Sqlite.Tick 7; Sqlite.Capture hello "t3"]).1) 7 = [].
Proof.
  destruct (viewer_gone_after_close sqlite_two "b" 7
              [Sqlite.Tick 7; Sqlite.Capture hello "t3"])
    as (_ & Hlist & _ & _ & _ & Hsilent).
  - split.
    + intros g l. change (Sqlite.sseClients sqlite_two)
        with (∅ : gmap string (list nat)). by rewrite lookup_empty.
    + change (Sqlite.keepAlive sqlite_two) with (∅ : gset nat).
      apply not_elem_of_empty.
  - vm_compute. reflexivity.
  - reflexivity.
  - split; [exact Hlist | exact Hsilent].
Defined.

Lemma close_after_delete_throws_witness :
  (Sqlite.close "b" 7 (Sqlite.delete_url "b" sqlite_watched).1).2 =
    Uncaught "TypeError: Cannot read properties of undefined (reading 'filter')" /\
  (JsonFile.close "b" 7 (JsonFile.delete_url "b" json_two).1).2 =
    Uncaught "TypeError: Cannot read properties of undefined (reading 'filter')".
Proof.
  destruct (close_after_delete_throws "b" 7 sqlite_watched json_two) as [Hs Hj].
  destruct Hs as (m & Hs & Hm); [vm_compute; eexists; reflexivity|].
  destruct Hj as (jm & Hj & Hjm); [vm_compute; eexists; reflexivity|].
  split.
  - rewrite Hs, (Hm b_is_no_inherited_key). reflexivity.
  - rewrite Hj, (Hjm b_is_no_inherited_key). reflexivity.
Defined.

Lemma capture_touches_one_bin_witness :
  written (Sqlite.streams (Sqlite.capture hello "t1" sqlite_watched).1) 8 = [] /\
  length (written (Sqlite.streams (Sqlite.capture hello "t1" sqlite_watched).1) 7) = 1%nat.
Proof.
  destruct (capture_touches_one_bin hello "t1" "b" sqlite_watched json_two)
    as [Hs _]; [vm_compute; reflexivity|].
  destruct Hs as (chunk & _ & _ & _ & Hout & Hin); [vm_compute; eexists; reflexivity|].
  split.
  - rewrite Hout; [reflexivity|].
    change (default [] (Sqlite.sseClients sqlite_watched !! "b")) with [7%nat].
    intros Hin8%list_elem_of_singleton. discriminate.
  - rewrite Hin; [reflexivity| |].
    + change (default [] (Sqlite.sseClients sqlite_watched !! "b")) with [7%nat].
      by apply list_elem_of_singleton.
    + change (default [] (Sqlite.sseClients sqlite_watched !! "b")) with [7%nat].
      apply NoDup_singleton.
Defined.


Lemma route_ignores_the_query_witness :
  route_guid "/b/hello?x=1" = route_guid "/b/hello".
Proof. apply (route_ignores_the_query "/b/hello" "x=1"). reflexivity. Defined.



(** The import of a document with two entries, numbered 2 and 5, whose
    name is [false]. *)
Lemma import_numbers_the_entries_anew_witness :
  exists db',
    Importer.importJsonToDb (fun _ => "0")
      {| JsonFile.name := Some (JBool false);
         JsonFile.requests :=
           Some [with_logNumber (request_data hello "t2") 2;
                 with_logNumber (request_data hello "t5") 5] |} ∅
      !! Sqlite.dbPath "b" = Some db' /\
    map Sqlite.r_logNumber (Sqlite.requests db') = [1; 2] /\
    Sqlite.metadata db' = [Some "0"].
Proof.
  destruct (import_numbers_the_entries_anew (fun _ => "0")
              {| JsonFile.name := Some (JBool false);
                 JsonFile.requests :=
                   Some [with_logNumber (request_data hello "t2") 2;
                         with_logNumber (request_data hello "t5") 5] |}
              (with_logNumber (request_data hello "t2") 2)
              [with_logNumber (request_data hello "t5") 5] ∅)
    as [Himport _].
  destruct Himport as (db' & rows & Hdb' & Hmeta & _ & _ & Hfresh & _);
    [reflexivity|].
  exists db'. split; [exact Hdb'|]. split.
  - rewrite Hfresh; [reflexivity|]. vm_compute. reflexivity.
  - rewrite Hmeta. reflexivity.
Defined.

Lemma parseInt_reads_the_leading_digits_witness :
  parseInt "2abc" = Some 2 /\
  JsonFile.delete_log "b" "2abc" json_two = JsonFile.delete_log "b" "2" json_two.
Proof.
  destruct (parseInt_reads_the_leading_digits "2" "abc" "b" json_two Legacy.initial)
    as (Hparse & _ & Hj & _); [reflexivity|discriminate|reflexivity|].
  split; [|exact Hj]. transitivity (parseInt "2"); [exact Hparse | reflexivity].
Defined.

Lemma sqlite_first_and_last_time_witness :
  Sqlite.aggregate Sqlite.text_min (Sqlite.requests sqlite_two_db) = Some "t1" /\
  Sqlite.aggregate Sqlite.text_max (Sqlite.requests sqlite_two_db) = Some "t2" /\
  text_le "t1" "t2".
Proof.
  destruct (sqlite_first_and_last_time (Sqlite.requests sqlite_two_db) "t1" "t2")
    as (_ & _ & Hall); [reflexivity|reflexivity|].
  split; [reflexivity|]. split; [reflexivity|].
  apply (Hall (row_of (request_data hello "t2") 2)). right. left.
Defined.

(** A viewer of the bin [b] through two captures with a firing of its
    timer between them: three chunks, two of them data events, the
    second of which carries the number 2. *)
Lemma one_data_event_per_capture_witness :
  let evs := [Sqlite.Capture hello "t1"; Sqlite.Tick 7; Sqlite.Capture hello "t2"] in
  let st' := (Sqlite.run sqlite_watched evs).1 in
  length (written (Sqlite.streams st') 7) = 3%nat /\
  exists numbers objects,
    numbers = [1; 2] /\
    data_events (written (Sqlite.streams st') 7) = map plain_stringify objects /\
    Forall2 (fun v dn => announces v dn.1 dn.2) objects (zip (captured evs) numbers).
Proof.
  intros evs st'. split; [vm_compute; reflexivity|].
  destruct (one_data_event_per_capture
              (Sqlite.create_url "b" None Sqlite.initial).1 "b"
              {| Sqlite.metadata := [Some "Untitled"]; Sqlite.requests := [];
                 Sqlite.sqlite_sequence := 0 |} 7%nat evs)
    as (db' & numbers & objects & Hdb' & Hnum & _ & Hdata & Hall & _).
  - vm_compute. reflexivity.
  - apply NoDup_nil_2.
  - apply not_elem_of_nil.
  - vm_compute. reflexivity.
  - vm_compute. reflexivity.
  - exists numbers, objects. split; [|split; [exact Hdata | exact Hall]].
    assert (Sqlite.files st' !! Sqlite.dbPath "b" =
            Some {| Sqlite.metadata := [Some "Untitled"];
                    Sqlite.requests := [row_of (request_data hello "t1") 1;
                                        row_of (request_data hello "t2") 2];
                    Sqlite.sqlite_sequence := 2 |}) as E
      by (vm_compute; reflexivity).
    change (Sqlite.run (Sqlite.logs_stream "b" 7
                          (Sqlite.create_url "b" None Sqlite.initial).1).1 evs).1
      with st' in Hdb'.
    rewrite E in Hdb'. injection Hdb' as <-. simpl in Hnum. by rewrite Hnum.
Defined.

Lemma capture_by_another_id_of_the_bin_witness :
  Sqlite.dbPath "./b" = Sqlite.dbPath "b" /\
  (Sqlite.capture dotted "t1" sqlite_watched).2 = SendStatus 200 /\
  Sqlite.files (Sqlite.capture dotted "t1" sqlite_watched).1 !! Sqlite.dbPath "b" =
    Some (Sqlite.insert_request (request_data dotted "t1")
            {| Sqlite.metadata := [Some "Untitled"]; Sqlite.requests := [];
               Sqlite.sqlite_sequence := 0 |}).2 /\
  written (Sqlite.streams (Sqlite.capture dotted "t1" sqlite_watched).1) 7 =
    written (Sqlite.streams sqlite_watched) 7.
Proof.
  destruct (capture_by_another_id_of_the_bin dotted "t1" "b" "./b" sqlite_watched
              {| Sqlite.metadata := [Some "Untitled"]; Sqlite.requests := [];
                 Sqlite.sqlite_sequence := 0 |} 7) as [Hs Hpath].
  destruct Hpath as [Hpath _]; [reflexivity|].
  destruct Hs as (Hfile & Hsilent & Hreply);
    [vm_compute; reflexivity | exact Hpath | vm_compute; reflexivity
     | vm_compute; apply not_elem_of_nil |].
  split; [exact Hpath|]. split; [|split; [exact Hfile | exact Hsilent]].
  apply Hreply. unfold Object_prototype. intros Hin.
  repeat (apply elem_of_cons in Hin as [Hin|Hin]; [discriminate Hin|]).
  by apply elem_of_nil in Hin.
Defined.

(** The bin id [constructor], for a bin the importer has made. *)
Lemma inherited_key_as_bin_id_witness :
  let st := Sqlite.set_files
              (Importer.importJsonToDb (fun _ => "0")
                 {| JsonFile.name := Some (JStr "mine");
                    JsonFile.requests :=
                      Some [with_logNumber (request_data inherited "t1") 1] |} ∅)
              Sqlite.initial in
  (Sqlite.capture inherited "t2" st).2 =
    Uncaught "TypeError: sseClients[guid].forEach is not a function" /\
  map Sqlite.r_logNumber <$>
    (Sqlite.requests <$>
       Sqlite.files (Sqlite.capture inherited "t2" st).1 !! Sqlite.dbPath "constructor") =
    Some [1; 2] /\
  status_of (Sqlite.logs_stream "constructor" 7 st).2 = 500%nat.
Proof.
  intros st.
  destruct (inherited_key_as_bin_id inherited "t2" "constructor" st
              {| Sqlite.metadata := [Some "mine"];
                 Sqlite.requests := [row_of (request_data inherited "t1") 1];
                 Sqlite.sqlite_sequence := 1 |} 7)
    as (Hcapture & _ & Hstatus).
  - unfold Object_prototype. left.
  - reflexivity.
  - rewrite Hcapture; [|vm_compute; reflexivity|vm_compute; reflexivity].
    split; [reflexivity|]. split; [vm_compute; reflexivity | exact Hstatus].
Defined.

(** Deleting entry 1 of two leaves entry 2, still numbered 2. *)
Lemma delete_log_keeps_the_others_witness :
  (exists st' db',
     Sqlite.delete_log "b" "1" sqlite_two = (st', SendStatus 200) /\
     Sqlite.files st' !! Sqlite.dbPath "b" = Some db' /\
     Sqlite.requests db' = [row_of (request_data hello "t2") 2]) /\
  exists jst',
    JsonFile.delete_log "b" "1" json_two = (jst', SendStatus 200) /\
    JsonFile.files jst' !! JsonFile.filePath "b" ≫= JsonFile.requests =
      Some [with_logNumber (request_data hello "t2") 2].
Proof.
  destruct (delete_log_keeps_the_others "b" "1" 1
              sqlite_two sqlite_two_db (row_of (request_data hello "t1") 1)
              json_two json_two_doc
              [with_logNumber (request_data hello "t1") 1;
               with_logNumber (request_data hello "t2") 2]
              (with_logNumber (request_data hello "t1") 1))
    as [Hs Hj].
  destruct Hs as (st' & db' & Hs & Hdb' & _ & _ & Hrows & _);
    [vm_compute; reflexivity | left | reflexivity | reflexivity |].
  destruct Hj as (jst' & kept & Hj & Hdoc & _ & Hkept & _);
    [vm_compute; reflexivity | reflexivity | left | reflexivity | reflexivity |].
  split.
  - exists st', db'. split; [exact Hs|]. split; [exact Hdb'|].
    rewrite Hrows. vm_compute. reflexivity.
  - exists jst'. split; [exact Hj|]. rewrite Hdoc, Hkept.
    vm_compute. reflexivity.
Defined.

Lemma sqlite_delete_log_removes_one_witness :
  exists before after,
    [row_of (request_data hello "t1") 1; row_of (request_data hello "t2") 2] =
      before ++ row_of (request_data hello "t1") 1 :: after /\
    Sqlite.requests <$>
      Sqlite.files (Sqlite.delete_log "b" "1" sqlite_two).1 !! Sqlite.dbPath "b" =
      Some (before ++ after).
Proof.
  destruct (sqlite_delete_log_removes_one
              [Sqlite.CreateUrl "b" None; Sqlite.Capture hello "t1";
               Sqlite.Capture hello "t2"] "b" "1" sqlite_two_db
              (row_of (request_data hello "t1") 1))
    as (before & after & Hsplit & Hdelete);
    [vm_compute; reflexivity | left | reflexivity |].
  exists before, after. split; [exact Hsplit|].
  change (Sqlite.run Sqlite.initial
            [Sqlite.CreateUrl "b" None; Sqlite.Capture hello "t1";
             Sqlite.Capture hello "t2"]).1 with sqlite_two in Hdelete.
  rewrite Hdelete. simpl. by rewrite lookup_insert_eq.
Defined.
